(** * Prompt moderation API: status transitions, vote tally, notation

    A shallow embedding of the Flask routes of [app/routes/votes.py] and
    [app/routes/prompts.py] together with [execute_query] of
    [app/utils/db.py].  The PostgreSQL tables are lists of rows, every SQL
    statement is a function on the database, and a route is a program over
    the single effect the routes have: a call of [execute_query]. *)

From Stdlib Require Import ZArith List String Bool Lia QArith Qround.
From Stdlib Require Import DecimalString Permutation Sorted.
Import ListNotations.
Open Scope string_scope.
Open Scope list_scope.
Open Scope Z_scope.

(** ** Tables

    The columns are the ones the statements of the routes read or write.
    Ids are integers, timestamps are readings of a clock, [id_groupe] is
    nullable ([NULL] is [None]).  The DDL is not part of the sources:
    whether [vote] carries a unique constraint on
    [(id_utilisateur, id_prompt)] is a field of the database, which the
    insertion consults; primary and foreign keys are the predicate
    [integrity] below, assumed where a property needs them. *)

Record utilisateur := mk_utilisateur {
  u_id_utilisateur : Z;
  u_email : string;
  u_role : string;
  u_id_groupe : option Z
}.

Record prompt := mk_prompt {
  p_id_prompt : Z;
  p_description : string;
  p_prix : Z;
  p_statut : string;
  p_id_createur : Z;
  p_date_creation : Z;
  p_date_derniere_modification : Z
}.

Record vote := mk_vote {
  v_id_vote : Z;
  v_id_utilisateur : Z;
  v_id_prompt : Z
}.

Record note := mk_note {
  n_id_note : Z;
  n_id_utilisateur : Z;
  n_id_prompt : Z;
  n_valeur : Z
}.

Record DB := mk_DB {
  t_utilisateur : list utilisateur;
  t_prompt : list prompt;
  t_vote : list vote;
  t_note : list note;
  vote_id_seq : Z;
  vote_unique : bool
}.

(** ** SQL expressions: three-valued logic, joins, aggregates *)

Module Sql.

(** [a = b] on nullable integers: unknown as soon as one side is NULL. *)
Definition eq (a b : option Z) : option bool :=
  match a, b with
  | Some x, Some y => Some (x =? y)
  | _, _ => None
  end.

Definition is_not_null {A} (a : option A) : option bool :=
  match a with Some _ => Some true | None => Some false end.

Definition and (a b : option bool) : option bool :=
  match a, b with
  | Some false, _ => Some false
  | _, Some false => Some false
  | Some true, Some true => Some true
  | _, _ => None
  end.

(** A [WHEN] (or [WHERE], or [ON]) condition selects only when it is true. *)
Definition holds (c : option bool) : bool :=
  match c with Some true => true | _ => false end.

(** [l JOIN r ON on]: the pairs of rows that satisfy the condition. *)
Definition join {A B} (l : list A) (r : list B) (on : A -> B -> bool)
  : list (A * B) :=
  flat_map (fun a => map (pair a) (filter (on a) r)) l.

(** [SUM] over no row is NULL. *)
Definition sum (l : list Z) : option Z :=
  match l with
  | [] => None
  | _ => Some (fold_right Z.add 0 l)
  end.

Definition sumQ (l : list Q) : option Q :=
  match l with
  | [] => None
  | _ => Some (fold_right Qplus (0#1)%Q l)
  end.

Definition count {A} (l : list A) : Z := Z.of_nat (List.length l).

Definition coalesce {A} (a : option A) (d : A) : A :=
  match a with Some x => x | None => d end.

End Sql.

(** ** JSON values and responses *)

#[local] Set Warnings "-register-all".

Inductive json :=
| JNull
| JInt (z : Z)
| JNum (q : Q)
| JStr (s : string)
| JList (l : list json)
| JDict (kv : list (string * json)).

Record response := mk_response {
  body : json;
  status_code : Z
}.

Definition jsonify (j : json) (code : Z) : response := mk_response j code.

Fixpoint assoc (k : string) (kv : list (string * json)) : option json :=
  match kv with
  | [] => None
  | (k', v) :: rest => if String.eqb k k' then Some v else assoc k rest
  end.

(** [r.json[k]] *)
Definition field (k : string) (r : response) : option json :=
  match body r with
  | JDict kv => assoc k kv
  | _ => None
  end.

(** ** Programs over [execute_query]

    A statement maps the database to its result and the database it leaves,
    or fails ([None]: the statement raised, e.g. on a constraint).  A route
    is a tree of [execute_query] calls; the continuation receives [None]
    when the call raised. *)

Definition statement (A : Type) := DB -> option (A * DB).

Inductive prog (R : Type) : Type :=
| Ret (r : R)
| Throw (e : string)
| Exec {A : Type} (q : statement A) (k : option A -> prog R).

Arguments Ret {R} r.
Arguments Throw {R} e.
Arguments Exec {R A} q k.

Definition db_error : string := "database error".

(** [x = execute_query(q)]: an exception leaves the current block. *)
Definition execute_query {R A} (q : statement A) (k : A -> prog R) : prog R :=
  Exec q (fun o => match o with Some a => k a | None => Throw db_error end).

Notation "x <- 'execute_query' q ;; k" :=
  (execute_query q (fun x => k))
  (at level 61, q at next level, right associativity).

(** [l[0]] raises IndexError on the empty list. *)
Definition index0 {R A} (l : list A) (k : A -> prog R) : prog R :=
  match l with
  | a :: _ => k a
  | [] => Throw "list index out of range"
  end.

Notation "x <- l '[0]' ;; k" :=
  (index0 l (fun x => k))
  (at level 61, l at next level, right associativity).

(** [try: p except Exception as e: h(e)] *)
Fixpoint try_except {R} (p : prog R) (h : string -> prog R) : prog R :=
  match p with
  | Ret r => Ret r
  | Throw e => h e
  | Exec q k => Exec q (fun o => try_except (k o) h)
  end.

(** [execute_query] of app/utils/db.py: a fresh connection per call; the
    statement is committed on its own, or rolled back when anything raises.
    [fault] says that the environment fails this call (connection lost,
    server down), which the statement cannot see. *)
Definition commit_or_rollback {A} (q : statement A) (fault : bool) (db : DB)
  : option A * DB :=
  if fault then (None, db)
  else match q db with
       | Some (a, db') => (Some a, db')
       | None => (None, db)
       end.

(** A request served alone.  [faults n] says whether the environment fails
    the [n]-th call of [execute_query] the request makes.  An exception no
    [try] catches reaches Flask ([None]: the generic 500 page). *)
Definition oracle := nat -> bool.

Definition no_fault : oracle := fun _ => false.

Fixpoint run {R} (p : prog R) (faults : oracle) (db : DB) : option R * DB :=
  match p with
  | Ret r => (Some r, db)
  | Throw _ => (None, db)
  | Exec q k =>
      let '(o, db') := commit_or_rollback q (faults 0%nat) db in
      run (k o) (fun n => faults (S n)) db'
  end.

Definition internal_server_error : response :=
  jsonify (JDict [("error", JStr "Internal Server Error")]) 500.

Definition serve (p : prog response) (faults : oracle) (db : DB)
  : response * DB :=
  let '(o, db') := run p faults db in
  (match o with Some r => r | None => internal_server_error end, db').

(** ** Statements shared by the routes *)

Definition select {A} (f : DB -> A) : statement A :=
  fun db => Some (f db, db).

Definition with_prompts (db : DB) (ps : list prompt) : DB :=
  mk_DB (t_utilisateur db) ps (t_vote db) (t_note db)
        (vote_id_seq db) (vote_unique db).

Definition with_votes (db : DB) (vs : list vote) (next : Z) : DB :=
  mk_DB (t_utilisateur db) (t_prompt db) vs (t_note db)
        next (vote_unique db).

Definition set_statut (s : string) (t : Z) (p : prompt) : prompt :=
  mk_prompt (p_id_prompt p) (p_description p) (p_prix p) s
            (p_id_createur p) (p_date_creation p) t.

(** [UPDATE prompt SET statut = s, date_derniere_modification = t
     WHERE id_prompt = prompt_id RETURNING ...]: the rows it returns are the
    updated rows. *)
Definition update_statut (s : string) (t : Z) (prompt_id : Z)
  : statement (list prompt) :=
  fun db =>
    let hit p := p_id_prompt p =? prompt_id in
    let ps := map (fun p => if hit p then set_statut s t p else p) (t_prompt db) in
    Some (filter hit ps, with_prompts db ps).

(** The group condition of both weighted aggregates:
    [u1.id_groupe = u2.id_groupe AND u1.id_groupe IS NOT NULL]. *)
Definition same_group (u1 u2 : utilisateur) : bool :=
  Sql.holds (Sql.and (Sql.eq (u_id_groupe u1) (u_id_groupe u2))
                     (Sql.is_not_null (u_id_groupe u1))).

(** [FROM vote v JOIN utilisateur u1 ON v.id_utilisateur = u1.id_utilisateur
     JOIN prompt p ON v.id_prompt = p.id_prompt
     JOIN utilisateur u2 ON p.id_createur = u2.id_utilisateur
     WHERE v.id_prompt = prompt_id] *)
Definition vote_rows (prompt_id : Z) (db : DB)
  : list (vote * utilisateur * prompt * utilisateur) :=
  filter (fun '(v, _, _, _) => v_id_prompt v =? prompt_id)
    (Sql.join
       (Sql.join
          (Sql.join (t_vote db) (t_utilisateur db)
             (fun v u1 => v_id_utilisateur v =? u_id_utilisateur u1))
          (t_prompt db)
          (fun '(v, _) p => v_id_prompt v =? p_id_prompt p))
       (t_utilisateur db)
       (fun '(_, _, p) u2 => p_id_createur p =? u_id_utilisateur u2)).

(** [SELECT SUM(CASE WHEN ... THEN 2 ELSE 1 END) AS total_points]: one row,
    whose column is NULL when no vote row is selected.  The statement is the
    same text in votes.py and in prompts.py. *)
Definition points_query (prompt_id : Z) : statement (list (option Z)) :=
  select (fun db =>
    [Sql.sum (map (fun '(_, u1, _, u2) => if same_group u1 u2 then 2 else 1)
                  (vote_rows prompt_id db))]).

(** [x if x else 0] on the column: None and 0 are both falsy. *)
Definition or_zero (x : option Z) : Z :=
  match x with
  | Some t => if t =? 0 then 0 else t
  | None => 0
  end.

(** ** app/routes/votes.py *)

Module Votes.

(** [SELECT p.id_prompt, p.statut, p.id_createur FROM prompt p
     WHERE p.id_prompt = prompt_id] *)
Definition check_query (prompt_id : Z) : statement (list prompt) :=
  select (fun db => filter (fun p => p_id_prompt p =? prompt_id) (t_prompt db)).

(** [SELECT id_vote FROM vote WHERE id_utilisateur = .. AND id_prompt = ..] *)
Definition check_vote_query (user_id prompt_id : Z) : statement (list Z) :=
  select (fun db =>
    map v_id_vote
      (filter (fun v => (v_id_utilisateur v =? user_id)
                        && (v_id_prompt v =? prompt_id)) (t_vote db))).

(** [INSERT INTO vote (id_utilisateur, id_prompt) VALUES (..)
     RETURNING id_vote]: the id comes from the table's sequence; the
  insertion raises when the table is declared unique on the pair and the
  pair is there. *)
Definition vote_query (user_id prompt_id : Z) : statement (list Z) :=
  fun db =>
    if vote_unique db
       && existsb (fun v => (v_id_utilisateur v =? user_id)
                            && (v_id_prompt v =? prompt_id)) (t_vote db)
    then None
    else
      let id := vote_id_seq db in
      Some ([id], with_votes db (t_vote db ++ [mk_vote id user_id prompt_id])
                                (id + 1)).

(** [UPDATE prompt SET statut = 'activer',
     date_derniere_modification = CURRENT_TIMESTAMP WHERE id_prompt = ..
     RETURNING id_prompt, statut] *)
Definition update_query (now prompt_id : Z) : statement (list json) :=
  fun db =>
    match update_statut "activer" now prompt_id db with
    | Some (rows, db') =>
        Some (map (fun p => JDict [("id_prompt", JInt (p_id_prompt p));
                                   ("statut", JStr (p_statut p))]) rows, db')
    | None => None
    end.

(** [vote_prompt(prompt_id)], for the identity of the token and the time
    [now] of the database clock. *)
Definition vote_prompt (now current_user_id prompt_id : Z) : prog response :=
  prompt <- execute_query (check_query prompt_id) ;;
  match prompt with
  | [] => Ret (jsonify (JDict [("error", JStr "Prompt non trouvé")]) 404)
  | prompt0 :: _ =>
    if negb (String.eqb (p_statut prompt0) "rappel") then
      Ret (jsonify (JDict [("error", JStr "Ce prompt n'est pas en état de Rappel")]) 400)
    else if p_id_createur prompt0 =? current_user_id then
      Ret (jsonify (JDict [("error", JStr "Vous ne pouvez pas voter pour votre propre prompt")]) 403)
    else
      existing_vote <- execute_query (check_vote_query current_user_id prompt_id) ;;
      match existing_vote with
      | _ :: _ =>
          Ret (jsonify (JDict [("error", JStr "Vous avez déjà voté pour ce prompt")]) 409)
      | [] =>
        try_except
          (result <- execute_query (vote_query current_user_id prompt_id) ;;
           points_result <- execute_query (points_query prompt_id) ;;
           row <- points_result [0] ;;
           let total_points := or_zero row in
           if total_points >=? 6 then
             update_result <- execute_query (update_query now prompt_id) ;;
             id_vote <- result [0] ;;
             updated <- update_result [0] ;;
             Ret (jsonify (JDict
                    [("message", JStr "Vote enregistré avec succès. Le prompt a été activé.");
                     ("vote_id", JInt id_vote);
                     ("total_points", JInt total_points);
                     ("prompt", updated)]) 200)
           else
             id_vote <- result [0] ;;
             Ret (jsonify (JDict
                    [("message", JStr "Vote enregistré avec succès");
                     ("vote_id", JInt id_vote);
                     ("total_points", JInt total_points);
                     ("points_needed", JInt (6 - total_points))]) 200))
          (fun e => Ret (jsonify (JDict [("error", JStr e)]) 500))
      end
  end.

End Votes.

(** ** app/routes/prompts.py *)

(** The claims of a token issued by [authenticate_user] (app/utils/auth.py):
    the identity is the user's id, and ['role'] is always set. *)
Record jwt := mk_jwt {
  jwt_identity : Z;
  jwt_role : string
}.

(** What the routes without [@jwt_required()] read of a request:
    [request.args.get('statut')] and [request.headers.get('Authorization')]. *)
Record request := mk_request {
  args_statut : option string;
  headers_authorization : option string
}.

Definition jwt_not_verified : string :=
  "You must call `@jwt_required()` or `verify_jwt_in_request()` before using this method".

(** [get_jwt()] of flask_jwt_extended: the claims that [@jwt_required()]
    decoded and stored for the request; it raises RuntimeError when none
    were stored, as on a route without the decorator. *)
Definition get_jwt {R} (decoded : option jwt) (k : jwt -> prog R) : prog R :=
  match decoded with
  | Some claims => k claims
  | None => Throw jwt_not_verified
  end.

(** The truth value of [request.headers.get('Authorization')]. *)
Definition has_authorization (req : request) : bool :=
  match headers_authorization req with
  | Some header => negb (String.eqb header "")
  | None => false
  end.

(** [jwt_data = get_jwt() if request.headers.get('Authorization') else None]
    on a route without [@jwt_required()]: no claims were decoded. *)
Definition jwt_if_authorization {R} (req : request) (k : option jwt -> prog R)
  : prog R :=
  if has_authorization req then get_jwt None (fun claims => k (Some claims))
  else k None.

(** What is not of the sources in the weighted average: the quotient of
    PostgreSQL's numeric division (rounded at the scale the server
    selects) of the exact sum by the count, the numeric the literal [0] of
    the [COALESCE] is, and the JSON [jsonify] gives the [Decimal] that
    psycopg2 hands over. *)
Record numeric_model := mk_numeric_model {
  numeric : Type;
  numeric_div : Q -> Z -> numeric;
  numeric_zero : numeric;
  numeric_json : numeric -> json
}.

(** [ORDER BY]: a stable insertion sort by a total preorder. *)
Fixpoint insert_by {A} (le : A -> A -> bool) (x : A) (l : list A) : list A :=
  match l with
  | [] => [x]
  | y :: t => if le x y then x :: l else y :: insert_by le x t
  end.

Definition order_by {A} (le : A -> A -> bool) (l : list A) : list A :=
  fold_right (insert_by le) [] l.

Module Prompts.

(** [FROM prompt p JOIN utilisateur u ON p.id_createur = u.id_utilisateur] *)
Definition prompt_createur (db : DB) : list (prompt * utilisateur) :=
  Sql.join (t_prompt db) (t_utilisateur db)
           (fun p u => p_id_createur p =? u_id_utilisateur u).

(** The columns [p.id_prompt, p.description, p.prix, p.statut,
    p.date_creation, u.id_utilisateur, u.email as createur_email]. *)
Definition prompt_row (r : prompt * utilisateur) : list (string * json) :=
  let '(p, u) := r in
  [("id_prompt", JInt (p_id_prompt p));
   ("description", JStr (p_description p));
   ("prix", JInt (p_prix p));
   ("statut", JStr (p_statut p));
   ("date_creation", JInt (p_date_creation p));
   ("id_utilisateur", JInt (u_id_utilisateur u));
   ("createur_email", JStr (u_email u))].

(** [... WHERE p.statut = statut ORDER BY p.date_creation DESC] *)
Definition prompts_query (statut : string) : statement (list (prompt * utilisateur)) :=
  select (fun db =>
    order_by (fun a b => p_date_creation (fst b) <=? p_date_creation (fst a))
      (filter (fun '(p, _) => String.eqb (p_statut p) statut) (prompt_createur db))).

Definition is_admin (j : option jwt) : bool :=
  match j with
  | Some claims => String.eqb (jwt_role claims) "admin"
  | None => false
  end.

Definition get_prompts (req : request) : prog response :=
  let statut := match args_statut req with Some s => s | None => "activer" end in
  jwt_if_authorization req (fun jwt_data =>
    let statut := if negb (is_admin jwt_data) then "activer" else statut in
    try_except
      (prompts <- execute_query (prompts_query statut) ;;
       Ret (jsonify (JList (map (fun r => JDict (prompt_row r)) prompts)) 200))
      (fun e => Ret (jsonify (JDict [("error", JStr e)]) 500))).

(** [... WHERE p.id_prompt = prompt_id] *)
Definition prompt_query (prompt_id : Z) : statement (list (prompt * utilisateur)) :=
  select (fun db =>
    filter (fun '(p, _) => p_id_prompt p =? prompt_id) (prompt_createur db)).

(** [FROM note n JOIN utilisateur u1 ON n.id_utilisateur = u1.id_utilisateur
     JOIN prompt p ON n.id_prompt = p.id_prompt
     JOIN utilisateur u2 ON p.id_createur = u2.id_utilisateur
     WHERE p.id_prompt = prompt_id] *)
Definition note_rows (prompt_id : Z) (db : DB)
  : list (note * utilisateur * prompt * utilisateur) :=
  filter (fun '(_, _, p, _) => p_id_prompt p =? prompt_id)
    (Sql.join
       (Sql.join
          (Sql.join (t_note db) (t_utilisateur db)
             (fun n u1 => n_id_utilisateur n =? u_id_utilisateur u1))
          (t_prompt db)
          (fun '(n, _) p => n_id_prompt n =? p_id_prompt p))
       (t_utilisateur db)
       (fun '(_, _, p) u2 => p_id_createur p =? u_id_utilisateur u2)).

(** [n.valeur * 0.6] and [n.valeur * 0.4]: exact decimals. *)
Definition weighted (r : note * utilisateur * prompt * utilisateur) : Q :=
  let '(n, u1, _, u2) := r in
  if same_group u1 u2 then (inject_Z (n_valeur n) * (6 # 10))%Q
  else (inject_Z (n_valeur n) * (4 # 10))%Q.

(** [a / n] on numerics: NULL when [a] is NULL, an error when [n] is 0
    and [a] is not, else the quotient the database gives. *)
Definition div (nm : numeric_model) (a : option Q) (n : Z)
  : option (option (numeric nm)) :=
  match a with
  | None => Some None
  | Some x => if n =? 0 then None else Some (Some (numeric_div nm x n))
  end.

(** [SELECT COALESCE(SUM(CASE ...) / COUNT( * ), 0) AS moyenne_ponderee,
     COUNT(n.id_note) AS nombre_notes]: one row.  The products and their
    sum are exact. *)
Definition note_query (nm : numeric_model) (prompt_id : Z)
  : statement (list (numeric nm * Z)) :=
  fun db =>
    let rows := note_rows prompt_id db in
    match div nm (Sql.sumQ (map weighted rows)) (Sql.count rows) with
    | Some quotient =>
        Some ([(Sql.coalesce quotient (numeric_zero nm),
                Sql.count (map (fun '(n, _, _, _) => n_id_note n) rows))], db)
    | None => None
    end.

Definition notation_row (nm : numeric_model) (r : numeric nm * Z) : json :=
  JDict [("moyenne_ponderee", numeric_json nm (fst r));
         ("nombre_notes", JInt (snd r))].

Definition get_prompt (nm : numeric_model) (prompt_id : Z) (req : request)
  : prog response :=
  try_except
    (result <- execute_query (prompt_query prompt_id) ;;
     match result with
     | [] => Ret (jsonify (JDict [("error", JStr "Prompt non trouvé")]) 404)
     | prompt :: _ =>
       jwt_if_authorization req (fun jwt_data =>
         if negb (String.eqb (p_statut (fst prompt)) "activer")
            && match jwt_data with
               | None => true
               | Some claims =>
                   negb (String.eqb (jwt_role claims) "admin")
                   && negb (jwt_identity claims =? u_id_utilisateur (snd prompt))
               end
         then Ret (jsonify (JDict [("error", JStr "Accès non autorisé")]) 403)
         else if String.eqb (p_statut (fst prompt)) "activer" then
           note_result <- execute_query (note_query nm prompt_id) ;;
           let notation :=
             match note_result with
             | r :: _ => notation_row nm r
             | [] => JDict [("moyenne_ponderee", JInt 0); ("nombre_notes", JInt 0)]
             end in
           Ret (jsonify (JDict (prompt_row prompt ++ [("notation", notation)])) 200)
         else Ret (jsonify (JDict (prompt_row prompt)) 200))
     end)
    (fun e => Ret (jsonify (JDict [("error", JStr e)]) 500)).

Definition statuts_valides : list string :=
  ["en_attente"; "activer"; "a_revoir"; "rappel"; "a_supprimer"].

Definition check_query (prompt_id : Z) : statement (list prompt) :=
  select (fun db => filter (fun p => p_id_prompt p =? prompt_id) (t_prompt db)).

(** The columns [id_prompt, description, prix, statut, date_creation,
    date_derniere_modification] of an updated row. *)
Definition updated_row (p : prompt) : json :=
  JDict [("id_prompt", JInt (p_id_prompt p));
         ("description", JStr (p_description p));
         ("prix", JInt (p_prix p));
         ("statut", JStr (p_statut p));
         ("date_creation", JInt (p_date_creation p));
         ("date_derniere_modification", JInt (p_date_derniere_modification p))].

(** [update_prompt_status(prompt_id)]: [statut] is [data.get('statut')]
    ([None] without a body or without the key), [now] is
    [datetime.datetime.now()]. *)
Definition update_prompt_status (now : Z) (claims : jwt) (prompt_id : Z)
           (statut : option string) : prog response :=
  match statut with
  | None => Ret (jsonify (JDict [("error", JStr "Statut du prompt requis")]) 400)
  | Some nouveau_statut =>
    if String.eqb nouveau_statut "" then
      Ret (jsonify (JDict [("error", JStr "Statut du prompt requis")]) 400)
    else if negb (existsb (String.eqb nouveau_statut) statuts_valides) then
      Ret (jsonify (JDict [("error", JStr "Statut invalide")]) 400)
    else
      prompt <- execute_query (check_query prompt_id) ;;
      match prompt with
      | [] => Ret (jsonify (JDict [("error", JStr "Prompt non trouvé")]) 404)
      | prompt :: _ =>
        let is_creator := p_id_createur prompt =? jwt_identity claims in
        let refusal :=
          if String.eqb (jwt_role claims) "admin" then None
          else if is_creator then
            if negb (String.eqb nouveau_statut "a_supprimer") then
              Some (jsonify (JDict [("error", JStr "Vous ne pouvez que demander la suppression de votre prompt")]) 403)
            else None
          else Some (jsonify (JDict [("error", JStr "Accès non autorisé")]) 403) in
        match refusal with
        | Some r => Ret r
        | None =>
          try_except
            (result <- execute_query (update_statut nouveau_statut now prompt_id) ;;
             row <- result [0] ;;
             Ret (jsonify (JDict
                    [("message", JStr "Statut du prompt mis à jour avec succès");
                     ("prompt", updated_row row)]) 200))
            (fun e => Ret (jsonify (JDict [("error", JStr e)]) 500))
        end
      end
  end.

(** The [CASE] of the [ORDER BY]: NULL for any other status. *)
Definition priority (statut : string) : option Z :=
  if String.eqb statut "a_supprimer" then Some 1
  else if String.eqb statut "rappel" then Some 2
  else if String.eqb statut "en_attente" then Some 3
  else if String.eqb statut "a_revoir" then Some 4
  else None.

(** Ascending order on a nullable key: NULL sorts last. *)
Definition cmp_nulls_last (a b : option Z) : comparison :=
  match a, b with
  | Some x, Some y => x ?= y
  | Some _, None => Lt
  | None, Some _ => Gt
  | None, None => Eq
  end.

Definition pending_le (a b : prompt * utilisateur) : bool :=
  match cmp_nulls_last (priority (p_statut (fst a))) (priority (p_statut (fst b))) with
  | Lt => true
  | Eq => p_date_creation (fst a) <=? p_date_creation (fst b)
  | Gt => false
  end.

Definition pending_statuts : list string :=
  ["en_attente"; "a_revoir"; "a_supprimer"; "rappel"].

(** [... WHERE p.statut IN (..) ORDER BY CASE .. END, p.date_creation ASC] *)
Definition pending_query : statement (list (prompt * utilisateur)) :=
  select (fun db =>
    order_by pending_le
      (filter (fun '(p, _) => existsb (String.eqb (p_statut p)) pending_statuts)
              (prompt_createur db))).

(** The columns [p.id_prompt, p.description, p.statut, p.date_creation,
    u.id_utilisateur, u.email as createur_email]. *)
Definition pending_row (r : prompt * utilisateur) : json :=
  let '(p, u) := r in
  JDict [("id_prompt", JInt (p_id_prompt p));
         ("description", JStr (p_description p));
         ("statut", JStr (p_statut p));
         ("date_creation", JInt (p_date_creation p));
         ("id_utilisateur", JInt (u_id_utilisateur u));
         ("createur_email", JStr (u_email u))].

Definition get_pending_prompts (claims : jwt) : prog response :=
  if negb (String.eqb (jwt_role claims) "admin") then
    Ret (jsonify (JDict [("error", JStr "Accès non autorisé")]) 403)
  else
    try_except
      (prompts <- execute_query pending_query ;;
       Ret (jsonify (JList (map pending_row prompts)) 200))
      (fun e => Ret (jsonify (JDict [("error", JStr e)]) 500)).

(** [SELECT statut FROM prompt WHERE id_prompt = prompt_id] *)
Definition statut_query (prompt_id : Z) : statement (list string) :=
  select (fun db =>
    map p_statut (filter (fun p => p_id_prompt p =? prompt_id) (t_prompt db))).

(** The columns [id_prompt, description, statut] of an updated row. *)
Definition activated_row (p : prompt) : json :=
  JDict [("id_prompt", JInt (p_id_prompt p));
         ("description", JStr (p_description p));
         ("statut", JStr (p_statut p))].

Definition activate_prompt_by_vote (now : Z) (claims : jwt) (prompt_id : Z)
  : prog response :=
  if negb (String.eqb (jwt_role claims) "admin") then
    Ret (jsonify (JDict [("error", JStr "Accès non autorisé")]) 403)
  else
    prompt <- execute_query (statut_query prompt_id) ;;
    if match prompt with
       | [] => true
       | statut :: _ => negb (String.eqb statut "rappel")
       end
    then Ret (jsonify (JDict [("error", JStr "Ce prompt ne peut pas être activé par vote")]) 400)
    else
      points_result <- execute_query (points_query prompt_id) ;;
      row <- points_result [0] ;;
      let total_points := or_zero row in
      if total_points <? 6 then
        Ret (jsonify (JDict [("error", JStr "Le minimum de 6 points n'est pas atteint");
                             ("total_points", JInt total_points)]) 400)
      else
        try_except
          (result <- execute_query (update_statut "activer" now prompt_id) ;;
           row <- result [0] ;;
           Ret (jsonify (JDict
                  [("message", JStr "Prompt activé par vote avec succès");
                   ("prompt", activated_row row);
                   ("total_points", JInt total_points)]) 200))
          (fun e => Ret (jsonify (JDict [("error", JStr e)]) 500)).

End Prompts.

(** ** Vocabulary of the statements *)

Definition find_prompt (prompt_id : Z) (db : DB) : option prompt :=
  find (fun p => p_id_prompt p =? prompt_id) (t_prompt db).

Definition find_utilisateur (user_id : Z) (db : DB) : option utilisateur :=
  find (fun u => u_id_utilisateur u =? user_id) (t_utilisateur db).

Definition has_voted (user_id prompt_id : Z) (db : DB) : bool :=
  existsb (fun v => (v_id_utilisateur v =? user_id) && (v_id_prompt v =? prompt_id))
          (t_vote db).

(** The database once the vote of [user_id] on [prompt_id] is inserted. *)
Definition voted (user_id prompt_id : Z) (db : DB) : DB :=
  with_votes db (t_vote db ++ [mk_vote (vote_id_seq db) user_id prompt_id])
             (vote_id_seq db + 1).

(** The database once the status [s] is written on [prompt_id] at [now]. *)
Definition status_written (s : string) (now prompt_id : Z) (db : DB) : DB :=
  with_prompts db
    (map (fun p => if p_id_prompt p =? prompt_id then set_statut s now p else p)
         (t_prompt db)).

Definition activated (now prompt_id : Z) (db : DB) : DB :=
  status_written "activer" now prompt_id db.

(** The total both routes derive from the row of [points_query]. *)
Definition tally (prompt_id : Z) (db : DB) : Z :=
  or_zero (Sql.sum (map (fun '(_, u1, _, u2) => if same_group u1 u2 then 2 else 1)
                        (vote_rows prompt_id db))).

Definition error_500 (e : string) : response :=
  jsonify (JDict [("error", JStr e)]) 500.

(** ** Two requests served concurrently

    Every call of [execute_query] opens its own connection and commits on
    its own, so two requests interleave call by call: the schedule says
    which of the two performs its next call ([true]: the first).  A request
    that has returned ignores its turns; when the schedule ends, what is
    left of the first request runs, then what is left of the second. *)

Definition step {R} (p : prog R) (db : DB) : prog R * DB :=
  match p with
  | Exec q k => let '(o, db') := commit_or_rollback q false db in (k o, db')
  | _ => (p, db)
  end.

Fixpoint interleave {R} (sched : list bool) (p1 p2 : prog R) (db : DB)
  : prog R * prog R * DB :=
  match sched with
  | [] => (p1, p2, db)
  | true :: sched' => let '(p1', db') := step p1 db in interleave sched' p1' p2 db'
  | false :: sched' => let '(p2', db') := step p2 db in interleave sched' p1 p2' db'
  end.

Definition serve2 (sched : list bool) (p1 p2 : prog response) (db : DB)
  : response * response * DB :=
  let '(p1', p2', db0) := interleave sched p1 p2 db in
  let '(r1, db1) := serve p1' no_fault db0 in
  let '(r2, db2) := serve p2' no_fault db1 in
  (r1, r2, db2).

(** *** Program points of [vote_prompt]

    The [try] block of [vote_prompt], cut before each of its statements:
    from the status write on (the insertion has returned [result], the
    tally [total_points]), from the tally on, and from the insertion on. *)

Definition prog_at_update (now prompt_id : Z) (result : list Z)
           (total_points : Z) : prog response :=
  update_result <- execute_query (Votes.update_query now prompt_id) ;;
  id_vote <- result [0] ;;
  updated <- update_result [0] ;;
  Ret (jsonify (JDict
         [("message", JStr "Vote enregistré avec succès. Le prompt a été activé.");
          ("vote_id", JInt id_vote);
          ("total_points", JInt total_points);
          ("prompt", updated)]) 200).

Definition prog_at_tally (now prompt_id : Z) (result : list Z) : prog response :=
  points_result <- execute_query (points_query prompt_id) ;;
  row <- points_result [0] ;;
  let total_points := or_zero row in
  if total_points >=? 6 then prog_at_update now prompt_id result total_points
  else
    id_vote <- result [0] ;;
    Ret (jsonify (JDict
           [("message", JStr "Vote enregistré avec succès");
            ("vote_id", JInt id_vote);
            ("total_points", JInt total_points);
            ("points_needed", JInt (6 - total_points))]) 200).

Definition prog_at_insert (now user_id prompt_id : Z) : prog response :=
  try_except
    (result <- execute_query (Votes.vote_query user_id prompt_id) ;;
     prog_at_tally now prompt_id result)
    (fun e => Ret (jsonify (JDict [("error", JStr e)]) 500)).

(** Where a call of [vote_prompt] stands between two statements, with what
    it has bound so far. *)
Inductive point :=
| AtCheck
| AtCheckVote
| AtInsert
| AtTally (result : list Z)
| AtUpdate (result : list Z) (total_points : Z)
| Returned (r : response)
| Raised (e : string).

Definition except_500 (e : string) : prog response :=
  Ret (jsonify (JDict [("error", JStr e)]) 500).

(** What is left of [vote_prompt now user_id prompt_id] at a point: the
    text of the route from that statement on. *)
Definition prog_at (now user_id prompt_id : Z) (pt : point) : prog response :=
  match pt with
  | AtCheck => Votes.vote_prompt now user_id prompt_id
  | AtCheckVote =>
      existing_vote <- execute_query (Votes.check_vote_query user_id prompt_id) ;;
      match existing_vote with
      | _ :: _ =>
          Ret (jsonify (JDict [("error", JStr "Vous avez déjà voté pour ce prompt")]) 409)
      | [] => prog_at_insert now user_id prompt_id
      end
  | AtInsert => prog_at_insert now user_id prompt_id
  | AtTally result => try_except (prog_at_tally now prompt_id result) except_500
  | AtUpdate result total_points =>
      try_except (prog_at_update now prompt_id result total_points) except_500
  | Returned r => Ret r
  | Raised e => Throw e
  end.

(** One statement further: the point reached and the database left. *)
Definition advance (now user_id prompt_id : Z) (pt : point) (db : DB)
  : point * DB :=
  match pt with
  | AtCheck =>
      (match find_prompt prompt_id db with
       | None => Returned (jsonify (JDict [("error", JStr "Prompt non trouvé")]) 404)
       | Some p =>
         if negb (String.eqb (p_statut p) "rappel") then
           Returned (jsonify (JDict [("error", JStr "Ce prompt n'est pas en état de Rappel")]) 400)
         else if p_id_createur p =? user_id then
           Returned (jsonify (JDict [("error", JStr "Vous ne pouvez pas voter pour votre propre prompt")]) 403)
         else AtCheckVote
       end, db)
  | AtCheckVote =>
      (if has_voted user_id prompt_id db then
         Returned (jsonify (JDict [("error", JStr "Vous avez déjà voté pour ce prompt")]) 409)
       else AtInsert, db)
  | AtInsert =>
      if vote_unique db && has_voted user_id prompt_id db
      then (Returned (error_500 db_error), db)
      else (AtTally [vote_id_seq db], voted user_id prompt_id db)
  | AtTally result =>
      (let total_points := tally prompt_id db in
       if total_points >=? 6 then AtUpdate result total_points
       else
         match result with
         | id_vote :: _ =>
             Returned (jsonify (JDict
               [("message", JStr "Vote enregistré avec succès");
                ("vote_id", JInt id_vote);
                ("total_points", JInt total_points);
                ("points_needed", JInt (6 - total_points))]) 200)
         | [] => Returned (error_500 "list index out of range")
         end, db)
  | AtUpdate result total_points =>
      (match result, find_prompt prompt_id db with
       | id_vote :: _, Some _ =>
           Returned (jsonify (JDict
             [("message", JStr "Vote enregistré avec succès. Le prompt a été activé.");
              ("vote_id", JInt id_vote);
              ("total_points", JInt total_points);
              ("prompt", JDict [("id_prompt", JInt prompt_id);
                                ("statut", JStr "activer")])]) 200)
       | _, _ => Returned (error_500 "list index out of range")
       end, activated now prompt_id db)
  | Returned _ | Raised _ => (pt, db)
  end.

(** The total a call knows: the one it is about to act on, or the one its
    answer reports. *)
Definition known_total (pt : point) : option Z :=
  match pt with
  | AtUpdate _ total_points => Some total_points
  | Returned r =>
      if status_code r =? 200 then
        match field "total_points" r with
        | Some (JInt t) => Some t
        | _ => None
        end
      else None
  | _ => None
  end.

(** The statements a call still has to make, at most. *)
Definition remaining (pt : point) : nat :=
  match pt with
  | AtCheck => 5
  | AtCheckVote => 4
  | AtInsert => 3
  | AtTally _ => 2
  | AtUpdate _ _ => 1
  | Returned _ | Raised _ => 0
  end.

Fixpoint advances (n : nat) (now user_id prompt_id : Z) (pt : point) (db : DB)
  : point * DB :=
  match n with
  | O => (pt, db)
  | S n' =>
      let '(pt', db') := advance now user_id prompt_id pt db in
      advances n' now user_id prompt_id pt' db'
  end.

(** The answer of a call that has ended. *)
Definition answer (pt : point) : response :=
  match pt with
  | Returned r => r
  | _ => internal_server_error
  end.

(** No two votes of the table share voter and prompt. *)
Fixpoint votes_distinct (vs : list vote) : bool :=
  match vs with
  | [] => true
  | v :: rest =>
      negb (existsb (fun w => (v_id_utilisateur w =? v_id_utilisateur v)
                              && (v_id_prompt w =? v_id_prompt v)) rest)
      && votes_distinct rest
  end.

(** What two concurrent calls of [vote_prompt] keep true: an answer 200
    reports a total, and as soon as both calls know a total, one of the two
    totals is the total of the votes now recorded. *)
Definition answers_total (pt : point) : Prop :=
  match pt with
  | Returned r =>
      status_code r = 200 -> exists t, field "total_points" r = Some (JInt t)
  | _ => True
  end.

Definition one_total_fresh (prompt_id : Z) (pt1 pt2 : point) (db : DB) : Prop :=
  answers_total pt1 /\ answers_total pt2
  /\ forall t1 t2,
       known_total pt1 = Some t1 -> known_total pt2 = Some t2 ->
       t1 = tally prompt_id db \/ t2 = tally prompt_id db.

Definition votes_kept_unique (db : DB) : Prop :=
  vote_unique db = true /\ votes_distinct (t_vote db) = true.

(** ** Integrity of the tables

    Primary keys ([id_utilisateur], [id_prompt]) are unique and foreign keys
    point at a row: what the DDL (not part of the sources) declares. *)

Fixpoint distinct (l : list Z) : bool :=
  match l with
  | [] => true
  | x :: t => negb (existsb (Z.eqb x) t) && distinct t
  end.

Definition is_utilisateur (db : DB) (user_id : Z) : bool :=
  existsb (fun u => u_id_utilisateur u =? user_id) (t_utilisateur db).

Definition is_prompt (db : DB) (prompt_id : Z) : bool :=
  existsb (fun p => p_id_prompt p =? prompt_id) (t_prompt db).

Definition integrity (db : DB) : bool :=
  distinct (map u_id_utilisateur (t_utilisateur db))
  && distinct (map p_id_prompt (t_prompt db))
  && forallb (fun p => is_utilisateur db (p_id_createur p)) (t_prompt db)
  && forallb (fun v => is_utilisateur db (v_id_utilisateur v)
                       && is_prompt db (v_id_prompt v)) (t_vote db)
  && forallb (fun n => is_utilisateur db (n_id_utilisateur n)
                       && is_prompt db (n_id_prompt n)) (t_note db).

(** ** The rules in the words of the specification *)

Module Spec.

Definition groupe_of (db : DB) (user_id : Z) : option Z :=
  match find_utilisateur user_id db with
  | Some u => u_id_groupe u
  | None => None
  end.

(** Group affinity: both group ids present and equal. *)
Definition affinity (a b : option Z) : bool :=
  match a, b with
  | Some x, Some y => x =? y
  | _, _ => false
  end.

(** 2 points for a voter of the creator's group, 1 point otherwise. *)
Definition vote_weight (voter creator : option Z) : Z :=
  if affinity voter creator then 2 else 1.

Definition votes_on (prompt_id : Z) (db : DB) : list vote :=
  filter (fun v => v_id_prompt v =? prompt_id) (t_vote db).

Definition createur_of (prompt_id : Z) (db : DB) : option Z :=
  match find_prompt prompt_id db with
  | Some p => groupe_of db (p_id_createur p)
  | None => None
  end.

(** Total points: the sum of the weights of the votes recorded on the
    prompt. *)
Definition total_points (prompt_id : Z) (db : DB) : Z :=
  fold_right Z.add 0
    (map (fun v => vote_weight (groupe_of db (v_id_utilisateur v))
                               (createur_of prompt_id db))
         (votes_on prompt_id db)).

(** 0.6 for a rater of the creator's group, 0.4 otherwise. *)
Definition note_weight (rater creator : option Z) : Q :=
  if affinity rater creator then (6 # 10)%Q else (4 # 10)%Q.

Definition notes_on (prompt_id : Z) (db : DB) : list note :=
  filter (fun n => n_id_prompt n =? prompt_id) (t_note db).

Definition weighted_sum (prompt_id : Z) (db : DB) : Q :=
  fold_right Qplus (0 # 1)%Q
    (map (fun n => (inject_Z (n_valeur n)
                    * note_weight (groupe_of db (n_id_utilisateur n))
                                  (createur_of prompt_id db))%Q)
         (notes_on prompt_id db)).

(** [weightedScore] and [count]: the weighted sum divided, by the
    database, by the raw number of notes; 0 and 0 without notes. *)
Definition notation (nm : numeric_model) (prompt_id : Z) (db : DB)
  : numeric nm * Z :=
  let n := Z.of_nat (List.length (notes_on prompt_id db)) in
  if n =? 0 then (numeric_zero nm, 0)
  else (numeric_div nm (weighted_sum prompt_id db) n, n).

(** Moderation order: [a_supprimer], then [rappel], then [en_attente],
    then [a_revoir]. *)
Definition rank (statut : string) : Z :=
  if String.eqb statut "a_supprimer" then 0
  else if String.eqb statut "rappel" then 1
  else if String.eqb statut "en_attente" then 2
  else 3.

Definition awaits_moderation (p : prompt) : bool :=
  String.eqb (p_statut p) "en_attente" || String.eqb (p_statut p) "a_revoir"
  || String.eqb (p_statut p) "a_supprimer" || String.eqb (p_statut p) "rappel".

(** [a] may stand before [b] in the moderation listing. *)
Definition before (a b : prompt) : Prop :=
  rank (p_statut a) < rank (p_statut b)
  \/ (rank (p_statut a) = rank (p_statut b)
      /\ p_date_creation a <= p_date_creation b).

End Spec.

(** ** Sample data

    A creator (user 1) and voters of group 7, without group, and of
    group 8; prompt 10 of user 1 is open to votes. *)

Module Sample.

Definition user (id : Z) (g : option Z) : utilisateur :=
  mk_utilisateur id "u@example.org" "user" g.

Definition users : list utilisateur :=
  [user 1 (Some 7); user 2 (Some 7); user 3 (Some 7); user 4 None;
   user 5 (Some 8); user 6 (Some 8); user 7 None].

Definition recalled : prompt := mk_prompt 10 "texte" 0 "rappel" 1 100 100.

(** No vote yet. *)
Definition db0 : DB := mk_DB users [recalled] [] [] 1 true.

(** Four points: users 2 (same group as the creator), 4 and 5 voted. *)
Definition db4 : DB :=
  mk_DB users [recalled] [mk_vote 1 2 10; mk_vote 2 4 10; mk_vote 3 5 10]
        [] 4 true.

(** Prompt 10 already active, with two notes: 5 by user 2 (same group as
    the creator) and 10 by user 5 (another group). *)
Definition db_active : DB :=
  mk_DB users [mk_prompt 10 "texte" 0 "activer" 1 100 200]
        [mk_vote 1 2 10; mk_vote 2 3 10; mk_vote 3 4 10; mk_vote 4 5 10]
        [mk_note 1 2 10 5; mk_note 2 5 10 10] 5 true.

Definition admin : jwt := mk_jwt 9 "admin".

(** A decimal as PostgreSQL's numeric and Python's [Decimal] hold it:
    [coefficient / 10 ^ scale]. *)
Record decimal := mk_decimal { coefficient : Z; scale : nat }.

Definition digits_of (z : Z) : string := NilZero.string_of_int (Z.to_int z).

(** [str] of a [Decimal] in plain notation: the integer part and, after
    the point, as many digits as the scale. *)
Definition decimal_str (d : decimal) : string :=
  let unit := 10 ^ Z.of_nat (scale d) in
  let a := Z.abs (coefficient d) in
  let sign := if coefficient d <? 0 then "-" else "" in
  let whole := digits_of (a / unit) in
  match scale d with
  | O => sign ++ whole
  | S _ =>
      sign ++ whole ++ "."
      ++ substring 1 (scale d) (digits_of (unit + a mod unit))
  end.

(** Rounding half away from zero, as PostgreSQL rounds a numeric. *)
Definition round_half_away (q : Q) : Z :=
  if Qle_bool 0 q then Qfloor (q + (1 # 2))
  else - Qfloor (- q + (1 # 2)).

(** The numerics of the examples: a quotient has 16 digits after the
    point, the scale PostgreSQL selects for a quotient from 1 up to 9999;
    the [0] of the [COALESCE] is the integer literal; [jsonify] sends
    [str] of the [Decimal]. *)
Definition decimal16 : numeric_model :=
  mk_numeric_model decimal
    (fun s n =>
       mk_decimal (round_half_away (s / inject_Z n * inject_Z (10 ^ 16))%Q) 16)
    (mk_decimal 0 0)
    (fun d => JStr (decimal_str d)).

(** Prompts in every status, by users 1 and 2. *)
Definition db_moderation : DB :=
  mk_DB users
        [mk_prompt 11 "a" 0 "en_attente" 1 5 5;
         mk_prompt 12 "b" 0 "a_supprimer" 2 9 9;
         mk_prompt 13 "c" 0 "rappel" 1 3 3;
         mk_prompt 14 "d" 0 "a_revoir" 2 1 1;
         mk_prompt 15 "e" 0 "activer" 1 2 2;
         mk_prompt 16 "f" 0 "a_supprimer" 1 4 4]
        [] [] 1 true.

(** The same votes in a table without the unique constraint. *)
Definition db4_unconstrained : DB :=
  mk_DB users [recalled] [mk_vote 1 2 10; mk_vote 2 4 10; mk_vote 3 5 10]
        [] 4 false.

(** Both calls pass their checks, then both insert, then both tally, then
    both write the status. *)
Definition checks_then_inserts : list bool :=
  [true; true; false; false; true; false; true; false; true; false].

(** The environment fails the fifth call of a request (for
    [vote_prompt]: the [UPDATE] of the status). *)
Definition fifth_call_fails : oracle := fun n => Nat.eqb n 4.

End Sample.

(** ** app/routes/prompts.py, the other routes *)

Module PromptRoutes.

(** What the defaults of the table give the columns an insertion leaves
    out ([id_prompt] from its sequence, [prix], the two dates): the DDL is
    not part of the sources, so they come with the call. *)
Record defaults := mk_defaults {
  d_id_prompt : Z;
  d_prix : Z;
  d_date_creation : Z;
  d_date_derniere_modification : Z
}.

(** [INSERT INTO prompt (description, id_createur, statut)
     VALUES (.., .., 'en_attente')
     RETURNING id_prompt, description, prix, statut, date_creation] *)
Definition insert_query (dflt : defaults) (description : string) (user_id : Z)
  : statement (list prompt) :=
  fun db =>
    let row := mk_prompt (d_id_prompt dflt) description (d_prix dflt)
                         "en_attente" user_id (d_date_creation dflt)
                         (d_date_derniere_modification dflt) in
    Some ([row], with_prompts db (t_prompt db ++ [row])).

Definition created_row (p : prompt) : json :=
  JDict [("id_prompt", JInt (p_id_prompt p));
         ("description", JStr (p_description p));
         ("prix", JInt (p_prix p));
         ("statut", JStr (p_statut p));
         ("date_creation", JInt (p_date_creation p))].

(** [create_prompt()]: [description] is [data.get('description')], [None]
    without a body or without the key. *)
Definition create_prompt (dflt : defaults) (current_user_id : Z)
           (description : option string) : prog response :=
  match description with
  | None => Ret (jsonify (JDict [("error", JStr "Description du prompt requise")]) 400)
  | Some description =>
    if String.eqb description "" then
      Ret (jsonify (JDict [("error", JStr "Description du prompt requise")]) 400)
    else
      try_except
        (result <- execute_query (insert_query dflt description current_user_id) ;;
         row <- result [0] ;;
         Ret (jsonify (JDict [("message", JStr "Prompt créé avec succès");
                              ("prompt", created_row row)]) 201))
        (fun e => Ret (jsonify (JDict [("error", JStr e)]) 500))
  end.

(** [... WHERE p.statut = 'activer' AND p.description ILIKE pattern
     ORDER BY p.date_creation DESC]; [ilike text pattern] is the operator
    of the database. *)
Definition search_query (ilike : string -> string -> bool) (pattern : string)
  : statement (list (prompt * utilisateur)) :=
  select (fun db =>
    order_by (fun a b => p_date_creation (fst b) <=? p_date_creation (fst a))
      (filter (fun '(p, _) => String.eqb (p_statut p) "activer"
                              && ilike (p_description p) pattern)
              (Prompts.prompt_createur db))).

(** The columns [p.id_prompt, p.description, p.prix, p.date_creation,
    u.email as createur_email]. *)
Definition search_row (r : prompt * utilisateur) : json :=
  let '(p, u) := r in
  JDict [("id_prompt", JInt (p_id_prompt p));
         ("description", JStr (p_description p));
         ("prix", JInt (p_prix p));
         ("date_creation", JInt (p_date_creation p));
         ("createur_email", JStr (u_email u))].

(** [search_prompts()]: [q] is [request.args.get('q')]. *)
Definition search_prompts (ilike : string -> string -> bool) (q : option string)
  : prog response :=
  let keyword := match q with Some s => s | None => "" end in
  if String.eqb keyword "" then
    Ret (jsonify (JDict [("error", JStr "Mot-clé de recherche requis")]) 400)
  else
    try_except
      (prompts <- execute_query (search_query ilike ("%" ++ keyword ++ "%")%string) ;;
       Ret (jsonify (JList (map search_row prompts)) 200))
      (fun e => Ret (jsonify (JDict [("error", JStr e)]) 500)).

(** [SELECT id_prompt, description, prix, statut, date_creation FROM prompt
     WHERE id_createur = .. ORDER BY date_creation DESC] *)
Definition user_prompts_query (user_id : Z) : statement (list prompt) :=
  select (fun db =>
    order_by (fun a b => p_date_creation b <=? p_date_creation a)
      (filter (fun p => p_id_createur p =? user_id) (t_prompt db))).

Definition get_user_prompts (current_user_id : Z) : prog response :=
  try_except
    (prompts <- execute_query (user_prompts_query current_user_id) ;;
     Ret (jsonify (JList (map created_row prompts)) 200))
    (fun e => Ret (jsonify (JDict [("error", JStr e)]) 500)).

End PromptRoutes.

(** ** app/routes/users.py *)

Module Users.

(** [SELECT id_utilisateur, email, role FROM utilisateur
     WHERE id_groupe = .. ORDER BY id_utilisateur] *)
Definition group_query (group_id : Z) : statement (list utilisateur) :=
  select (fun db =>
    order_by (fun a b => u_id_utilisateur a <=? u_id_utilisateur b)
      (filter (fun u => Sql.holds (Sql.eq (u_id_groupe u) (Some group_id)))
              (t_utilisateur db))).

Definition user_row (u : utilisateur) : json :=
  JDict [("id_utilisateur", JInt (u_id_utilisateur u));
         ("email", JStr (u_email u));
         ("role", JStr (u_role u))].

Definition get_users_by_group (claims : jwt) (group_id : Z) : prog response :=
  if negb (String.eqb (jwt_role claims) "admin") then
    Ret (jsonify (JDict [("error", JStr "Accès non autorisé")]) 403)
  else
    try_except
      (users <- execute_query (group_query group_id) ;;
       Ret (jsonify (JList (map user_row users)) 200))
      (fun e => Ret (jsonify (JDict [("error", JStr e)]) 500)).

End Users.

(** The prompts a listing answers with, newest first. *)
Definition newest_first (a b : prompt) : Prop :=
  p_date_creation b <= p_date_creation a.

(** Everything of a prompt row but its status and the date of its last
    modification. *)
Definition same_content (p q : prompt) : Prop :=
  p_id_prompt q = p_id_prompt p
  /\ p_description q = p_description p
  /\ p_prix q = p_prix p
  /\ p_id_createur q = p_id_createur p
  /\ p_date_creation q = p_date_creation p.

(** What a write of the status of [prompt_id] may do to a prompt row:
    keep its content, and keep the whole row when it is another prompt's. *)
Definition rewritten (prompt_id : Z) (p q : prompt) : Prop :=
  same_content p q /\ (p_id_prompt p <> prompt_id -> q = p).

(** The row [create_prompt] inserts. *)
Definition new_prompt (dflt : PromptRoutes.defaults) (user_id : Z)
           (description : string) : prompt :=
  mk_prompt (PromptRoutes.d_id_prompt dflt) description
            (PromptRoutes.d_prix dflt) "en_attente" user_id
            (PromptRoutes.d_date_creation dflt)
            (PromptRoutes.d_date_derniere_modification dflt).

Module Cases.

Definition dflt : PromptRoutes.defaults := PromptRoutes.mk_defaults 20 0 700 700.

(** Six points recorded on prompt 10, which an admin had activated. *)
Definition db_six : DB :=
  mk_DB Sample.users [mk_prompt 10 "texte" 0 "activer" 1 100 200]
        [mk_vote 1 2 10; mk_vote 2 3 10; mk_vote 3 4 10; mk_vote 4 5 10]
        [] 5 true.

End Cases.

(** ** app/routes/users.py, the routes that read [groupe]

    The table [groupe] comes with the call: no route modelled here writes
    it. *)

Record groupe := mk_groupe {
  g_id_groupe : Z;
  g_nom_groupe : string
}.

(** [l LEFT JOIN r ON on]: a row of [l] without match is kept, with NULL
    for the columns of [r]. *)
Definition left_join {A B} (l : list A) (r : list B) (on : A -> B -> bool)
  : list (A * option B) :=
  flat_map (fun a => match filter (on a) r with
                     | [] => [(a, None)]
                     | matches => map (fun b => (a, Some b)) matches
                     end) l.

Module Accounts.

(** [FROM utilisateur u LEFT JOIN groupe g ON u.id_groupe = g.id_groupe] *)
Definition utilisateur_groupe (groupes : list groupe) (db : DB)
  : list (utilisateur * option groupe) :=
  left_join (t_utilisateur db) groupes
    (fun u g => Sql.holds (Sql.eq (u_id_groupe u) (Some (g_id_groupe g)))).

(** The columns [u.id_utilisateur, u.email, u.role, g.id_groupe,
    g.nom_groupe]. *)
Definition account_row (r : utilisateur * option groupe) : list (string * json) :=
  let '(u, g) := r in
  [("id_utilisateur", JInt (u_id_utilisateur u));
   ("email", JStr (u_email u));
   ("role", JStr (u_role u));
   ("id_groupe", match g with Some g => JInt (g_id_groupe g) | None => JNull end);
   ("nom_groupe", match g with Some g => JStr (g_nom_groupe g) | None => JNull end)].

(** [... ORDER BY u.id_utilisateur] *)
Definition users_query (groupes : list groupe)
  : statement (list (utilisateur * option groupe)) :=
  select (fun db =>
    order_by (fun a b => u_id_utilisateur (fst a) <=? u_id_utilisateur (fst b))
             (utilisateur_groupe groupes db)).

Definition get_users (groupes : list groupe) (claims : jwt) : prog response :=
  if negb (String.eqb (jwt_role claims) "admin") then
    Ret (jsonify (JDict [("error", JStr "Accès non autorisé")]) 403)
  else
    try_except
      (users <- execute_query (users_query groupes) ;;
       Ret (jsonify (JList (map (fun r => JDict (account_row r)) users)) 200))
      (fun e => Ret (jsonify (JDict [("error", JStr e)]) 500)).

(** [... WHERE u.id_utilisateur = user_id] *)
Definition user_query (groupes : list groupe) (user_id : Z)
  : statement (list (utilisateur * option groupe)) :=
  select (fun db =>
    filter (fun '(u, _) => u_id_utilisateur u =? user_id)
           (utilisateur_groupe groupes db)).

Definition get_user (groupes : list groupe) (claims : jwt) (user_id : Z)
  : prog response :=
  if negb (String.eqb (jwt_role claims) "admin")
     && negb (jwt_identity claims =? user_id)
  then Ret (jsonify (JDict [("error", JStr "Accès non autorisé")]) 403)
  else
    try_except
      (user <- execute_query (user_query groupes user_id) ;;
       match user with
       | [] => Ret (jsonify (JDict [("error", JStr "Utilisateur non trouvé")]) 404)
       | user0 :: _ => Ret (jsonify (JDict (account_row user0)) 200)
       end)
      (fun e => Ret (jsonify (JDict [("error", JStr e)]) 500)).

End Accounts.

(** ** Votes cast one after the other *)

(** Does the answer of [vote_prompt] carry an activated prompt? *)
Definition is_activation (r : response) : bool :=
  match field "prompt" r with Some _ => true | None => false end.

(** The calls [(now, user_id)] of [vote_prompt] on one prompt, each served
    once the one before has answered, none failed by the environment. *)
Fixpoint serve_votes (calls : list (Z * Z)) (prompt_id : Z) (db : DB)
  : list response * DB :=
  match calls with
  | [] => ([], db)
  | (now, user_id) :: rest =>
      let '(r, db1) := serve (Votes.vote_prompt now user_id prompt_id) no_fault db in
      let '(rs, db2) := serve_votes rest prompt_id db1 in
      (r :: rs, db2)
  end.

(** A prompt still open to votes has fewer than 6 points. *)
Definition below_threshold (prompt_id : Z) (db : DB) : Prop :=
  forall p, find_prompt prompt_id db = Some p -> p_statut p = "rappel" ->
            tally prompt_id db < 6.

(** ** What an answer shows *)

(** [item[k]] of a JSON object. *)
Definition json_get (k : string) (item : json) : option json :=
  match item with
  | JDict kv => assoc k kv
  | _ => None
  end.

(** An item of a listing shows a prompt: its id, description and date of
    creation; its status; its creator. *)
Definition shows_prompt (p : prompt) (item : json) : Prop :=
  json_get "id_prompt" item = Some (JInt (p_id_prompt p))
  /\ json_get "description" item = Some (JStr (p_description p))
  /\ json_get "date_creation" item = Some (JInt (p_date_creation p)).

Definition shows_statut (p : prompt) (item : json) : Prop :=
  json_get "statut" item = Some (JStr (p_statut p)).

Definition shows_createur (u : utilisateur) (item : json) : Prop :=
  json_get "createur_email" item = Some (JStr (u_email u)).

(** An item of a listing shows a user: id, email and role. *)
Definition shows_user (u : utilisateur) (item : json) : Prop :=
  json_get "id_utilisateur" item = Some (JInt (u_id_utilisateur u))
  /\ json_get "email" item = Some (JStr (u_email u))
  /\ json_get "role" item = Some (JStr (u_role u)).

(** The items of the body of an answer, when it is a list. *)
Definition items (r : response) : list json :=
  match body r with
  | JList l => l
  | _ => []
  end.

(** An item shows a row of [prompt JOIN utilisateur]: the prompt, and the
    email of a user who is the prompt's creator. *)
Definition shows_joined (db : DB) (r : prompt * utilisateur) (item : json)
  : Prop :=
  shows_prompt (fst r) item
  /\ shows_createur (snd r) item
  /\ In (snd r) (t_utilisateur db)
  /\ u_id_utilisateur (snd r) = p_id_createur (fst r).

(** * Properties *)

(** ** Lists, statements *)

Lemma filter_head_find {A} (f : A -> bool) (l : list A) :
  hd_error (filter f l) = find f l.
Proof.
  induction l as [|a l IH]; simpl; [reflexivity|].
  destruct (f a); simpl; auto.
Qed.

Lemma existsb_filter {A} (f : A -> bool) (l : list A) :
  existsb f l = match filter f l with [] => false | _ => true end.
Proof.
  induction l as [|a l IH]; simpl; [reflexivity|].
  destruct (f a); simpl; auto.
Qed.

Lemma filter_update_hit (pid : Z) (g : prompt -> prompt) (l : list prompt) :
  (forall p, p_id_prompt (g p) = p_id_prompt p) ->
  filter (fun p => p_id_prompt p =? pid)
         (map (fun p => if p_id_prompt p =? pid then g p else p) l)
  = map g (filter (fun p => p_id_prompt p =? pid) l).
Proof.
  intros Hg. induction l as [|a l IH]; simpl; [reflexivity|].
  destruct (p_id_prompt a =? pid) eqn:E; simpl.
  - rewrite Hg, E. simpl. now rewrite IH.
  - rewrite E. exact IH.
Qed.

Lemma find_prompt_id pid db p : find_prompt pid db = Some p -> p_id_prompt p = pid.
Proof.
  unfold find_prompt. intros H. apply find_some in H. lia.
Qed.

Lemma find_prompt_written s now pid db p :
  find_prompt pid db = Some p ->
  find_prompt pid (status_written s now pid db) = Some (set_statut s now p).
Proof.
  unfold find_prompt, status_written. cbn [t_prompt with_prompts].
  induction (t_prompt db) as [|a l IH]; simpl; [discriminate|].
  destruct (p_id_prompt a =? pid) eqn:E; simpl; rewrite E; [congruence|auto].
Qed.

Ltac step :=
  cbn -[Z.sub Z.add Z.geb Z.ltb Z.eqb String.eqb or_zero tally voted activated
        status_written vote_rows Sql.sum Prompts.note_query].

(** ** [vote_prompt], path by path *)

Lemma vote_prompt_serve now uid pid faults db :
  serve (Votes.vote_prompt now uid pid) faults db =
  if faults 0%nat then (internal_server_error, db) else
  match find_prompt pid db with
  | None => (jsonify (JDict [("error", JStr "Prompt non trouvé")]) 404, db)
  | Some p =>
    if negb (String.eqb (p_statut p) "rappel") then
      (jsonify (JDict [("error", JStr "Ce prompt n'est pas en état de Rappel")]) 400, db)
    else if p_id_createur p =? uid then
      (jsonify (JDict [("error", JStr "Vous ne pouvez pas voter pour votre propre prompt")]) 403, db)
    else if faults 1%nat then (internal_server_error, db)
    else if has_voted uid pid db then
      (jsonify (JDict [("error", JStr "Vous avez déjà voté pour ce prompt")]) 409, db)
    else if faults 2%nat then (error_500 db_error, db)
    else if faults 3%nat then (error_500 db_error, voted uid pid db)
    else
      let total_points := tally pid (voted uid pid db) in
      if total_points >=? 6 then
        if faults 4%nat then (error_500 db_error, voted uid pid db)
        else
          (jsonify (JDict
             [("message", JStr "Vote enregistré avec succès. Le prompt a été activé.");
              ("vote_id", JInt (vote_id_seq db));
              ("total_points", JInt total_points);
              ("prompt", JDict [("id_prompt", JInt pid);
                                ("statut", JStr "activer")])]) 200,
           activated now pid (voted uid pid db))
      else
        (jsonify (JDict
           [("message", JStr "Vote enregistré avec succès");
            ("vote_id", JInt (vote_id_seq db));
            ("total_points", JInt total_points);
            ("points_needed", JInt (6 - total_points))]) 200,
         voted uid pid db)
  end.
Proof.
  unfold serve, Votes.vote_prompt. step.
  destruct (faults 0%nat); step; [reflexivity|].
  destruct (find_prompt pid db) as [p|] eqn:Hf;
    pose proof Hf as Hf'; unfold find_prompt in Hf';
    rewrite <- filter_head_find in Hf';
    destruct (filter _ (t_prompt db)) as [|p0 ps] eqn:Hp; try discriminate;
    step; [|reflexivity].
  injection Hf' as ->.
  pose proof (find_prompt_id _ _ _ Hf) as Hid.
  destruct (String.eqb (p_statut p) "rappel"); step; [|reflexivity].
  destruct (p_id_createur p =? uid); step; [reflexivity|].
  destruct (faults 1%nat); step; [reflexivity|].
  unfold Votes.vote_query.
  fold (has_voted uid pid db). unfold has_voted at 1. rewrite existsb_filter.
  destruct (filter _ (t_vote db)) eqn:Hv; step; [|reflexivity].
  destruct (faults 2%nat); step; [reflexivity|].
  unfold has_voted. rewrite existsb_filter, Hv, andb_false_r. step.
  fold (voted uid pid db).
  destruct (faults 3%nat); step; [reflexivity|].
  fold (tally pid (voted uid pid db)).
  destruct (tally pid (voted uid pid db) >=? 6); step; [|reflexivity].
  destruct (faults 4%nat); step; [reflexivity|].
  unfold Votes.update_query, update_statut.
  rewrite filter_update_hit by reflexivity.
  change (t_prompt (voted uid pid db)) with (t_prompt db). rewrite Hp. step.
  rewrite Hid. reflexivity.
Qed.

(** C3. [vote_prompt] checks, in this order: the prompt exists (else 404),
    its status is [rappel] (else 400), the caller is not its creator (else
    403), the caller has no vote on it yet (else 409).  Each refusal leaves
    the database as it was; when the four hold the vote is inserted and the
    answer is 200.  Whatever calls the environment fails, the table of votes
    changes only when the four hold. *)
Theorem vote_prompt_preconditions now uid pid db :
  (let '(r, db') := serve (Votes.vote_prompt now uid pid) no_fault db in
   match find_prompt pid db with
   | None => status_code r = 404 /\ db' = db
   | Some p =>
     if negb (String.eqb (p_statut p) "rappel") then status_code r = 400 /\ db' = db
     else if p_id_createur p =? uid then status_code r = 403 /\ db' = db
     else if has_voted uid pid db then status_code r = 409 /\ db' = db
     else status_code r = 200
          /\ t_vote db' = t_vote db ++ [mk_vote (vote_id_seq db) uid pid]
   end)
  /\ forall faults,
       snd (serve (Votes.vote_prompt now uid pid) faults db) = db
       \/ exists p, find_prompt pid db = Some p /\ p_statut p = "rappel"
                    /\ p_id_createur p <> uid /\ has_voted uid pid db = false.
Proof.
  split; [|intros faults]; rewrite vote_prompt_serve.
  - cbn [no_fault].
    destruct (find_prompt pid db) as [p|]; [|now split].
    destruct (negb _); [now split|].
    destruct (_ =? uid); [now split|].
    destruct (has_voted uid pid db); [now split|].
    cbv zeta. destruct (_ >=? 6); now split.
  - destruct (faults 0%nat); [now left|].
    destruct (find_prompt pid db) as [p|]; [|now left].
    destruct (String.eqb_spec (p_statut p) "rappel"); [|now left].
    destruct (Z.eqb_spec (p_id_createur p) uid); [now left|].
    cbn [negb]. destruct (faults 1%nat); [now left|].
    destruct (has_voted uid pid db); [now left|].
    right. eauto 10.
Qed.

(** C1. A call of [vote_prompt] answered 200 has inserted the vote, and
    reports the total recomputed on the votes then recorded.  When that
    total is at least 6, the prompt is written [activer] with its
    [date_derniere_modification] set, and the answer carries the activated
    prompt with the total.  Otherwise no prompt row changes and the answer
    carries [points_needed], which is [max 0 (6 - total)], equal to
    [6 - total] and strictly positive. *)
Theorem vote_prompt_threshold now uid pid faults db r db' :
  serve (Votes.vote_prompt now uid pid) faults db = (r, db') ->
  status_code r = 200 ->
  let total := tally pid (voted uid pid db) in
  t_vote db' = t_vote db ++ [mk_vote (vote_id_seq db) uid pid]
  /\ field "vote_id" r = Some (JInt (vote_id_seq db))
  /\ field "total_points" r = Some (JInt total)
  /\ if total >=? 6 then
       db' = activated now pid (voted uid pid db)
       /\ (exists p, find_prompt pid db = Some p
            /\ find_prompt pid db' = Some (set_statut "activer" now p))
       /\ (forall q, In q (t_prompt db') -> p_id_prompt q = pid ->
            p_statut q = "activer" /\ p_date_derniere_modification q = now)
       /\ field "prompt" r
          = Some (JDict [("id_prompt", JInt pid); ("statut", JStr "activer")])
       /\ field "points_needed" r = None
     else
       t_prompt db' = t_prompt db
       /\ field "prompt" r = None
       /\ field "points_needed" r = Some (JInt (Z.max 0 (6 - total)))
       /\ Z.max 0 (6 - total) = 6 - total
       /\ 0 < 6 - total.
Proof.
  rewrite vote_prompt_serve. intros H H200.
  destruct (faults 0%nat); [injection H as <- <-; discriminate|].
  destruct (find_prompt pid db) as [p|] eqn:Hf; [|injection H as <- <-; discriminate].
  destruct (negb _); [injection H as <- <-; discriminate|].
  destruct (_ =? uid); [injection H as <- <-; discriminate|].
  destruct (faults 1%nat); [injection H as <- <-; discriminate|].
  destruct (has_voted uid pid db); [injection H as <- <-; discriminate|].
  destruct (faults 2%nat); [injection H as <- <-; discriminate|].
  destruct (faults 3%nat); [injection H as <- <-; discriminate|].
  cbv zeta in *.
  destruct (tally pid (voted uid pid db) >=? 6) eqn:Hge.
  - destruct (faults 4%nat); injection H as <- <-; [discriminate|].
    repeat split; try reflexivity.
    + exists p. split; [reflexivity|].
      apply find_prompt_written. exact Hf.
    + unfold activated, status_written in H. cbn [t_prompt with_prompts] in H.
      apply in_map_iff in H as (q0 & Hq & _).
      destruct (p_id_prompt q0 =? pid) eqn:E; subst q; [reflexivity|lia].
    + unfold activated, status_written in H. cbn [t_prompt with_prompts] in H.
      apply in_map_iff in H as (q0 & Hq & _).
      destruct (p_id_prompt q0 =? pid) eqn:E; subst q; [reflexivity|lia].
  - injection H as <- <-.
    assert (Hlt : tally pid (voted uid pid db) < 6)
      by (rewrite Z.geb_leb in Hge; apply Z.leb_gt in Hge; exact Hge).
    rewrite Z.max_r by lia.
    repeat split; try reflexivity; lia.
Qed.

Lemma sixth_point_activates :
  status_code (fst (serve (Votes.vote_prompt 500 3 10) no_fault Sample.db4)) = 200
  /\ snd (serve (Votes.vote_prompt 500 3 10) no_fault Sample.db4)
     = activated 500 10 (voted 3 10 Sample.db4).
Proof.
  split; [reflexivity|].
  exact (proj1 (proj2 (proj2 (proj2
    (vote_prompt_threshold 500 3 10 no_fault Sample.db4 _ _ eq_refl eq_refl))))).
Defined.

(** ** Keys and joins *)

Section Keys.

Context {A : Type} (key : A -> Z).

Lemma filter_key_absent (l : list A) k :
  existsb (Z.eqb k) (map key l) = false ->
  filter (fun y => k =? key y) l = [].
Proof.
  induction l as [|a l IH]; simpl; [reflexivity|].
  intros H. apply orb_false_elim in H as [-> H]. auto.
Qed.

Lemma filter_key_unique (l : list A) k x :
  distinct (map key l) = true ->
  find (fun y => key y =? k) l = Some x ->
  filter (fun y => k =? key y) l = [x].
Proof.
  induction l as [|a l IH]; simpl; [discriminate|].
  intros D F. apply andb_prop in D as [N D].
  rewrite (Z.eqb_sym k). destruct (Z.eqb_spec (key a) k) as [<-|_].
  - injection F as <-. f_equal. apply filter_key_absent.
    now apply negb_true_iff.
  - auto.
Qed.

Lemma find_key_present (l : list A) k :
  existsb (fun y => key y =? k) l = true ->
  exists x, find (fun y => key y =? k) l = Some x.
Proof.
  induction l as [|a l IH]; simpl; [discriminate|].
  destruct (key a =? k); simpl; eauto.
Qed.

End Keys.

Lemma or_zero_sum (l : list Z) : or_zero (Sql.sum l) = fold_right Z.add 0 l.
Proof.
  destruct l as [|a l]; [reflexivity|].
  unfold Sql.sum, or_zero.
  destruct (Z.eqb_spec (fold_right Z.add 0 (a :: l)) 0) as [->|]; reflexivity.
Qed.

Lemma join_app {A B} (l1 l2 : list A) (r : list B) on :
  Sql.join (l1 ++ l2) r on = Sql.join l1 r on ++ Sql.join l2 r on.
Proof. unfold Sql.join. apply flat_map_app. Qed.

Lemma join_one {A B} (a : A) (r : list B) on b :
  filter (on a) r = [b] -> Sql.join [a] r on = [(a, b)].
Proof. unfold Sql.join. simpl. now intros ->. Qed.

Lemma same_group_affinity u1 u2 :
  same_group u1 u2 = Spec.affinity (u_id_groupe u1) (u_id_groupe u2).
Proof.
  unfold same_group, Spec.affinity.
  destruct (u_id_groupe u1) as [x|], (u_id_groupe u2) as [y|]; simpl;
    try reflexivity.
  now destruct (x =? y).
Qed.

Lemma integrity_parts db :
  integrity db = true ->
  distinct (map u_id_utilisateur (t_utilisateur db)) = true
  /\ distinct (map p_id_prompt (t_prompt db)) = true
  /\ forallb (fun p => is_utilisateur db (p_id_createur p)) (t_prompt db) = true
  /\ forallb (fun v => is_utilisateur db (v_id_utilisateur v)
                       && is_prompt db (v_id_prompt v)) (t_vote db) = true
  /\ forallb (fun n => is_utilisateur db (n_id_utilisateur n)
                       && is_prompt db (n_id_prompt n)) (t_note db) = true.
Proof.
  unfold integrity. intros H.
  repeat (apply andb_prop in H as [H ?]). auto.
Qed.

(** The rows the three joins build from one row [k] of a table whose
    foreign keys [user_of k] and [prompt_of k] point at rows. *)
Lemma joined_once {K} db (user_of prompt_of : K -> Z) (k : K) :
  integrity db = true ->
  is_utilisateur db (user_of k) = true ->
  is_prompt db (prompt_of k) = true ->
  exists u1 p u2,
    find_utilisateur (user_of k) db = Some u1
    /\ find_prompt (prompt_of k) db = Some p
    /\ find_utilisateur (p_id_createur p) db = Some u2
    /\ Sql.join
         (Sql.join
            (Sql.join [k] (t_utilisateur db)
               (fun k u1 => user_of k =? u_id_utilisateur u1))
            (t_prompt db)
            (fun '(k, _) p => prompt_of k =? p_id_prompt p))
         (t_utilisateur db)
         (fun '(_, _, p) u2 => p_id_createur p =? u_id_utilisateur u2)
       = [(k, u1, p, u2)].
Proof.
  intros I Hu Hp. apply integrity_parts in I as (Du & Dp & Fc & _).
  apply find_key_present in Hu as [u1 Hu1].
  apply find_key_present in Hp as [p Hp1].
  assert (Hc : is_utilisateur db (p_id_createur p) = true).
  { rewrite forallb_forall in Fc. apply Fc.
    apply find_some in Hp1. tauto. }
  apply find_key_present in Hc as [u2 Hu2].
  exists u1, p, u2. repeat split; try assumption.
  rewrite (join_one k _ _ u1) by (apply filter_key_unique; assumption).
  rewrite (join_one (k, u1) _ _ p)
    by (apply (filter_key_unique p_id_prompt); assumption).
  apply join_one. apply (filter_key_unique u_id_utilisateur); assumption.
Qed.

Lemma tally_weighted_sum pid db :
  integrity db = true -> tally pid db = Spec.total_points pid db.
Proof.
  intros I. unfold tally. rewrite or_zero_sum.
  unfold Spec.total_points, Spec.votes_on, vote_rows.
  pose proof (integrity_parts db I) as (_ & _ & _ & Fv & _).
  revert Fv. generalize (t_vote db) as vs.
  induction vs as [|v vs IH]; [reflexivity|].
  intros Fv. cbn [forallb] in Fv.
  apply andb_prop in Fv as [Hv Fv]. apply andb_prop in Hv as [Hu Hp].
  change (v :: vs) with ([v] ++ vs).
  rewrite !join_app, !filter_app, !map_app, !fold_right_app.
  rewrite <- (IH Fv) at 1. clear IH.
  destruct (joined_once db v_id_utilisateur v_id_prompt v I Hu Hp)
    as (u1 & p & u2 & H1 & H2 & H3 & ->).
  cbn [filter app map fold_right].
  destruct (Z.eqb_spec (v_id_prompt v) pid) as [E|E];
    cbn [map fold_right]; [|reflexivity].
  rewrite same_group_affinity.
  unfold Spec.vote_weight, Spec.createur_of, Spec.groupe_of.
  rewrite H1, <- E, H2, H3. lia.
Qed.

Lemma find_prompt_is_prompt pid db p :
  find_prompt pid db = Some p -> is_prompt db pid = true.
Proof.
  unfold find_prompt, is_prompt. intros H. apply find_some in H.
  apply existsb_exists. eauto.
Qed.

Lemma integrity_voted uid pid db :
  integrity db = true -> is_utilisateur db uid = true ->
  is_prompt db pid = true -> integrity (voted uid pid db) = true.
Proof.
  intros I Hu Hp.
  pose proof (integrity_parts db I) as (Du & Dp & Fc & Fv & Fn).
  unfold integrity, voted, with_votes. cbn [t_utilisateur t_prompt t_vote t_note].
  rewrite forallb_app. cbn [forallb v_id_utilisateur v_id_prompt].
  unfold is_utilisateur, is_prompt in *. cbn [t_utilisateur t_prompt] in *.
  now rewrite Du, Dp, Fc, Fv, Fn, Hu, Hp.
Qed.

Lemma find_prompt_written_none s now pid db :
  find_prompt pid db = None ->
  find_prompt pid (status_written s now pid db) = None.
Proof.
  unfold find_prompt, status_written. cbn [t_prompt with_prompts].
  induction (t_prompt db) as [|a l IH]; simpl; [reflexivity|].
  destruct (p_id_prompt a =? pid) eqn:E; simpl; rewrite E; [discriminate|auto].
Qed.

Lemma total_points_written s now pid db :
  Spec.total_points pid (status_written s now pid db) = Spec.total_points pid db.
Proof.
  unfold Spec.total_points, Spec.votes_on.
  replace (Spec.createur_of pid (status_written s now pid db))
    with (Spec.createur_of pid db); [reflexivity|].
  unfold Spec.createur_of.
  destruct (find_prompt pid db) as [p|] eqn:Hf.
  - now rewrite (find_prompt_written _ _ _ _ _ Hf).
  - now rewrite find_prompt_written_none.
Qed.

(** ** [activate_prompt_by_vote], path by path *)

Lemma activate_prompt_by_vote_serve now claims pid faults db :
  serve (Prompts.activate_prompt_by_vote now claims pid) faults db =
  if negb (String.eqb (jwt_role claims) "admin") then
    (jsonify (JDict [("error", JStr "Accès non autorisé")]) 403, db)
  else if faults 0%nat then (internal_server_error, db)
  else
    let refused :=
      (jsonify (JDict [("error", JStr "Ce prompt ne peut pas être activé par vote")]) 400, db) in
    match find_prompt pid db with
    | None => refused
    | Some p =>
      if negb (String.eqb (p_statut p) "rappel") then refused
      else if faults 1%nat then (internal_server_error, db)
      else if tally pid db <? 6 then
        (jsonify (JDict [("error", JStr "Le minimum de 6 points n'est pas atteint");
                         ("total_points", JInt (tally pid db))]) 400, db)
      else if faults 2%nat then (error_500 db_error, db)
      else
        (jsonify (JDict
           [("message", JStr "Prompt activé par vote avec succès");
            ("prompt", Prompts.activated_row (set_statut "activer" now p));
            ("total_points", JInt (tally pid db))]) 200,
         activated now pid db)
    end.
Proof.
  unfold serve, Prompts.activate_prompt_by_vote.
  destruct (negb (String.eqb (jwt_role claims) "admin")); step; [reflexivity|].
  destruct (faults 0%nat); step; [reflexivity|].
  destruct (find_prompt pid db) as [p|] eqn:Hf;
    pose proof Hf as Hf'; unfold find_prompt in Hf';
    rewrite <- filter_head_find in Hf';
    destruct (filter _ (t_prompt db)) as [|p0 ps] eqn:Hp; try discriminate;
    step; [|reflexivity].
  injection Hf' as ->.
  destruct (String.eqb (p_statut p) "rappel"); step; [|reflexivity].
  destruct (faults 1%nat); step; [reflexivity|].
  fold (tally pid db).
  destruct (tally pid db <? 6); step; [reflexivity|].
  destruct (faults 2%nat); step; [reflexivity|].
  unfold update_statut. rewrite filter_update_hit by reflexivity.
  rewrite Hp. step. reflexivity.
Qed.

(** Every path of a route, from its path-by-path equation [H]. *)
Ltac paths H :=
  revert H; cbv zeta;
  repeat (match goal with
          | |- context [match find_prompt ?a ?b with _ => _ end] =>
              destruct (find_prompt a b) eqn:?
          | |- context [if ?c then _ else _] => destruct c eqn:?
          end; cbv beta iota);
  intros H; injection H as <- <-.

(** C2. On tables that satisfy their keys, the total of the tally statement
    is the sum, over the votes recorded on the prompt, of 2 for a voter
    whose group is set and equal to the creator's and of 1 otherwise: as
    the statement returns it, as [vote_prompt] reports it once the new
    vote is in, and as [activate_prompt_by_vote] reports it. *)
Theorem total_points_weighted_sum pid db :
  integrity db = true ->
  (exists row, points_query pid db = Some ([row], db)
               /\ or_zero row = Spec.total_points pid db)
  /\ (forall now uid faults r db',
        is_utilisateur db uid = true ->
        serve (Votes.vote_prompt now uid pid) faults db = (r, db') ->
        status_code r = 200 ->
        field "total_points" r = Some (JInt (Spec.total_points pid db')))
  /\ (forall now claims faults r db' t,
        serve (Prompts.activate_prompt_by_vote now claims pid) faults db = (r, db') ->
        field "total_points" r = Some (JInt t) ->
        t = Spec.total_points pid db /\ t = Spec.total_points pid db').
Proof.
  intros I. split; [|split].
  - eexists. split; [reflexivity|]. apply (tally_weighted_sum pid db I).
  - intros now uid faults r db' Hu H H200.
    rewrite vote_prompt_serve in H. paths H; try discriminate H200.
    all: cbn [field body jsonify assoc String.eqb Ascii.eqb Bool.eqb]; do 2 f_equal.
    all: unfold activated; rewrite ?total_points_written.
    all: apply tally_weighted_sum, integrity_voted; eauto using find_prompt_is_prompt.
  - intros now claims faults r db' t H Ht.
    rewrite activate_prompt_by_vote_serve in H. paths H; try discriminate Ht.
    all: injection Ht as <-.
    all: unfold activated; rewrite ?total_points_written.
    all: split; apply tally_weighted_sum, I.
Qed.

Lemma total_points_witness :
  exists row, points_query 10 Sample.db4 = Some ([row], Sample.db4)
              /\ or_zero row = Spec.total_points 10 Sample.db4.
Proof. exact (proj1 (total_points_weighted_sum 10 Sample.db4 eq_refl)). Defined.

(** ** [update_prompt_status], path by path *)

Lemma update_prompt_status_serve now claims pid s faults db :
  serve (Prompts.update_prompt_status now claims pid (Some s)) faults db =
  if String.eqb s "" then
    (jsonify (JDict [("error", JStr "Statut du prompt requis")]) 400, db)
  else if negb (existsb (String.eqb s) Prompts.statuts_valides) then
    (jsonify (JDict [("error", JStr "Statut invalide")]) 400, db)
  else if faults 0%nat then (internal_server_error, db)
  else
    match find_prompt pid db with
    | None => (jsonify (JDict [("error", JStr "Prompt non trouvé")]) 404, db)
    | Some p =>
      let applied :=
        if faults 1%nat then (error_500 db_error, db)
        else
          (jsonify (JDict
             [("message", JStr "Statut du prompt mis à jour avec succès");
              ("prompt", Prompts.updated_row (set_statut s now p))]) 200,
           status_written s now pid db) in
      if String.eqb (jwt_role claims) "admin" then applied
      else if p_id_createur p =? jwt_identity claims then
        if negb (String.eqb s "a_supprimer") then
          (jsonify (JDict [("error", JStr "Vous ne pouvez que demander la suppression de votre prompt")]) 403, db)
        else applied
      else (jsonify (JDict [("error", JStr "Accès non autorisé")]) 403, db)
    end.
Proof.
  unfold serve, Prompts.update_prompt_status.
  generalize (existsb (String.eqb s) Prompts.statuts_valides) as valid.
  intros valid.
  destruct (String.eqb s ""); step; [reflexivity|].
  destruct valid; step; [|reflexivity].
  destruct (faults 0%nat); step; [reflexivity|].
  destruct (find_prompt pid db) as [p|] eqn:Hf;
    pose proof Hf as Hf'; unfold find_prompt in Hf';
    rewrite <- filter_head_find in Hf';
    destruct (filter _ (t_prompt db)) as [|p0 ps] eqn:Hp; try discriminate;
    step; [|reflexivity].
  injection Hf' as ->.
  assert (Happlied :
    (let '(o, db') :=
       run (try_except
              (result <- execute_query (update_statut s now pid) ;;
               row <- result [0] ;;
               Ret (jsonify (JDict
                      [("message", JStr "Statut du prompt mis à jour avec succès");
                       ("prompt", Prompts.updated_row row)]) 200))
              (fun e => Ret (jsonify (JDict [("error", JStr e)]) 500)))
           (fun n => faults (S n)) db in
     (match o with Some r => r | None => internal_server_error end, db'))
    = if faults 1%nat then (error_500 db_error, db)
      else (jsonify (JDict
              [("message", JStr "Statut du prompt mis à jour avec succès");
               ("prompt", Prompts.updated_row (set_statut s now p))]) 200,
            status_written s now pid db)).
  { step. destruct (faults 1%nat); step; [reflexivity|].
    unfold update_statut. rewrite filter_update_hit by reflexivity.
    rewrite Hp. step. reflexivity. }
  destruct (String.eqb (jwt_role claims) "admin"); step; [exact Happlied|].
  destruct (p_id_createur p =? jwt_identity claims); step; [|reflexivity].
  destruct (String.eqb s "a_supprimer"); step; [exact Happlied|reflexivity].
Qed.

(** C4. A status change on an existing prompt, towards one of the five
    statuses: an admin's is applied whatever the current and the target
    status; the creator's is applied exactly when the target is
    [a_supprimer], and refused with 403 otherwise; anybody else's is
    refused with 403.  A refusal leaves the database as it was; applied,
    the change leaves the prompt with the target status and with [now] as
    [date_derniere_modification], its other columns kept, and the answer
    shows the prompt with that status and that date. *)
Theorem update_prompt_status_policy now claims pid s db p :
  In s Prompts.statuts_valides ->
  find_prompt pid db = Some p ->
  let '(r, db') :=
    serve (Prompts.update_prompt_status now claims pid (Some s)) no_fault db in
  let applied :=
    status_code r = 200
    /\ db' = status_written s now pid db
    /\ find_prompt pid db' = Some (set_statut s now p)
    /\ field "prompt" r = Some (Prompts.updated_row (set_statut s now p))
    /\ (exists q,
          find_prompt pid db' = Some q
          /\ p_statut q = s
          /\ p_date_derniere_modification q = now
          /\ same_content p q)
    /\ (exists item,
          field "prompt" r = Some item
          /\ json_get "id_prompt" item = Some (JInt pid)
          /\ json_get "statut" item = Some (JStr s)
          /\ json_get "date_derniere_modification" item = Some (JInt now)) in
  let refused (msg : string) :=
    status_code r = 403 /\ field "error" r = Some (JStr msg) /\ db' = db in
  if String.eqb (jwt_role claims) "admin" then applied
  else if p_id_createur p =? jwt_identity claims then
    if String.eqb s "a_supprimer" then applied
    else refused "Vous ne pouvez que demander la suppression de votre prompt"
  else refused "Accès non autorisé".
Proof.
  intros Hs Hf. rewrite update_prompt_status_serve, Hf. cbn [no_fault].
  assert (Hw := find_prompt_written s now pid db p Hf).
  assert (Hne : String.eqb s "" = false /\
                existsb (String.eqb s) Prompts.statuts_valides = true).
  { cbn in Hs. decompose [or] Hs; subst; try contradiction; now split. }
  destruct Hne as [-> ->]. cbn [negb]. cbv zeta.
  pose proof (find_prompt_id pid db p Hf) as Hid.
  assert (Happlied :
    status_code
      (jsonify (JDict
         [("message", JStr "Statut du prompt mis à jour avec succès");
          ("prompt", Prompts.updated_row (set_statut s now p))]) 200) = 200
    /\ status_written s now pid db = status_written s now pid db
    /\ find_prompt pid (status_written s now pid db) = Some (set_statut s now p)
    /\ field "prompt"
         (jsonify (JDict
            [("message", JStr "Statut du prompt mis à jour avec succès");
             ("prompt", Prompts.updated_row (set_statut s now p))]) 200)
       = Some (Prompts.updated_row (set_statut s now p))
    /\ (exists q,
          find_prompt pid (status_written s now pid db) = Some q
          /\ p_statut q = s
          /\ p_date_derniere_modification q = now
          /\ same_content p q)
    /\ (exists item,
          field "prompt"
            (jsonify (JDict
               [("message", JStr "Statut du prompt mis à jour avec succès");
                ("prompt", Prompts.updated_row (set_statut s now p))]) 200)
          = Some item
          /\ json_get "id_prompt" item = Some (JInt pid)
          /\ json_get "statut" item = Some (JStr s)
          /\ json_get "date_derniere_modification" item = Some (JInt now))).
  { repeat split; try assumption.
    - exists (set_statut s now p). repeat split. exact Hw.
    - eexists. split; [reflexivity|]. rewrite <- Hid. repeat split. }
  destruct (String.eqb (jwt_role claims) "admin"); [exact Happlied|].
  destruct (p_id_createur p =? jwt_identity claims); [|now repeat split].
  destruct (String.eqb s "a_supprimer"); [exact Happlied|now repeat split].
Qed.

Lemma update_prompt_status_policy_witness :
  status_code
    (fst (serve (Prompts.update_prompt_status 500 (mk_jwt 1 "user") 10
                   (Some "a_supprimer")) no_fault Sample.db0)) = 200
  /\ status_code
       (fst (serve (Prompts.update_prompt_status 500 (mk_jwt 1 "user") 10
                      (Some "activer")) no_fault Sample.db0)) = 403
  /\ status_code
       (fst (serve (Prompts.update_prompt_status 500 (mk_jwt 2 "user") 10
                      (Some "a_supprimer")) no_fault Sample.db0)) = 403.
Proof.
  split; [|split].
  - exact (proj1 (update_prompt_status_policy 500 (mk_jwt 1 "user") 10
                    "a_supprimer" Sample.db0 Sample.recalled
                    (or_intror (or_intror (or_intror (or_intror (or_introl eq_refl)))))
                    eq_refl)).
  - exact (proj1 (update_prompt_status_policy 500 (mk_jwt 1 "user") 10
                    "activer" Sample.db0 Sample.recalled
                    (or_intror (or_introl eq_refl)) eq_refl)).
  - exact (proj1 (update_prompt_status_policy 500 (mk_jwt 2 "user") 10
                    "a_supprimer" Sample.db0 Sample.recalled
                    (or_intror (or_intror (or_intror (or_intror (or_introl eq_refl)))))
                    eq_refl)).
Defined.

(** C5 (as the code has it). [activate_prompt_by_vote] by an admin on a
    prompt whose status is not [rappel] ([activer] included) is refused:
    the answer is the error 400 "Ce prompt ne peut pas être activé par
    vote", never 200, and the database (status and
    [date_derniere_modification] included) is as it was. *)
Theorem activate_refused_unless_recalled now claims pid faults db p :
  jwt_role claims = "admin" ->
  find_prompt pid db = Some p ->
  p_statut p <> "rappel" ->
  let '(r, db') :=
    serve (Prompts.activate_prompt_by_vote now claims pid) faults db in
  db' = db
  /\ status_code r <> 200
  /\ (faults 0%nat = false ->
      status_code r = 400
      /\ field "error" r = Some (JStr "Ce prompt ne peut pas être activé par vote")).
Proof.
  intros Ha Hf Hs. rewrite activate_prompt_by_vote_serve, Ha, Hf.
  cbn [String.eqb Ascii.eqb Bool.eqb negb]. cbv zeta.
  destruct (faults 0%nat); [repeat split; discriminate|].
  destruct (String.eqb_spec (p_statut p) "rappel"); [contradiction|].
  repeat split; discriminate.
Qed.

Lemma activate_refused_witness :
  snd (serve (Prompts.activate_prompt_by_vote 900 Sample.admin 10) no_fault
             Sample.db_active) = Sample.db_active.
Proof.
  refine (proj1 (activate_refused_unless_recalled 900 Sample.admin 10 no_fault
                   Sample.db_active _ eq_refl eq_refl _)).
  discriminate.
Defined.

(** C5, the claim as stated fails: the prompt is [activer], the caller an
    admin, and the answer is the error 400, not 200. *)
Lemma activate_active_not_success :
  find_prompt 10 Sample.db_active
  = Some (mk_prompt 10 "texte" 0 "activer" 1 100 200)
  /\ serve (Prompts.activate_prompt_by_vote 900 Sample.admin 10) no_fault
           Sample.db_active
     = (jsonify (JDict [("error", JStr "Ce prompt ne peut pas être activé par vote")]) 400,
        Sample.db_active)
  /\ status_code
       (fst (serve (Prompts.activate_prompt_by_vote 900 Sample.admin 10) no_fault
                   Sample.db_active)) <> 200.
Proof. repeat split. discriminate. Qed.

(** The ways a call of [vote_prompt] can end, whatever calls the
    environment fails. *)
Lemma vote_prompt_outcomes now uid pid faults db :
  let '(r, db') := serve (Votes.vote_prompt now uid pid) faults db in
  ((db' = db /\ status_code r <> 200)
   \/ (db' = voted uid pid db /\ status_code r = 500
       /\ (faults 3%nat = true \/ faults 4%nat = true))
   \/ (db' = voted uid pid db /\ status_code r = 200
       /\ tally pid (voted uid pid db) < 6)
   \/ (db' = activated now pid (voted uid pid db) /\ status_code r = 200
       /\ 6 <= tally pid (voted uid pid db)))
  /\ ((faults 0%nat = false /\ faults 1%nat = false /\ faults 2%nat = false)
      \/ db' = db)
  /\ Forall (fun q => In q (t_prompt db)
                      \/ (p_statut q = "activer"
                          /\ p_date_derniere_modification q = now))
            (t_prompt db').
Proof.
  assert (Hsame : Forall (fun q => In q (t_prompt db)
                      \/ (p_statut q = "activer"
                          /\ p_date_derniere_modification q = now))
                    (t_prompt db)).
  { apply Forall_forall. auto. }
  assert (Hact : Forall (fun q => In q (t_prompt db)
                      \/ (p_statut q = "activer"
                          /\ p_date_derniere_modification q = now))
                    (t_prompt (activated now pid (voted uid pid db)))).
  { apply Forall_forall. intros q Hq.
    unfold activated, status_written in Hq. cbn [t_prompt with_prompts voted with_votes] in Hq.
    apply in_map_iff in Hq as (q0 & <- & Hq0).
    destruct (p_id_prompt q0 =? pid); [right; now split|now left]. }
  rewrite vote_prompt_serve.
  destruct (faults 0%nat) eqn:F0; [repeat split; auto; left; split; [reflexivity|discriminate]|].
  destruct (find_prompt pid db) as [p|];
    [|repeat split; auto; left; split; [reflexivity|discriminate]].
  destruct (negb _); [repeat split; auto; left; split; [reflexivity|discriminate]|].
  destruct (_ =? uid); [repeat split; auto; left; split; [reflexivity|discriminate]|].
  destruct (faults 1%nat) eqn:F1; [repeat split; auto; left; split; [reflexivity|discriminate]|].
  destruct (has_voted uid pid db);
    [repeat split; auto; left; split; [reflexivity|discriminate]|].
  destruct (faults 2%nat) eqn:F2;
    [repeat split; auto; left; split; [reflexivity|discriminate]|].
  destruct (faults 3%nat) eqn:F3; [repeat split; auto; right; left; auto|].
  cbv zeta.
  destruct (Z.geb_spec (tally pid (voted uid pid db)) 6) as [Hge|Hlt].
  - destruct (faults 4%nat) eqn:F4; [repeat split; auto; right; left; auto|].
    repeat split; auto. right. right. right. repeat split. lia.
  - repeat split; auto. right. right. left. repeat split. lia.
Qed.

(** C6 (as the code has it). Every statement of [vote_prompt] commits on
    its own.  When the four checks pass and the insertion is reached: a
    failure of the insertion answers 500 and leaves the database as it
    was; a failure of the tally after the insertion, or of the status write
    once the total is 6 or more, answers 500, keeps the vote recorded and
    changes no prompt row.  Whatever calls the environment fails, the call
    ends in one of four ways: nothing written and no 200; the vote written,
    a later call failed and the answer 500; the vote written, the total
    below 6 and the answer 200; the vote and the status written, the total
    at least 6 and the answer 200.  A failure of the insertion, or of a
    check before it, leaves the database as it was, and a prompt row that
    changed carries both the status [activer] and the new
    [date_derniere_modification]. *)
Theorem vote_prompt_commits_per_statement now uid pid faults db :
  let '(r, db') := serve (Votes.vote_prompt now uid pid) faults db in
  (forall p,
     find_prompt pid db = Some p -> p_statut p = "rappel" ->
     p_id_createur p <> uid -> has_voted uid pid db = false ->
     faults 0%nat = false -> faults 1%nat = false ->
     (faults 2%nat = true -> status_code r = 500 /\ db' = db)
     /\ (faults 2%nat = false -> faults 3%nat = true ->
         status_code r = 500
         /\ t_vote db' = t_vote db ++ [mk_vote (vote_id_seq db) uid pid]
         /\ t_prompt db' = t_prompt db
         /\ db' = voted uid pid db)
     /\ (faults 2%nat = false -> faults 3%nat = false ->
         6 <= tally pid (voted uid pid db) -> faults 4%nat = true ->
         status_code r = 500
         /\ t_vote db' = t_vote db ++ [mk_vote (vote_id_seq db) uid pid]
         /\ t_prompt db' = t_prompt db
         /\ db' = voted uid pid db))
  /\ ((db' = db /\ status_code r <> 200)
   \/ (db' = voted uid pid db /\ status_code r = 500
       /\ (faults 3%nat = true \/ faults 4%nat = true))
   \/ (db' = voted uid pid db /\ status_code r = 200
       /\ tally pid (voted uid pid db) < 6)
   \/ (db' = activated now pid (voted uid pid db) /\ status_code r = 200
       /\ 6 <= tally pid (voted uid pid db)))
  /\ ((faults 0%nat = false /\ faults 1%nat = false /\ faults 2%nat = false)
      \/ db' = db)
  /\ Forall (fun q => In q (t_prompt db)
                      \/ (p_statut q = "activer"
                          /\ p_date_derniere_modification q = now))
            (t_prompt db').
Proof.
  pose proof (vote_prompt_outcomes now uid pid faults db) as Hout.
  pose proof (vote_prompt_serve now uid pid faults db) as Hserve.
  destruct (serve (Votes.vote_prompt now uid pid) faults db) as [r db'].
  split; [|exact Hout]. clear Hout.
  intros p Hf Hs Hc Hv F0 F1.
  rewrite F0, Hf, Hs, F1, Hv in Hserve.
  change (String.eqb "rappel" "rappel") with true in Hserve.
  destruct (Z.eqb_spec (p_id_createur p) uid) as [|_]; [contradiction|].
  cbn [negb] in Hserve. cbv zeta in Hserve.
  split; [|split].
  - intros F2. rewrite F2 in Hserve. injection Hserve as -> ->. now split.
  - intros F2 F3. rewrite F2, F3 in Hserve. injection Hserve as -> ->.
    now repeat split.
  - intros F2 F3 H6 F4. rewrite F2, F3, F4 in Hserve.
    destruct (Z.geb_spec (tally pid (voted uid pid db)) 6) as [_|Hlt]; [|lia].
    injection Hserve as -> ->. now repeat split.
Qed.

Lemma vote_kept_after_failed_update :
  status_code
    (fst (serve (Votes.vote_prompt 500 3 10) Sample.fifth_call_fails Sample.db4))
  = 500
  /\ t_vote (snd (serve (Votes.vote_prompt 500 3 10) Sample.fifth_call_fails
                        Sample.db4))
     = t_vote Sample.db4 ++ [mk_vote 4 3 10].
Proof.
  assert (H := proj1 (vote_prompt_commits_per_statement 500 3 10
                        Sample.fifth_call_fails Sample.db4)).
  assert (Hc : p_id_createur Sample.recalled <> 3) by discriminate.
  assert (H6 : 6 <= tally 10 (voted 3 10 Sample.db4)) by (vm_compute; discriminate).
  destruct (H Sample.recalled eq_refl eq_refl Hc eq_refl eq_refl eq_refl)
    as (_ & _ & H3).
  destruct (H3 eq_refl eq_refl H6 eq_refl) as (H1 & H2 & _).
  split; assumption.
Defined.

(** C6, the claim as stated fails: the sixth point arrives with the vote of
    user 3, the status write then fails, the answer is 500, and the vote
    stays recorded on a prompt still in [rappel]. *)
Lemma vote_kept_when_activation_fails :
  serve (Votes.vote_prompt 500 3 10) Sample.fifth_call_fails Sample.db4
  = (error_500 db_error, voted 3 10 Sample.db4)
  /\ t_vote (voted 3 10 Sample.db4)
     = t_vote Sample.db4 ++ [mk_vote 4 3 10]
  /\ voted 3 10 Sample.db4 <> Sample.db4
  /\ tally 10 (voted 3 10 Sample.db4) = 6
  /\ find_prompt 10 (voted 3 10 Sample.db4) = Some Sample.recalled.
Proof. repeat split. discriminate. Qed.

(** ** The notation of [get_prompt] *)

Lemma prompt_createur_head pid db p :
  integrity db = true ->
  find_prompt pid db = Some p ->
  exists u rest,
    find_utilisateur (p_id_createur p) db = Some u
    /\ filter (fun '(p, _) => p_id_prompt p =? pid) (Prompts.prompt_createur db)
       = (p, u) :: rest.
Proof.
  intros I. pose proof (integrity_parts db I) as (Du & _ & Fc & _).
  unfold find_prompt, Prompts.prompt_createur, Sql.join.
  revert Fc. generalize (t_prompt db) as ps.
  induction ps as [|a ps IH]; [discriminate|].
  cbn [forallb find flat_map]. intros Fc Hf.
  apply andb_prop in Fc as [Ha Fc].
  apply find_key_present in Ha as [u Hu].
  rewrite (filter_key_unique u_id_utilisateur _ _ u Du Hu).
  cbn [map app filter].
  destruct (p_id_prompt a =? pid).
  - injection Hf as <-. eauto.
  - auto.
Qed.

Lemma note_rows_weighted pid db :
  integrity db = true ->
  map Prompts.weighted (Prompts.note_rows pid db)
  = map (fun n => (inject_Z (n_valeur n)
                   * Spec.note_weight (Spec.groupe_of db (n_id_utilisateur n))
                                      (Spec.createur_of pid db))%Q)
        (Spec.notes_on pid db).
Proof.
  intros I. unfold Prompts.note_rows, Spec.notes_on.
  pose proof (integrity_parts db I) as (_ & _ & _ & _ & Fn).
  revert Fn. generalize (t_note db) as ns.
  induction ns as [|n ns IH]; [reflexivity|].
  intros Fn. cbn [forallb] in Fn.
  apply andb_prop in Fn as [Hn Fn]. apply andb_prop in Hn as [Hu Hp].
  change (n :: ns) with ([n] ++ ns).
  rewrite !join_app, !filter_app, !map_app.
  rewrite (IH Fn). clear IH. f_equal.
  destruct (joined_once db n_id_utilisateur n_id_prompt n I Hu Hp)
    as (u1 & p & u2 & H1 & H2 & H3 & ->).
  cbn [filter].
  rewrite (find_prompt_id _ _ _ H2).
  destruct (Z.eqb_spec (n_id_prompt n) pid) as [E|E]; [|reflexivity].
  cbn [map Prompts.weighted]. rewrite same_group_affinity.
  unfold Spec.note_weight, Spec.createur_of, Spec.groupe_of.
  rewrite H1, <- E, H2, H3.
  now destruct (Spec.affinity (u_id_groupe u1) (u_id_groupe u2)).
Qed.

Lemma note_query_notation nm pid db :
  integrity db = true ->
  Prompts.note_query nm pid db = Some ([Spec.notation nm pid db], db).
Proof.
  intros I. unfold Prompts.note_query, Spec.notation, Spec.weighted_sum, Sql.count.
  rewrite length_map.
  pose proof (note_rows_weighted pid db I) as Hw.
  assert (Hl : List.length (Prompts.note_rows pid db)
               = List.length (Spec.notes_on pid db)).
  { rewrite <- (length_map Prompts.weighted), Hw. apply length_map. }
  rewrite Hw, Hl.
  destruct (Spec.notes_on pid db) as [|n ns]; [reflexivity|].
  cbn [map Sql.sumQ Prompts.div List.length].
  destruct (Z.eqb_spec (Z.of_nat (S (List.length ns))) 0) as [E|_]; [lia|].
  reflexivity.
Qed.

(** ** [get_prompt], path by path *)

Lemma get_prompt_serve nm pid req faults db p :
  integrity db = true ->
  find_prompt pid db = Some p ->
  exists u,
    find_utilisateur (p_id_createur p) db = Some u
    /\ serve (Prompts.get_prompt nm pid req) faults db
       = if faults 0%nat then (error_500 db_error, db)
         else if has_authorization req then (error_500 jwt_not_verified, db)
         else if negb (String.eqb (p_statut p) "activer") then
           (jsonify (JDict [("error", JStr "Accès non autorisé")]) 403, db)
         else if faults 1%nat then (error_500 db_error, db)
         else
           (jsonify (JDict (Prompts.prompt_row (p, u)
                            ++ [("notation",
                                 Prompts.notation_row nm (Spec.notation nm pid db))]))
                    200, db).
Proof.
  intros I Hf.
  destruct (prompt_createur_head pid db p I Hf) as (u & rest & Hu & Hrows).
  exists u. split; [exact Hu|].
  unfold serve, Prompts.get_prompt. step.
  destruct (faults 0%nat); step; [reflexivity|].
  rewrite Hrows. unfold jwt_if_authorization, get_jwt.
  destruct (has_authorization req); step; [reflexivity|].
  destruct (String.eqb (p_statut p) "activer"); step; [|reflexivity].
  destruct (faults 1%nat); step; [reflexivity|].
  rewrite (note_query_notation nm pid db I). reflexivity.
Qed.



(** Three notes of 5, 4 and 3, the first by a user of the creator's group:
    5.8 / 3 is rounded by the database. *)
Example notation_rounded :
  field "notation"
    (fst (serve (Prompts.get_prompt Sample.decimal16 10 (mk_request None None))
                no_fault
                (mk_DB Sample.users [mk_prompt 10 "texte" 0 "activer" 1 100 200]
                       [] [mk_note 1 2 10 5; mk_note 2 5 10 4; mk_note 3 6 10 3]
                       1 true)))
  = Some (JDict [("moyenne_ponderee", JStr "1.9333333333333333");
                 ("nombre_notes", JInt 3)]).
Proof. vm_compute. reflexivity. Qed.

(** ** [ORDER BY] *)

Section OrderBy.

Context {A : Type} (le : A -> A -> bool).
Hypothesis le_total : forall a b, le a b = false -> le b a = true.
Hypothesis le_trans : forall a b c, le a b = true -> le b c = true -> le a c = true.

Lemma insert_by_perm (x : A) (l : list A) : Permutation (insert_by le x l) (x :: l).
Proof.
  induction l as [|y t IH]; simpl; [reflexivity|].
  destruct (le x y); [reflexivity|].
  rewrite IH. apply perm_swap.
Qed.

Lemma order_by_perm (l : list A) : Permutation (order_by le l) l.
Proof.
  induction l as [|x l IH]; simpl; [reflexivity|].
  rewrite insert_by_perm. now constructor.
Qed.

Lemma insert_by_sorted (x : A) (l : list A) :
  StronglySorted (fun a b => le a b = true) l ->
  StronglySorted (fun a b => le a b = true) (insert_by le x l).
Proof.
  induction 1 as [|y t St IH Fy]; simpl.
  - repeat constructor.
  - destruct (le x y) eqn:E.
    + constructor; [now constructor|].
      constructor; [exact E|].
      eapply Forall_impl; [|exact Fy]. intros z Hz. now apply (le_trans x y z).
    + constructor; [exact IH|].
      apply Forall_forall. intros z Hz.
      apply (Permutation_in _ (insert_by_perm x t)) in Hz.
      destruct Hz as [<-|Hz]; [now apply le_total|].
      rewrite Forall_forall in Fy. now apply Fy.
Qed.

Lemma order_by_sorted (l : list A) :
  StronglySorted (fun a b => le a b = true) (order_by le l).
Proof.
  induction l as [|x l IH]; simpl; [constructor|].
  now apply insert_by_sorted.
Qed.

End OrderBy.

Lemma sorted_refine {A B} (R : A -> A -> Prop) (R' : B -> B -> Prop)
      (Q : A -> Prop) (f : A -> B) (l : list A) :
  (forall a b, Q a -> Q b -> R a b -> R' (f a) (f b)) ->
  Forall Q l -> StronglySorted R l -> StronglySorted R' (map f l).
Proof.
  intros HR HQ HS. induction HS as [|a l HS IH Fa]; simpl; [constructor|].
  inversion HQ as [|? ? Qa Ql]; subst.
  constructor; [now apply IH|].
  apply Forall_map. rewrite Forall_forall in *.
  intros b Hb. apply HR; auto.
Qed.

(** ** The moderation listing *)

Lemma cmp_nulls_last_spec a b :
  match Prompts.cmp_nulls_last a b with
  | Lt => match a, b with
          | Some x, Some y => x < y
          | Some _, None => True
          | _, _ => False
          end
  | Eq => match a, b with
          | Some x, Some y => x = y
          | None, None => True
          | _, _ => False
          end
  | Gt => match a, b with
          | Some x, Some y => y < x
          | None, Some _ => True
          | _, _ => False
          end
  end.
Proof.
  destruct a as [x|], b as [y|]; simpl; auto.
  destruct (Z.compare_spec x y); auto.
Qed.

Lemma pending_le_total a b :
  Prompts.pending_le a b = false -> Prompts.pending_le b a = true.
Proof.
  unfold Prompts.pending_le.
  pose proof (cmp_nulls_last_spec (Prompts.priority (p_statut (fst a)))
                                  (Prompts.priority (p_statut (fst b)))) as H1.
  pose proof (cmp_nulls_last_spec (Prompts.priority (p_statut (fst b)))
                                  (Prompts.priority (p_statut (fst a)))) as H2.
  destruct (Prompts.cmp_nulls_last _ _), (Prompts.cmp_nulls_last _ _);
    destruct (Prompts.priority (p_statut (fst a))),
             (Prompts.priority (p_statut (fst b)));
    try contradiction; try discriminate; try reflexivity; try lia;
    intros H; apply Z.leb_gt in H; apply Z.leb_le; lia.
Qed.

Lemma pending_le_trans a b c :
  Prompts.pending_le a b = true -> Prompts.pending_le b c = true ->
  Prompts.pending_le a c = true.
Proof.
  unfold Prompts.pending_le.
  pose proof (cmp_nulls_last_spec (Prompts.priority (p_statut (fst a)))
                                  (Prompts.priority (p_statut (fst b)))) as H1.
  pose proof (cmp_nulls_last_spec (Prompts.priority (p_statut (fst b)))
                                  (Prompts.priority (p_statut (fst c)))) as H2.
  pose proof (cmp_nulls_last_spec (Prompts.priority (p_statut (fst a)))
                                  (Prompts.priority (p_statut (fst c)))) as H3.
  destruct (Prompts.cmp_nulls_last (Prompts.priority (p_statut (fst a)))
                                   (Prompts.priority (p_statut (fst b))));
    destruct (Prompts.cmp_nulls_last (Prompts.priority (p_statut (fst b)))
                                     (Prompts.priority (p_statut (fst c))));
    destruct (Prompts.cmp_nulls_last (Prompts.priority (p_statut (fst a)))
                                     (Prompts.priority (p_statut (fst c))));
    destruct (Prompts.priority (p_statut (fst a))),
             (Prompts.priority (p_statut (fst b))),
             (Prompts.priority (p_statut (fst c)));
    try contradiction; try discriminate; try reflexivity; try lia;
    intros Hab Hbc; apply Z.leb_le in Hab; apply Z.leb_le in Hbc;
    apply Z.leb_le; lia.
Qed.

Lemma pending_statuts_awaits p :
  existsb (String.eqb (p_statut p)) Prompts.pending_statuts
  = Spec.awaits_moderation p.
Proof.
  unfold Spec.awaits_moderation, Prompts.pending_statuts. cbn [existsb].
  now destruct (String.eqb _ "en_attente"), (String.eqb _ "a_revoir"),
               (String.eqb _ "a_supprimer"), (String.eqb _ "rappel").
Qed.

Lemma priority_rank p :
  Spec.awaits_moderation p = true ->
  Prompts.priority (p_statut p) = Some (Spec.rank (p_statut p) + 1).
Proof.
  unfold Spec.awaits_moderation, Prompts.priority, Spec.rank.
  destruct (String.eqb (p_statut p) "a_supprimer"); [reflexivity|].
  destruct (String.eqb (p_statut p) "rappel"); [reflexivity|].
  destruct (String.eqb (p_statut p) "en_attente"); [reflexivity|].
  destruct (String.eqb (p_statut p) "a_revoir"); [reflexivity|].
  discriminate.
Qed.

Lemma pending_le_before a b :
  Spec.awaits_moderation (fst a) = true ->
  Spec.awaits_moderation (fst b) = true ->
  Prompts.pending_le a b = true -> Spec.before (fst a) (fst b).
Proof.
  intros Ha Hb. unfold Prompts.pending_le, Spec.before.
  rewrite (priority_rank _ Ha), (priority_rank _ Hb). cbn [Prompts.cmp_nulls_last].
  destruct (Z.compare_spec (Spec.rank (p_statut (fst a)) + 1)
                           (Spec.rank (p_statut (fst b)) + 1));
    intros Hle; try discriminate; [right|left]; lia.
Qed.

(** With the keys satisfied, the join gives every prompt exactly one row. *)
Lemma prompt_createur_filter (f : prompt -> bool) db :
  integrity db = true ->
  map fst (filter (fun '(p, _) => f p) (Prompts.prompt_createur db))
  = filter f (t_prompt db).
Proof.
  intros I. pose proof (integrity_parts db I) as (Du & _ & Fc & _).
  unfold Prompts.prompt_createur, Sql.join.
  revert Fc. generalize (t_prompt db) as ps.
  induction ps as [|a ps IH]; [reflexivity|].
  cbn [forallb flat_map]. intros Fc.
  apply andb_prop in Fc as [Ha Fc].
  apply find_key_present in Ha as [u Hu].
  rewrite (filter_key_unique u_id_utilisateur _ _ u Du Hu).
  cbn [map app filter].
  destruct (f a); cbn [map fst]; now rewrite (IH Fc).
Qed.

Lemma Forall2_map_in {A B} (P : A -> B -> Prop) (f : A -> B) (l : list A) :
  (forall a, In a l -> P a (f a)) -> Forall2 P l (map f l).
Proof.
  induction l as [|a l IH]; intros H; cbn [map]; constructor.
  - apply H. now left.
  - apply IH. intros b Hb. apply H. now right.
Qed.

Lemma prompt_createur_in db r :
  In r (Prompts.prompt_createur db) ->
  In (fst r) (t_prompt db)
  /\ In (snd r) (t_utilisateur db)
  /\ u_id_utilisateur (snd r) = p_id_createur (fst r).
Proof.
  unfold Prompts.prompt_createur, Sql.join. intros H.
  apply in_flat_map in H as (p & Hp & H).
  apply in_map_iff in H as (u & <- & Hu).
  apply filter_In in Hu as [Hu E]. cbn [fst snd]. repeat split; auto. lia.
Qed.

(** C8. For an admin, on tables that satisfy their keys,
    [get_pending_prompts] answers 200 with a list whose items show, one
    for one, exactly the prompts whose status is [en_attente], [a_revoir],
    [a_supprimer] or [rappel], each once: id, description, status, date of
    creation, id and email of the creator; [a_supprimer] first, then
    [rappel], then [en_attente], then [a_revoir], and by ascending
    [date_creation] within a status. *)
Theorem get_pending_prompts_listing claims db :
  integrity db = true ->
  jwt_role claims = "admin" ->
  exists rows listed,
    serve (Prompts.get_pending_prompts claims) no_fault db
    = (jsonify (JList listed) 200, db)
    /\ Forall2 (fun r item =>
                  shows_joined db r item
                  /\ shows_statut (fst r) item
                  /\ json_get "id_utilisateur" item
                     = Some (JInt (p_id_createur (fst r))))
               rows listed
    /\ Permutation (map fst rows) (filter Spec.awaits_moderation (t_prompt db))
    /\ StronglySorted Spec.before (map fst rows).
Proof.
  intros I Ha.
  set (selected := filter (fun '(p, _) => existsb (String.eqb (p_statut p))
                                                  Prompts.pending_statuts)
                          (Prompts.prompt_createur db)).
  exists (order_by Prompts.pending_le selected),
         (map Prompts.pending_row (order_by Prompts.pending_le selected)).
  assert (Hsel : Forall (fun r => Spec.awaits_moderation (fst r) = true) selected).
  { apply Forall_forall. intros [p u] H. apply filter_In in H as [_ H].
    now rewrite pending_statuts_awaits in H. }
  split; [|split; [|split]].
  - unfold serve, Prompts.get_pending_prompts. rewrite Ha. reflexivity.
  - apply Forall2_map_in. intros [p u] Hr.
    apply (Permutation_in _ (order_by_perm Prompts.pending_le selected)) in Hr.
    apply filter_In in Hr as [Hr _].
    apply prompt_createur_in in Hr as (_ & Hu & Hc). cbn [fst snd] in *.
    unfold shows_joined, shows_prompt, shows_statut, shows_createur.
    cbn [fst snd]. rewrite <- Hc. now repeat split.
  - rewrite (Permutation_map fst (order_by_perm Prompts.pending_le selected)).
    subst selected.
    rewrite (prompt_createur_filter
               (fun p => existsb (String.eqb (p_statut p)) Prompts.pending_statuts)
               db I).
    erewrite filter_ext; [reflexivity|]. intros p. apply pending_statuts_awaits.
  - apply (sorted_refine (fun a b => Prompts.pending_le a b = true) Spec.before
             (fun r => Spec.awaits_moderation (fst r) = true)).
    + intros a b. apply pending_le_before.
    + eapply Permutation_Forall; [|exact Hsel].
      symmetry. apply order_by_perm.
    + apply order_by_sorted.
      * apply pending_le_total.
      * apply pending_le_trans.
Qed.

Lemma get_pending_prompts_witness :
  exists rows listed,
    serve (Prompts.get_pending_prompts Sample.admin) no_fault Sample.db_moderation
    = (jsonify (JList listed) 200, Sample.db_moderation)
    /\ Forall2 (fun r item =>
                  shows_joined Sample.db_moderation r item
                  /\ shows_statut (fst r) item
                  /\ json_get "id_utilisateur" item
                     = Some (JInt (p_id_createur (fst r))))
               rows listed
    /\ Permutation (map fst rows)
         (filter Spec.awaits_moderation (t_prompt Sample.db_moderation))
    /\ StronglySorted Spec.before (map fst rows).
Proof.
  exact (get_pending_prompts_listing Sample.admin Sample.db_moderation
           eq_refl eq_refl).
Defined.

Example pending_order :
  map (json_get "id_prompt")
      (items (fst (serve (Prompts.get_pending_prompts Sample.admin) no_fault
                         Sample.db_moderation)))
  = map (fun id => Some (JInt id)) [16; 12; 13; 11; 14].
Proof. reflexivity. Qed.

(** ** The public listing *)

Lemma prompt_rows_show db rows :
  (forall r, In r rows -> In r (Prompts.prompt_createur db)) ->
  Forall2 (fun r item =>
             shows_joined db r item
             /\ shows_statut (fst r) item
             /\ json_get "id_utilisateur" item
                = Some (JInt (p_id_createur (fst r))))
          rows (map (fun r => JDict (Prompts.prompt_row r)) rows).
Proof.
  intros H. apply Forall2_map_in. intros [p u] Hr.
  apply H, prompt_createur_in in Hr as (_ & Hu & Hc). cbn [fst snd] in *.
  unfold shows_joined, shows_prompt, shows_statut, shows_createur.
  cbn [fst snd]. rewrite <- Hc. now repeat split.
Qed.


(** The listing asked for by an ordinary user who sends a token. *)
Example listing_with_a_token :
  serve (Prompts.get_prompts (mk_request (Some "en_attente") (Some "Bearer t")))
        no_fault Sample.db_moderation
  = (internal_server_error, Sample.db_moderation)
  /\ status_code internal_server_error = 500.
Proof. split; reflexivity. Qed.

Example listing_of_a_visitor :
  map (json_get "id_prompt")
      (items (fst (serve (Prompts.get_prompts (mk_request (Some "en_attente") None))
                         no_fault Sample.db_moderation)))
  = [Some (JInt 15)].
Proof. reflexivity. Qed.

(** ** Two concurrent calls of [vote_prompt] *)

Lemma prog_at_start now uid pid :
  prog_at now uid pid AtCheck = Votes.vote_prompt now uid pid.
Proof. reflexivity. Qed.

(** [advance] is the step of the program at a point. *)
Lemma step_advance now uid pid pt db :
  step (prog_at now uid pid pt) db
  = (prog_at now uid pid (fst (advance now uid pid pt db)),
     snd (advance now uid pid pt db)).
Proof.
  destruct pt as [| | |result|result total|r|e]; try reflexivity.
  - unfold prog_at, Votes.vote_prompt, advance, find_prompt.
    rewrite <- filter_head_find. step.
    destruct (filter _ (t_prompt db)) as [|p ps]; step; [reflexivity|].
    destruct (String.eqb (p_statut p) "rappel"); step; [|reflexivity].
    destruct (p_id_createur p =? uid); reflexivity.
  - unfold prog_at, advance, has_voted. rewrite existsb_filter. step.
    destruct (filter _ (t_vote db)); reflexivity.
  - unfold prog_at, prog_at_insert, advance. step.
    unfold Votes.vote_query. fold (has_voted uid pid db).
    destruct (vote_unique db && has_voted uid pid db); reflexivity.
  - unfold prog_at, prog_at_tally, advance. step. fold (tally pid db).
    destruct (tally pid db >=? 6); step; [reflexivity|].
    destruct result; reflexivity.
  - unfold prog_at, prog_at_update, advance, find_prompt. step.
    unfold Votes.update_query, update_statut.
    rewrite filter_update_hit by reflexivity.
    rewrite <- filter_head_find.
    destruct (filter _ (t_prompt db)) as [|p ps] eqn:Hp; step.
    + destruct result; reflexivity.
    + assert (Hid : p_id_prompt p = pid).
      { assert (Hp' : In p (filter (fun p => p_id_prompt p =? pid) (t_prompt db)))
          by (rewrite Hp; now left).
        apply filter_In in Hp' as [_ Hp']. lia. }
      rewrite Hid. destruct result; reflexivity.
Qed.

Lemma filter_map_commute {A B} (f : B -> bool) (g : A -> B) (l : list A) :
  filter f (map g l) = map g (filter (fun a => f (g a)) l).
Proof.
  induction l as [|a l IH]; simpl; [reflexivity|].
  destruct (f (g a)); simpl; now rewrite IH.
Qed.

Lemma join_map_r {A B} (l : list A) (r : list B) (g : B -> B) on :
  (forall a b, on a (g b) = on a b) ->
  Sql.join l (map g r) on = map (fun ab => (fst ab, g (snd ab))) (Sql.join l r on).
Proof.
  intros Hon. unfold Sql.join.
  induction l as [|a l IH]; simpl; [reflexivity|].
  rewrite map_app, IH. f_equal.
  rewrite filter_map_commute, !map_map.
  erewrite filter_ext; [reflexivity|]. intros b. apply Hon.
Qed.

Lemma join_map_l {A B} (l : list A) (r : list B) (h : A -> A) on :
  (forall a b, on (h a) b = on a b) ->
  Sql.join (map h l) r on = map (fun ab => (h (fst ab), snd ab)) (Sql.join l r on).
Proof.
  intros Hon. unfold Sql.join.
  induction l as [|a l IH]; simpl; [reflexivity|].
  rewrite map_app, IH. f_equal.
  rewrite map_map. simpl.
  erewrite filter_ext; [reflexivity|]. intros b. apply Hon.
Qed.

(** Writing a status changes no total. *)
Lemma tally_status_written s now pid' pid db :
  tally pid (status_written s now pid' db) = tally pid db.
Proof.
  unfold tally. f_equal. f_equal.
  unfold vote_rows, status_written.
  cbn [t_vote t_utilisateur t_prompt with_prompts].
  set (g := fun p => if p_id_prompt p =? pid' then set_statut s now p else p).
  assert (Hid : forall p, p_id_prompt (g p) = p_id_prompt p)
    by (intros p; unfold g; now destruct (p_id_prompt p =? pid')).
  assert (Hcr : forall p, p_id_createur (g p) = p_id_createur p)
    by (intros p; unfold g; now destruct (p_id_prompt p =? pid')).
  rewrite join_map_r by (intros [v u1] p; now rewrite Hid).
  rewrite join_map_l by (intros [[v u1] p] u2; cbn [fst snd]; now rewrite Hcr).
  rewrite filter_map_commute, map_map.
  erewrite filter_ext; [apply map_ext|]; now intros [[[v u1] p] u2].
Qed.

Lemma run_step {R} (p : prog R) db :
  run p no_fault db = run (fst (step p db)) no_fault (snd (step p db)).
Proof.
  destruct p as [r|e|A q k]; try reflexivity.
  cbn [run step]. change (no_fault 0%nat) with false.
  destruct (commit_or_rollback q false db) as [o db']. reflexivity.
Qed.

Lemma advance_remaining now uid pid pt db :
  (remaining (fst (advance now uid pid pt db)) < remaining pt)%nat
  \/ remaining pt = 0%nat.
Proof.
  destruct pt; cbn [advance remaining]; auto; left.
  - destruct (find_prompt pid db) as [p|]; cbn; [|lia].
    destruct (negb _); cbn; [lia|]. destruct (_ =? uid); cbn; lia.
  - destruct (has_voted uid pid db); cbn; lia.
  - destruct (_ && _); cbn; lia.
  - cbv zeta. destruct (_ >=? 6); cbn; [lia|]. destruct result; cbn; lia.
  - destruct result, (find_prompt pid db); cbn; lia.
Qed.

(** A call left alone ends within its remaining statements. *)
Lemma serve_advances now uid pid n pt db :
  (remaining pt <= n)%nat ->
  serve (prog_at now uid pid pt) no_fault db
  = (answer (fst (advances n now uid pid pt db)),
     snd (advances n now uid pid pt db))
  /\ remaining (fst (advances n now uid pid pt db)) = 0%nat.
Proof.
  revert pt db. induction n as [|n IH]; intros pt db Hn.
  - destruct pt; cbn in Hn; try lia; split; reflexivity.
  - cbn [advances].
    destruct (advance now uid pid pt db) as [pt' db'] eqn:Ha.
    assert (Hr : (remaining pt' <= n)%nat).
    { pose proof (advance_remaining now uid pid pt db) as H.
      rewrite Ha in H. cbn [fst] in H.
      destruct H as [H|H]; [lia|].
      destruct pt; cbn in H; try lia; cbn in Ha; injection Ha as <- <-; cbn; lia. }
    destruct (IH pt' db' Hr) as [<- Hz]. split; [|exact Hz].
    unfold serve. rewrite run_step, step_advance, Ha. reflexivity.
Qed.

(** What both calls preserve, statement by statement, holds when both have
    answered, whatever the schedule. *)
Section Preserved.

Variables (now1 u1 now2 u2 pid : Z).
Variable P : point -> point -> DB -> Prop.

Hypothesis P_first : forall pt1 pt2 db,
  P pt1 pt2 db ->
  P (fst (advance now1 u1 pid pt1 db)) pt2 (snd (advance now1 u1 pid pt1 db)).

Hypothesis P_second : forall pt1 pt2 db,
  P pt1 pt2 db ->
  P pt1 (fst (advance now2 u2 pid pt2 db)) (snd (advance now2 u2 pid pt2 db)).

Lemma preserved_first n : forall pt1 pt2 db,
  P pt1 pt2 db ->
  P (fst (advances n now1 u1 pid pt1 db)) pt2 (snd (advances n now1 u1 pid pt1 db)).
Proof.
  induction n as [|n IH]; intros pt1 pt2 db H; [exact H|].
  cbn [advances]. specialize (P_first _ _ _ H).
  destruct (advance now1 u1 pid pt1 db) as [pt' db']. now apply IH.
Qed.

Lemma preserved_second n : forall pt1 pt2 db,
  P pt1 pt2 db ->
  P pt1 (fst (advances n now2 u2 pid pt2 db)) (snd (advances n now2 u2 pid pt2 db)).
Proof.
  induction n as [|n IH]; intros pt1 pt2 db H; [exact H|].
  cbn [advances]. specialize (P_second _ _ _ H).
  destruct (advance now2 u2 pid pt2 db) as [pt' db']. now apply IH.
Qed.

Lemma preserved_interleave sched : forall pt1 pt2 db,
  P pt1 pt2 db ->
  exists pt1' pt2' db',
    interleave sched (prog_at now1 u1 pid pt1) (prog_at now2 u2 pid pt2) db
    = (prog_at now1 u1 pid pt1', prog_at now2 u2 pid pt2', db')
    /\ P pt1' pt2' db'.
Proof.
  induction sched as [|[|] sched IH]; intros pt1 pt2 db H; cbn [interleave].
  - eauto.
  - rewrite step_advance. apply IH, P_first, H.
  - rewrite step_advance. apply IH, P_second, H.
Qed.

Lemma preserved_serve2 sched pt1 pt2 db :
  P pt1 pt2 db ->
  exists pt1' pt2' db',
    serve2 sched (prog_at now1 u1 pid pt1) (prog_at now2 u2 pid pt2) db
    = (answer pt1', answer pt2', db')
    /\ remaining pt1' = 0%nat /\ remaining pt2' = 0%nat
    /\ P pt1' pt2' db'.
Proof.
  intros H.
  destruct (preserved_interleave sched _ _ _ H) as (a1 & a2 & db0 & Hi & H0).
  unfold serve2. rewrite Hi.
  destruct (serve_advances now1 u1 pid 5 a1 db0) as [-> Hz1];
    [destruct a1; cbn; lia|].
  apply (preserved_first 5) in H0.
  destruct (advances 5 now1 u1 pid a1 db0) as [b1 db1]. cbn [fst snd] in *.
  destruct (serve_advances now2 u2 pid 5 a2 db1) as [-> Hz2];
    [destruct a2; cbn; lia|].
  apply (preserved_second 5) in H0.
  destruct (advances 5 now2 u2 pid a2 db1) as [b2 db2]. cbn [fst snd] in *.
  eauto 10.
Qed.

End Preserved.

Lemma advance_known now uid pid pt db :
  answers_total pt ->
  answers_total (fst (advance now uid pid pt db))
  /\ (known_total (fst (advance now uid pid pt db)) = None
      \/ exists t,
           known_total (fst (advance now uid pid pt db)) = Some t
           /\ ((known_total pt = Some t
                /\ tally pid (snd (advance now uid pid pt db)) = tally pid db)
               \/ t = tally pid (snd (advance now uid pid pt db)))).
Proof.
  intros Hpt.
  destruct pt as [| | |result|result total|r|e]; cbn [advance fst snd].
  - destruct (find_prompt pid db) as [p|]; [|split; [discriminate|now left]].
    destruct (negb _); [split; [discriminate|now left]|].
    destruct (_ =? uid); split; try discriminate; try exact I; now left.
  - destruct (has_voted uid pid db); split; try discriminate; try exact I; now left.
  - destruct (_ && _); split; try discriminate; try exact I; now left.
  - cbv zeta. destruct (tally pid db >=? 6).
    + split; [exact I|]. right. eexists. split; [reflexivity|now right].
    + destruct result as [|id_vote result].
      * split; [discriminate|now left].
      * split; [intros _; eexists; reflexivity|].
        right. eexists. split; [reflexivity|now right].
  - unfold activated. rewrite tally_status_written.
    destruct result as [|id_vote result]; [split; [discriminate|now left]|].
    destruct (find_prompt pid db); [|split; [discriminate|now left]].
    split; [intros _; eexists; reflexivity|].
    right. eexists. split; [reflexivity|]. left. now split.
  - split; [exact Hpt|].
    destruct (known_total (Returned r)) as [t|] eqn:Hk; [|now left].
    right. exists t. split; [reflexivity|]. left. now split.
  - split; [exact I|now left].
Qed.

Lemma fresh_first now1 u1 pid pt1 pt2 db :
  one_total_fresh pid pt1 pt2 db ->
  one_total_fresh pid (fst (advance now1 u1 pid pt1 db)) pt2
                  (snd (advance now1 u1 pid pt1 db)).
Proof.
  intros (G1 & G2 & H).
  destruct (advance_known now1 u1 pid pt1 db G1) as (G1' & Hk).
  split; [exact G1'|]. split; [exact G2|].
  intros t1 t2 H1 H2.
  destruct Hk as [Hk|(t & Hk & [(Hold & Ht)|Ht])]; [congruence| |].
  - rewrite Ht. assert (t = t1) by congruence. subst t. now apply H.
  - left. congruence.
Qed.

Lemma fresh_second now2 u2 pid pt1 pt2 db :
  one_total_fresh pid pt1 pt2 db ->
  one_total_fresh pid pt1 (fst (advance now2 u2 pid pt2 db))
                  (snd (advance now2 u2 pid pt2 db)).
Proof.
  intros (G1 & G2 & H).
  destruct (advance_known now2 u2 pid pt2 db G2) as (G2' & Hk).
  split; [exact G1|]. split; [exact G2'|].
  intros t1 t2 H1 H2.
  destruct Hk as [Hk|(t & Hk & [(Hold & Ht)|Ht])]; [congruence| |].
  - rewrite Ht. assert (t = t2) by congruence. subst t. now apply H.
  - right. congruence.
Qed.

Lemma votes_distinct_snoc vs uid pid id :
  votes_distinct vs = true ->
  existsb (fun v => (v_id_utilisateur v =? uid) && (v_id_prompt v =? pid)) vs
  = false ->
  votes_distinct (vs ++ [mk_vote id uid pid]) = true.
Proof.
  induction vs as [|v vs IH]; [reflexivity|].
  cbn [votes_distinct existsb app]. intros D E.
  apply andb_prop in D as [Dv D]. apply orb_false_elim in E as [Ev E].
  rewrite (IH D E), andb_true_r.
  rewrite existsb_app. cbn [existsb v_id_utilisateur v_id_prompt].
  apply negb_true_iff in Dv. rewrite Dv. cbn [orb].
  rewrite (Z.eqb_sym uid), (Z.eqb_sym pid), Ev. reflexivity.
Qed.

Lemma unique_advance now uid pid pt db :
  votes_kept_unique db -> votes_kept_unique (snd (advance now uid pid pt db)).
Proof.
  intros [U D]. unfold votes_kept_unique.
  destruct pt; cbn [advance snd]; auto.
  rewrite U. cbn [andb].
  destruct (has_voted uid pid db) eqn:Hv; cbn [snd]; [auto|].
  split; [exact U|]. apply votes_distinct_snoc; assumption.
Qed.

Lemma has_voted_voted uid pid db : has_voted uid pid (voted uid pid db) = true.
Proof.
  unfold has_voted, voted. cbn [t_vote with_votes].
  rewrite existsb_app. cbn [existsb v_id_utilisateur v_id_prompt].
  rewrite !Z.eqb_refl. apply orb_true_r.
Qed.

(** One call after the other: the second call of the same voter is not
    answered 200, and the two calls do not both activate. *)
Lemma serial_votes now1 u1 now2 u2 pid db r1 r2 db' :
  serve2 [] (Votes.vote_prompt now1 u1 pid) (Votes.vote_prompt now2 u2 pid) db
  = (r1, r2, db') ->
  (u1 = u2 -> status_code r1 = 200 -> status_code r2 <> 200)
  /\ (field "prompt" r1 = None \/ field "prompt" r2 = None).
Proof.
  unfold serve2. cbn [interleave].
  destruct (serve (Votes.vote_prompt now1 u1 pid) no_fault db) as [a1 db1] eqn:H1.
  destruct (serve (Votes.vote_prompt now2 u2 pid) no_fault db1) as [a2 db2] eqn:H2.
  intros H. injection H as <- <- <-.
  rewrite vote_prompt_serve in H1, H2. cbn [no_fault] in H1, H2.
  destruct (find_prompt pid db) as [p|] eqn:Hf;
    [|injection H1 as <- <-; split; [discriminate|now left]].
  destruct (String.eqb (p_statut p) "rappel") eqn:Hs; cbn [negb] in H1;
    [|injection H1 as <- <-; split; [discriminate|now left]].
  destruct (p_id_createur p =? u1) eqn:Hc;
    [injection H1 as <- <-; split; [discriminate|now left]|].
  destruct (has_voted u1 pid db) eqn:Hv;
    [injection H1 as <- <-; split; [discriminate|now left]|].
  cbv zeta in H1.
  destruct (tally pid (voted u1 pid db) >=? 6); injection H1 as <- <-.
  - (* the first call activates: the second finds the prompt [activer] *)
    unfold activated in H2.
    rewrite (find_prompt_written "activer" now1 pid (voted u1 pid db) p Hf) in H2.
    cbn [p_statut set_statut String.eqb Ascii.eqb Bool.eqb negb] in H2.
    injection H2 as <- <-. split; [discriminate|now right].
  - (* the first call records its vote: the same voter is refused *)
    split; [|now left].
    intros <- _.
    change (find_prompt pid (voted u1 pid db)) with (find_prompt pid db) in H2.
    rewrite Hf, Hs, Hc, has_voted_voted in H2. cbn [negb] in H2.
    injection H2 as <- <-. discriminate.
Qed.

(** C9 (as the code has it). Two calls of [vote_prompt] on one prompt
    interleave statement by statement, each statement committed on its own.
    Whatever the schedule: when both calls are answered 200, one of the two
    totals they report counts every vote recorded once both have answered;
    and a table of votes declared unique per voter and prompt, and without
    duplicate, stays without duplicate.  When one call runs after the other
    has answered, the second call of the same voter is not answered 200,
    and the calls do not both activate. *)
Theorem concurrent_votes_guarantees now1 u1 now2 u2 pid db :
  (forall sched r1 r2 db',
     serve2 sched (Votes.vote_prompt now1 u1 pid) (Votes.vote_prompt now2 u2 pid) db
     = (r1, r2, db') ->
     (status_code r1 = 200 -> status_code r2 = 200 ->
      field "total_points" r1 = Some (JInt (tally pid db'))
      \/ field "total_points" r2 = Some (JInt (tally pid db')))
     /\ (votes_kept_unique db -> votes_kept_unique db'))
  /\ (forall r1 r2 db',
        serve2 [] (Votes.vote_prompt now1 u1 pid) (Votes.vote_prompt now2 u2 pid) db
        = (r1, r2, db') ->
        (u1 = u2 -> status_code r1 = 200 -> status_code r2 <> 200)
        /\ (field "prompt" r1 = None \/ field "prompt" r2 = None)).
Proof.
  split; [|apply serial_votes].
  intros sched r1 r2 db' H. split.
  - intros S1 S2.
    destruct (preserved_serve2 now1 u1 now2 u2 pid (one_total_fresh pid)
                (fresh_first now1 u1 pid) (fresh_second now2 u2 pid)
                sched AtCheck AtCheck db)
      as (pt1 & pt2 & db2 & Hs & Hz1 & Hz2 & G1 & G2 & Hfresh).
    { repeat split; discriminate. }
    cbn [prog_at] in Hs. rewrite Hs in H. injection H as <- <- <-.
    destruct pt1 as [| | | | |a1|]; try discriminate Hz1; try discriminate S1.
    destruct pt2 as [| | | | |a2|]; try discriminate Hz2; try discriminate S2.
    cbn [answer answers_total] in *.
    destruct (G1 S1) as [t1 Ht1]. destruct (G2 S2) as [t2 Ht2].
    rewrite Ht1, Ht2.
    destruct (Hfresh t1 t2) as [->| ->]; auto.
    + cbn [known_total]. now rewrite S1, Ht1.
    + cbn [known_total]. now rewrite S2, Ht2.
  - intros U.
    destruct (preserved_serve2 now1 u1 now2 u2 pid (fun _ _ d => votes_kept_unique d)
                (fun pt1 _ d => unique_advance now1 u1 pid pt1 d)
                (fun _ pt2 d => unique_advance now2 u2 pid pt2 d)
                sched AtCheck AtCheck db U)
      as (pt1 & pt2 & db2 & Hs & _ & _ & U').
    cbn [prog_at] in Hs. rewrite Hs in H. now injection H as <- <- <-.
Qed.

Lemma two_votes_stay_unique :
  votes_kept_unique
    (snd (serve2 Sample.checks_then_inserts
            (Votes.vote_prompt 500 6 10) (Votes.vote_prompt 501 6 10) Sample.db4)).
Proof.
  refine (proj2 (proj1 (concurrent_votes_guarantees 500 6 501 6 10 Sample.db4)
                   Sample.checks_then_inserts _ _ _ eq_refl) _).
  split; reflexivity.
Defined.

(** C9, the claim as stated fails.  Four points are recorded; users 6 and 7
    vote, one point each.  When both calls check before either inserts,
    both tally 6 and both activate the prompt; in either serial order the
    first call tallies 5 and does not activate. *)
Lemma two_votes_both_activate :
  (let '(r1, r2, db') :=
     serve2 Sample.checks_then_inserts
            (Votes.vote_prompt 500 6 10) (Votes.vote_prompt 501 7 10) Sample.db4 in
   field "total_points" r1 = Some (JInt 6)
   /\ field "total_points" r2 = Some (JInt 6)
   /\ field "prompt" r1
      = Some (JDict [("id_prompt", JInt 10); ("statut", JStr "activer")])
   /\ field "prompt" r2
      = Some (JDict [("id_prompt", JInt 10); ("statut", JStr "activer")])
   /\ find_prompt 10 db' = Some (mk_prompt 10 "texte" 0 "activer" 1 100 501))
  /\ (let '(r1, r2, _) :=
        serve2 [] (Votes.vote_prompt 500 6 10) (Votes.vote_prompt 501 7 10)
               Sample.db4 in
      field "points_needed" r1 = Some (JInt 1) /\ field "prompt" r1 = None
      /\ field "total_points" r2 = Some (JInt 6))
  /\ (let '(r2, r1, _) :=
        serve2 [] (Votes.vote_prompt 501 7 10) (Votes.vote_prompt 500 6 10)
               Sample.db4 in
      field "points_needed" r2 = Some (JInt 1) /\ field "prompt" r2 = None
      /\ field "total_points" r1 = Some (JInt 6)).
Proof. repeat split. Qed.

(** The same voter twice, both calls checking before either inserts:
    without the unique constraint both votes are recorded; with it the
    second insertion raises and the second call is answered 500. *)
Example same_voter_twice :
  (let '(r1, r2, db') :=
     serve2 Sample.checks_then_inserts
            (Votes.vote_prompt 500 6 10) (Votes.vote_prompt 501 6 10)
            Sample.db4_unconstrained in
   status_code r1 = 200 /\ status_code r2 = 200
   /\ t_vote db' = t_vote Sample.db4 ++ [mk_vote 4 6 10; mk_vote 5 6 10])
  /\ (let '(r1, r2, db') :=
        serve2 Sample.checks_then_inserts
               (Votes.vote_prompt 500 6 10) (Votes.vote_prompt 501 6 10)
               Sample.db4 in
      status_code r1 = 200 /\ status_code r2 = 500
      /\ t_vote db' = t_vote Sample.db4 ++ [mk_vote 4 6 10]).
Proof. repeat split. Qed.

(** * The other routes *)

(** ** Listings ordered by a date or an id *)

Section KeyOrder.

Context {A : Type} (key : A -> Z).

Lemma desc_total (a b : A) :
  (key b <=? key a) = false -> (key a <=? key b) = true.
Proof. intros H. apply Z.leb_gt in H. apply Z.leb_le. lia. Qed.

Lemma desc_trans (a b c : A) :
  (key b <=? key a) = true -> (key c <=? key b) = true ->
  (key c <=? key a) = true.
Proof. intros H1 H2. apply Z.leb_le in H1, H2. apply Z.leb_le. lia. Qed.

Lemma asc_total (a b : A) :
  (key a <=? key b) = false -> (key b <=? key a) = true.
Proof. intros H. apply Z.leb_gt in H. apply Z.leb_le. lia. Qed.

Lemma asc_trans (a b c : A) :
  (key a <=? key b) = true -> (key b <=? key c) = true ->
  (key a <=? key c) = true.
Proof. intros H1 H2. apply Z.leb_le in H1, H2. apply Z.leb_le. lia. Qed.

(** [ORDER BY key DESC] gives the rows it is given, by descending key. *)
Lemma order_desc (l : list A) :
  Permutation (order_by (fun a b => key b <=? key a) l) l
  /\ StronglySorted (fun a b => key b <= key a)
                    (order_by (fun a b => key b <=? key a) l).
Proof.
  split; [apply order_by_perm|].
  rewrite <- (map_id (order_by _ l)).
  apply (sorted_refine (fun a b => (key b <=? key a) = true) _ (fun _ => True)).
  - intros a b _ _ H. now apply Z.leb_le.
  - apply Forall_forall. auto.
  - apply order_by_sorted; [apply desc_total|apply desc_trans].
Qed.

Lemma order_asc (l : list A) :
  Permutation (order_by (fun a b => key a <=? key b) l) l
  /\ StronglySorted (fun a b => key a <= key b)
                    (order_by (fun a b => key a <=? key b) l).
Proof.
  split; [apply order_by_perm|].
  rewrite <- (map_id (order_by _ l)).
  apply (sorted_refine (fun a b => (key a <=? key b) = true) _ (fun _ => True)).
  - intros a b _ _ H. now apply Z.leb_le.
  - apply Forall_forall. auto.
  - apply order_by_sorted; [apply asc_total|apply asc_trans].
Qed.

End KeyOrder.

Lemma sorted_map_fst {A B} (R : A -> A -> Prop) (l : list (A * B)) :
  StronglySorted (fun a b => R (fst a) (fst b)) l ->
  StronglySorted R (map fst l).
Proof.
  intros H.
  apply (sorted_refine (fun a b => R (fst a) (fst b)) R (fun _ => True) fst l);
    auto.
  apply Forall_forall. auto.
Qed.

(** The rows [prompt JOIN utilisateur] keeps under a condition on the
    prompt, ordered newest first. *)
Lemma newest_first_listing (f : prompt -> bool) db :
  integrity db = true ->
  let rows :=
    order_by (fun a b => p_date_creation (fst b) <=? p_date_creation (fst a))
      (filter (fun '(p, _) => f p) (Prompts.prompt_createur db)) in
  Permutation (map fst rows) (filter f (t_prompt db))
  /\ StronglySorted newest_first (map fst rows).
Proof.
  intros I rows. subst rows.
  destruct (order_desc (fun r : prompt * utilisateur => p_date_creation (fst r))
              (filter (fun '(p, _) => f p) (Prompts.prompt_createur db)))
    as [Hp Hs].
  split.
  - rewrite (Permutation_map fst Hp). now rewrite prompt_createur_filter.
  - apply sorted_map_fst. exact Hs.
Qed.

(** X2. [get_prompts], on tables that satisfy their keys, answers a
    request without [Authorization] header with a 200 whose items show,
    one for one, every prompt whose status is [activer], each once, newest
    first, whatever [statut] the request asks for. *)
Theorem get_prompts_listing req db :
  integrity db = true ->
  has_authorization req = false ->
  exists rows listed,
    serve (Prompts.get_prompts req) no_fault db
    = (jsonify (JList listed) 200, db)
    /\ Forall2 (fun r item =>
                  shows_joined db r item
                  /\ shows_statut (fst r) item
                  /\ json_get "id_utilisateur" item
                     = Some (JInt (p_id_createur (fst r))))
               rows listed
    /\ Permutation (map fst rows)
         (filter (fun p => String.eqb (p_statut p) "activer") (t_prompt db))
    /\ StronglySorted newest_first (map fst rows).
Proof.
  intros I Hh.
  eexists. eexists. split; [|split].
  - unfold serve, Prompts.get_prompts, jwt_if_authorization. rewrite Hh.
    cbn -[order_by Prompts.prompt_createur]. reflexivity.
  - apply prompt_rows_show. intros r Hr.
    apply (Permutation_in _ (order_by_perm _ _)) in Hr.
    now apply filter_In in Hr as [Hr _].
  - apply (newest_first_listing (fun p => String.eqb (p_statut p) "activer") db I).
Qed.

Lemma get_prompts_listing_witness :
  exists rows listed,
    serve (Prompts.get_prompts (mk_request (Some "a_supprimer") None))
          no_fault Sample.db_moderation
    = (jsonify (JList listed) 200, Sample.db_moderation)
    /\ Forall2 (fun r item =>
                  shows_joined Sample.db_moderation r item
                  /\ shows_statut (fst r) item
                  /\ json_get "id_utilisateur" item
                     = Some (JInt (p_id_createur (fst r))))
               rows listed
    /\ Permutation (map fst rows)
         (filter (fun p => String.eqb (p_statut p) "activer")
                 (t_prompt Sample.db_moderation))
    /\ StronglySorted newest_first (map fst rows).
Proof.
  exact (get_prompts_listing (mk_request (Some "a_supprimer") None)
           Sample.db_moderation eq_refl eq_refl).
Defined.

(** X3. [get_user_prompts] answers 200 with a list whose items show, one
    for one, every prompt the caller created, whatever its status, each
    once, newest first, and nothing else: id, description, status and date
    of creation; it writes nothing. *)
Theorem get_user_prompts_listing uid db :
  exists rows listed,
    serve (PromptRoutes.get_user_prompts uid) no_fault db
    = (jsonify (JList listed) 200, db)
    /\ Forall2 (fun p item => shows_prompt p item /\ shows_statut p item)
               rows listed
    /\ Permutation rows (filter (fun p => p_id_createur p =? uid) (t_prompt db))
    /\ StronglySorted newest_first rows
    /\ Forall (fun p => p_id_createur p = uid) rows.
Proof.
  destruct (order_desc p_date_creation
              (filter (fun p => p_id_createur p =? uid) (t_prompt db)))
    as [Hp Hs].
  eexists. eexists. split; [reflexivity|]. split.
  - apply Forall2_map_in. intros p _. now repeat split.
  - repeat split; try assumption.
    eapply Permutation_Forall; [symmetry; exact Hp|].
    apply Forall_forall. intros p H. apply filter_In in H as [_ H]. lia.
Qed.

(** ** Who may read a prompt *)

Lemma prompt_createur_absent pid db :
  integrity db = true ->
  find_prompt pid db = None ->
  filter (fun '(p, _) => p_id_prompt p =? pid) (Prompts.prompt_createur db) = [].
Proof.
  intros I Hf.
  pose proof (prompt_createur_filter (fun p => p_id_prompt p =? pid) db I) as H.
  unfold find_prompt in Hf. rewrite <- filter_head_find in Hf.
  destruct (filter (fun p => p_id_prompt p =? pid) (t_prompt db));
    [|discriminate].
  now apply map_eq_nil in H.
Qed.

Lemma get_prompt_serve_unknown nm pid req faults db :
  integrity db = true ->
  find_prompt pid db = None ->
  serve (Prompts.get_prompt nm pid req) faults db
  = if faults 0%nat then (error_500 db_error, db)
    else (jsonify (JDict [("error", JStr "Prompt non trouvé")]) 404, db).
Proof.
  intros I Hf. unfold serve, Prompts.get_prompt. step.
  destruct (faults 0%nat); step; [reflexivity|].
  rewrite (prompt_createur_absent pid db I Hf). reflexivity.
Qed.

(** X1. [get_prompt], on tables that satisfy their keys, writes nothing and
    answers 200 only for a prompt that exists and is [activer], and only
    to a request without [Authorization] header: it never shows a prompt
    in another status.  Unless the first query fails, an unknown id is
    answered 404; a request with an [Authorization] header is answered 500
    whoever sends it, creator and admin included, since [get_jwt()] raises
    on this route; and a prompt that is not [activer], asked for without
    the header, is answered 403. *)
Theorem get_prompt_access nm pid req faults db :
  integrity db = true ->
  let '(r, db') := serve (Prompts.get_prompt nm pid req) faults db in
  db' = db
  /\ (status_code r = 200 ->
      has_authorization req = false
      /\ field "id_prompt" r = Some (JInt pid)
      /\ field "statut" r = Some (JStr "activer")
      /\ exists p, find_prompt pid db = Some p /\ p_statut p = "activer")
  /\ (faults 0%nat = false ->
      match find_prompt pid db with
      | None => status_code r = 404
      | Some p =>
          if has_authorization req then
            status_code r = 500
            /\ field "error" r = Some (JStr jwt_not_verified)
          else
            p_statut p <> "activer" ->
            status_code r = 403
            /\ field "error" r = Some (JStr "Accès non autorisé")
      end).
Proof.
  intros I.
  destruct (find_prompt pid db) as [p|] eqn:Hf.
  2:{ rewrite (get_prompt_serve_unknown nm pid req faults db I Hf).
      destruct (faults 0%nat); repeat split; try discriminate. }
  destruct (get_prompt_serve nm pid req faults db p I Hf) as (u & _ & ->).
  pose proof (find_prompt_id pid db p Hf) as Hid.
  destruct (faults 0%nat); [repeat split; discriminate|].
  destruct (has_authorization req); [repeat split; discriminate|].
  destruct (String.eqb_spec (p_statut p) "activer") as [Ha|Ha]; cbn [negb].
  - destruct (faults 1%nat); [repeat split; try discriminate; contradiction|].
    repeat split; try contradiction.
    + cbn. now rewrite Hid.
    + cbn. now rewrite Ha.
    + eauto.
  - repeat split; discriminate.
Qed.

Lemma get_prompt_access_witness :
  status_code
    (fst (serve (Prompts.get_prompt Sample.decimal16 10 (mk_request None None))
                no_fault Sample.db0)) = 403
  /\ status_code
       (fst (serve (Prompts.get_prompt Sample.decimal16 10
                      (mk_request None (Some "Bearer t")))
                   no_fault Sample.db0)) = 500.
Proof.
  split.
  - refine (proj1 (proj2 (proj2 (get_prompt_access Sample.decimal16 10
             (mk_request None None) no_fault Sample.db0 eq_refl)) eq_refl _)).
    discriminate.
  - exact (proj1 (proj2 (proj2 (get_prompt_access Sample.decimal16 10
             (mk_request None (Some "Bearer t")) no_fault Sample.db0 eq_refl))
             eq_refl)).
Defined.

(** ** Search *)

(** X4. [search_prompts] without keyword, or with an empty one, answers
    400 and makes no query.  With a keyword, on tables that satisfy their
    keys, it answers 200 with a list whose items show, one for one, every
    prompt that is [activer] and whose description the database matches
    against [%keyword%], each once, newest first: id, description, date of
    creation and email of the creator.  A prompt in any other status is
    never found, whoever asks. *)
Theorem search_prompts_listing ilike q db :
  integrity db = true ->
  match q with
  | None | Some "" =>
      forall faults,
        serve (PromptRoutes.search_prompts ilike q) faults db
        = (jsonify (JDict [("error", JStr "Mot-clé de recherche requis")]) 400, db)
  | Some keyword =>
      exists rows listed,
        serve (PromptRoutes.search_prompts ilike q) no_fault db
        = (jsonify (JList listed) 200, db)
        /\ Forall2 (shows_joined db) rows listed
        /\ Permutation (map fst rows)
             (filter (fun p => String.eqb (p_statut p) "activer"
                               && ilike (p_description p)
                                        ("%" ++ keyword ++ "%")%string)
                     (t_prompt db))
        /\ StronglySorted newest_first (map fst rows)
        /\ Forall (fun p => p_statut p = "activer") (map fst rows)
  end.
Proof.
  intros I.
  destruct q as [[|c keyword]|]; try (intros faults; reflexivity).
  set (kw := String c keyword).
  destruct (newest_first_listing
              (fun p => String.eqb (p_statut p) "activer"
                        && ilike (p_description p) ("%" ++ kw ++ "%")%string)
              db I) as [Hp Hs].
  eexists. eexists.
  split; [|split; [|split; [exact Hp|split; [exact Hs|]]]].
  - unfold serve, PromptRoutes.search_prompts.
    change (String.eqb kw "") with false. reflexivity.
  - apply Forall2_map_in. intros [p u] Hr.
    apply (Permutation_in _ (order_by_perm _ _)) in Hr.
    apply filter_In in Hr as [Hr _].
    apply prompt_createur_in in Hr as (_ & Hu & Hc). cbn [fst snd] in *.
    unfold shows_joined, shows_prompt, shows_createur. cbn [fst snd].
    now repeat split.
  - eapply Permutation_Forall; [symmetry; exact Hp|].
    apply Forall_forall. intros p H. apply filter_In in H as [_ H].
    apply andb_prop in H as [H _]. now apply String.eqb_eq.
Qed.

Lemma search_prompts_listing_witness :
  exists rows listed,
    serve (PromptRoutes.search_prompts (fun _ _ => true) (Some "e")) no_fault
          Sample.db_moderation
    = (jsonify (JList listed) 200, Sample.db_moderation)
    /\ Forall2 (shows_joined Sample.db_moderation) rows listed
    /\ Permutation (map fst rows)
         (filter (fun p => String.eqb (p_statut p) "activer" && true)
                 (t_prompt Sample.db_moderation))
    /\ StronglySorted newest_first (map fst rows)
    /\ Forall (fun p => p_statut p = "activer") (map fst rows).
Proof.
  exact (search_prompts_listing (fun _ _ => true) (Some "e")
           Sample.db_moderation eq_refl).
Defined.

(** ** Users of a group *)

(** X13. [get_users_by_group] refuses anybody but an admin with 403,
    without a query.  For an admin it answers 200 with a list whose items
    show, one for one, every user whose [id_groupe] is the group asked
    for, each once, by ascending [id_utilisateur]: id, email and role; a
    user without group is in no group's list. *)
Theorem get_users_by_group_listing claims group_id db :
  if String.eqb (jwt_role claims) "admin" then
    exists rows listed,
      serve (Users.get_users_by_group claims group_id) no_fault db
      = (jsonify (JList listed) 200, db)
      /\ Forall2 shows_user rows listed
      /\ Permutation rows
           (filter (fun u => match u_id_groupe u with
                             | Some g => g =? group_id
                             | None => false
                             end) (t_utilisateur db))
      /\ StronglySorted (fun a b => u_id_utilisateur a <= u_id_utilisateur b) rows
      /\ Forall (fun u => u_id_groupe u = Some group_id) rows
  else
    forall faults,
      serve (Users.get_users_by_group claims group_id) faults db
      = (jsonify (JDict [("error", JStr "Accès non autorisé")]) 403, db).
Proof.
  unfold Users.get_users_by_group.
  destruct (String.eqb (jwt_role claims) "admin"); [|intros faults; reflexivity].
  assert (Hf : forall u,
             Sql.holds (Sql.eq (u_id_groupe u) (Some group_id))
             = match u_id_groupe u with Some g => g =? group_id | None => false end).
  { intros u. destruct (u_id_groupe u) as [g|]; [|reflexivity].
    cbn. now destruct (g =? group_id). }
  destruct (order_asc u_id_utilisateur
              (filter (fun u => Sql.holds (Sql.eq (u_id_groupe u) (Some group_id)))
                      (t_utilisateur db))) as [Hp Hs].
  eexists. eexists. split; [reflexivity|].
  split; [apply Forall2_map_in; intros u _; now repeat split|].
  split; [|split; [exact Hs|]].
  - rewrite Hp. erewrite filter_ext; [reflexivity|]. exact Hf.
  - eapply Permutation_Forall; [symmetry; exact Hp|].
    apply Forall_forall. intros u H. apply filter_In in H as [_ H].
    rewrite Hf in H. destruct (u_id_groupe u) as [g|]; [|discriminate].
    f_equal. lia.
Qed.

(** ** Creating a prompt *)

(** X5. [create_prompt] without description, or with an empty one, answers
    400 and writes nothing.  Otherwise, unless the insertion fails (500,
    nothing written), it answers 201 and appends one row: the description
    given, the caller as creator, the status [en_attente]; the rows that
    were there and the other tables are untouched. *)
Theorem create_prompt_effect dflt uid description faults db :
  let '(r, db') := serve (PromptRoutes.create_prompt dflt uid description) faults db in
  match description with
  | None | Some "" =>
      r = jsonify (JDict [("error", JStr "Description du prompt requise")]) 400
      /\ db' = db
  | Some text =>
      if faults 0%nat then status_code r = 500 /\ db' = db
      else
        status_code r = 201
        /\ field "prompt" r
           = Some (PromptRoutes.created_row (new_prompt dflt uid text))
        /\ t_prompt db' = t_prompt db ++ [new_prompt dflt uid text]
        /\ p_statut (new_prompt dflt uid text) = "en_attente"
        /\ p_id_createur (new_prompt dflt uid text) = uid
        /\ t_utilisateur db' = t_utilisateur db
        /\ t_vote db' = t_vote db
        /\ t_note db' = t_note db
  end.
Proof.
  destruct description as [[|c text]|];
    [cbn; split; reflexivity| |cbn; split; reflexivity].
  unfold serve, PromptRoutes.create_prompt.
  change (String.eqb (String c text) "") with false. step.
  destruct (faults 0%nat); step; repeat split.
Qed.

Lemma join_snoc_filter {A B} (f : A -> bool) (l : list A) (a : A) (r : list B) on :
  f a = false ->
  filter (fun '(x, _) => f x) (Sql.join (l ++ [a]) r on)
  = filter (fun '(x, _) => f x) (Sql.join l r on).
Proof.
  intros Ha. rewrite join_app, filter_app.
  replace (filter (fun '(x, _) => f x) (Sql.join [a] r on)) with (@nil (A * B)).
  - apply app_nil_r.
  - unfold Sql.join. cbn [flat_map]. rewrite app_nil_r.
    induction (filter (on a) r) as [|b bs IH]; [reflexivity|].
    cbn [map filter]. now rewrite Ha.
Qed.

(** X6. A prompt just created awaits moderation.  The answer of
    [get_prompts] to any request is what it was before the creation, and
    so is the answer of [search_prompts]; and when the creator has a row
    in [utilisateur], the answer of [get_pending_prompts] to an admin is a
    200 with an item that shows the new prompt: its id, its description,
    its date of creation, the status [en_attente] and the caller as
    creator. *)
Theorem created_prompt_awaits_moderation dflt uid text db :
  text <> "" ->
  let db' := snd (serve (PromptRoutes.create_prompt dflt uid (Some text)) no_fault db) in
  (forall req faults,
     fst (serve (Prompts.get_prompts req) faults db')
     = fst (serve (Prompts.get_prompts req) faults db))
  /\ (forall ilike q faults,
        fst (serve (PromptRoutes.search_prompts ilike q) faults db')
        = fst (serve (PromptRoutes.search_prompts ilike q) faults db))
  /\ (integrity db = true ->
      is_utilisateur db uid = true ->
      forall claims,
        jwt_role claims = "admin" ->
        let r := fst (serve (Prompts.get_pending_prompts claims) no_fault db') in
        status_code r = 200
        /\ exists item,
             In item (items r)
             /\ shows_prompt (new_prompt dflt uid text) item
             /\ json_get "statut" item = Some (JStr "en_attente")
             /\ json_get "id_utilisateur" item = Some (JInt uid)).
Proof.
  intros Ht db'.
  assert (Hdb : db' = with_prompts db (t_prompt db ++ [new_prompt dflt uid text])).
  { subst db'. destruct text as [|c text]; [contradiction|]. reflexivity. }
  clearbody db'. subst db'.
  split; [|split].
  - intros req faults.
    unfold serve, Prompts.get_prompts, jwt_if_authorization.
    destruct (has_authorization req); [reflexivity|].
    cbn [Prompts.is_admin negb run try_except execute_query].
    destruct (faults 0%nat); [reflexivity|].
    unfold commit_or_rollback, Prompts.prompts_query, select, Prompts.prompt_createur.
    cbn [t_prompt t_utilisateur with_prompts].
    rewrite (join_snoc_filter (fun p => String.eqb (p_statut p) "activer"))
      by reflexivity.
    reflexivity.
  - intros ilike q faults.
    unfold serve, PromptRoutes.search_prompts.
    destruct (String.eqb _ ""); [reflexivity|].
    cbn [run try_except execute_query].
    destruct (faults 0%nat); [reflexivity|].
    unfold commit_or_rollback, PromptRoutes.search_query, select,
      Prompts.prompt_createur.
    cbn [t_prompt t_utilisateur with_prompts].
    rewrite (join_snoc_filter
               (fun p => String.eqb (p_statut p) "activer"
                         && ilike (p_description p) _)) by reflexivity.
    reflexivity.
  - intros I Hu claims Ha.
    pose proof (integrity_parts db I) as (Du & _).
    apply find_key_present in Hu as [u Hu].
    unfold serve, Prompts.get_pending_prompts. rewrite Ha.
    change (String.eqb "admin" "admin") with true.
    cbn [negb run try_except execute_query no_fault commit_or_rollback
         Prompts.pending_query select fst snd].
    split; [reflexivity|].
    exists (Prompts.pending_row (new_prompt dflt uid text, u)).
    assert (Hid : u_id_utilisateur u = uid).
    { apply find_some in Hu as [_ Hu]. lia. }
    split; [|unfold shows_prompt; cbn; rewrite Hid; now repeat split].
    cbn [items body jsonify]. apply in_map.
    eapply Permutation_in; [symmetry; apply order_by_perm|].
    apply filter_In. split; [|reflexivity].
    unfold Prompts.prompt_createur. cbn [t_prompt t_utilisateur with_prompts].
    rewrite join_app. apply in_or_app. right.
    rewrite (join_one (new_prompt dflt uid text) _ _ u); [now left|].
    apply (filter_key_unique u_id_utilisateur); assumption.
Qed.

Lemma created_prompt_witness :
  fst (serve (Prompts.get_prompts (mk_request (Some "en_attente") None)) no_fault
         (snd (serve (PromptRoutes.create_prompt Cases.dflt 2 (Some "nouveau"))
                     no_fault Sample.db_moderation)))
  = fst (serve (Prompts.get_prompts (mk_request (Some "en_attente") None)) no_fault
           Sample.db_moderation)
  /\ exists item,
       In item (items (fst (serve (Prompts.get_pending_prompts Sample.admin)
                              no_fault
                              (snd (serve (PromptRoutes.create_prompt Cases.dflt
                                             2 (Some "nouveau"))
                                          no_fault Sample.db_moderation)))))
       /\ shows_prompt (new_prompt Cases.dflt 2 "nouveau") item
       /\ json_get "statut" item = Some (JStr "en_attente")
       /\ json_get "id_utilisateur" item = Some (JInt 2).
Proof.
  assert (Ht : "nouveau" <> "") by discriminate.
  pose proof (created_prompt_awaits_moderation Cases.dflt 2 "nouveau"
                Sample.db_moderation Ht) as (H1 & _ & H3).
  split.
  - exact (H1 (mk_request (Some "en_attente") None) no_fault).
  - exact (proj2 (H3 eq_refl eq_refl Sample.admin eq_refl)).
Defined.

(** ** What a call writes *)

Lemma rewritten_refl pid (l : list prompt) : Forall2 (rewritten pid) l l.
Proof.
  induction l as [|p l IH]; constructor; [|exact IH].
  split; [now repeat split|reflexivity].
Qed.

Lemma rewritten_written s now pid db :
  Forall2 (rewritten pid) (t_prompt db) (t_prompt (status_written s now pid db)).
Proof.
  unfold status_written. cbn [t_prompt with_prompts].
  induction (t_prompt db) as [|p l IH]; cbn [map]; constructor; [|exact IH].
  destruct (Z.eqb_spec (p_id_prompt p) pid) as [E|E].
  - split; [now repeat split|]. intros H. contradiction.
  - split; [now repeat split|reflexivity].
Qed.

(** The databases a call of [vote_prompt] can leave. *)
Lemma vote_prompt_states now uid pid faults db :
  let db' := snd (serve (Votes.vote_prompt now uid pid) faults db) in
  db' = db \/ db' = voted uid pid db \/ db' = activated now pid (voted uid pid db).
Proof.
  rewrite vote_prompt_serve. cbv zeta.
  repeat (match goal with
          | |- context [match find_prompt ?a ?b with _ => _ end] =>
              destruct (find_prompt a b)
          | |- context [if ?c then _ else _] => destruct c
          end; cbv beta iota); cbn [snd]; auto.
Qed.

(** The databases a call of [update_prompt_status] can leave. *)
Lemma update_prompt_status_states now claims pid statut faults db :
  let db' := snd (serve (Prompts.update_prompt_status now claims pid statut) faults db) in
  db' = db \/ exists s, statut = Some s /\ db' = status_written s now pid db.
Proof.
  destruct statut as [s|]; [|now left].
  rewrite update_prompt_status_serve. cbv zeta.
  repeat (match goal with
          | |- context [match find_prompt ?a ?b with _ => _ end] =>
              destruct (find_prompt a b)
          | |- context [if ?c then _ else _] => destruct c
          end; cbv beta iota); cbn [snd]; eauto.
Qed.

(** X8. Whatever calls the environment fails, [vote_prompt] leaves the
    users, the notes and the votes already recorded as they were: it adds
    at most the caller's vote on the prompt, deletes none, and of the
    prompts it changes at most the status and the date of last
    modification of the prompt voted on. *)
Theorem vote_prompt_frame now uid pid faults db :
  let db' := snd (serve (Votes.vote_prompt now uid pid) faults db) in
  t_utilisateur db' = t_utilisateur db
  /\ t_note db' = t_note db
  /\ vote_unique db' = vote_unique db
  /\ (t_vote db' = t_vote db
      \/ t_vote db' = t_vote db ++ [mk_vote (vote_id_seq db) uid pid])
  /\ Forall2 (rewritten pid) (t_prompt db) (t_prompt db').
Proof.
  cbv zeta.
  destruct (vote_prompt_states now uid pid faults db) as [-> | [-> | ->]].
  - repeat split; auto. apply rewritten_refl.
  - repeat split; auto. apply rewritten_refl.
  - repeat split; auto.
    apply (rewritten_written "activer" now pid (voted uid pid db)).
Qed.

(** X12. Whatever calls the environment fails, and whoever calls,
    [update_prompt_status] leaves the users, the votes and the notes as
    they were, and of the prompts it changes at most the status and the
    date of last modification of the prompt named: votes survive every
    change of status, and the total of every prompt is what it was. *)
Theorem update_prompt_status_frame now claims pid statut faults db :
  let db' := snd (serve (Prompts.update_prompt_status now claims pid statut) faults db) in
  t_utilisateur db' = t_utilisateur db
  /\ t_vote db' = t_vote db
  /\ t_note db' = t_note db
  /\ Forall2 (rewritten pid) (t_prompt db) (t_prompt db')
  /\ forall pid', tally pid' db' = tally pid' db.
Proof.
  cbv zeta.
  destruct (update_prompt_status_states now claims pid statut faults db)
    as [-> | (s & _ & ->)].
  - repeat split; auto. apply rewritten_refl.
  - repeat split; auto.
    + apply rewritten_written.
    + intros pid'. apply tally_status_written.
Qed.

(** X11. [update_prompt_status] validates the request before it looks the
    prompt up or at the caller: without [statut], or with an empty one, it
    answers 400 "Statut du prompt requis"; with a [statut] that is not one
    of the five, 400 "Statut invalide"; only then, for an unknown prompt,
    404.  Each time nothing is written. *)
Theorem update_prompt_status_validation now claims pid statut faults db :
  match statut with
  | None | Some "" =>
      serve (Prompts.update_prompt_status now claims pid statut) faults db
      = (jsonify (JDict [("error", JStr "Statut du prompt requis")]) 400, db)
  | Some s =>
      if existsb (String.eqb s) Prompts.statuts_valides then
        faults 0%nat = false ->
        find_prompt pid db = None ->
        serve (Prompts.update_prompt_status now claims pid statut) faults db
        = (jsonify (JDict [("error", JStr "Prompt non trouvé")]) 404, db)
      else
        serve (Prompts.update_prompt_status now claims pid statut) faults db
        = (jsonify (JDict [("error", JStr "Statut invalide")]) 400, db)
  end.
Proof.
  destruct statut as [[|c s]|]; try reflexivity.
  rewrite update_prompt_status_serve.
  change (String.eqb (String c s) "") with false. cbv beta iota.
  destruct (existsb (String.eqb (String c s)) Prompts.statuts_valides);
    [|reflexivity].
  cbn [negb]. intros -> ->. reflexivity.
Qed.

Lemma update_prompt_status_validation_witness :
  serve (Prompts.update_prompt_status 500 Sample.admin 99 (Some "rappel"))
        no_fault Sample.db0
  = (jsonify (JDict [("error", JStr "Prompt non trouvé")]) 404, Sample.db0).
Proof.
  exact (update_prompt_status_validation 500 Sample.admin 99 (Some "rappel")
           no_fault Sample.db0 eq_refl eq_refl).
Defined.

(** ** Activation by an admin *)

Ltac settle :=
  repeat split; intros;
  repeat match goal with
         | H : _ /\ _ |- _ => destruct H
         | H : exists _, _ |- _ => destruct H
         end;
  try discriminate; try contradiction; try congruence; try lia; eauto 6.

(** X7. [activate_prompt_by_vote] succeeds exactly when the caller is an
    admin and the prompt exists, is in [rappel] and has at least 6 points:
    the row of the prompt then has the status [activer] and [now] as date
    of last modification, and the answer shows the prompt with the status
    [activer] and reports the total.  Anybody else is answered 403; an admin is otherwise answered 400, with the
    total when the prompt is in [rappel] below 6 points.  Every refusal
    leaves the database as it was. *)
Theorem activate_prompt_by_vote_decision now claims pid db :
  let '(r, db') := serve (Prompts.activate_prompt_by_vote now claims pid) no_fault db in
  (status_code r = 200 <->
   jwt_role claims = "admin"
   /\ exists p, find_prompt pid db = Some p /\ p_statut p = "rappel"
                /\ 6 <= tally pid db)
  /\ (status_code r = 200 ->
      db' = activated now pid db
      /\ field "total_points" r = Some (JInt (tally pid db))
      /\ (exists q,
            find_prompt pid db' = Some q
            /\ p_statut q = "activer"
            /\ p_date_derniere_modification q = now)
      /\ (exists item,
            field "prompt" r = Some item
            /\ json_get "id_prompt" item = Some (JInt pid)
            /\ json_get "statut" item = Some (JStr "activer")))
  /\ (status_code r <> 200 -> db' = db)
  /\ (jwt_role claims <> "admin" -> status_code r = 403)
  /\ (jwt_role claims = "admin" -> status_code r <> 200 -> status_code r = 400)
  /\ (forall p, jwt_role claims = "admin" -> find_prompt pid db = Some p ->
                p_statut p = "rappel" -> tally pid db < 6 ->
                field "total_points" r = Some (JInt (tally pid db))).
Proof.
  rewrite activate_prompt_by_vote_serve. cbn [no_fault]. cbv zeta.
  destruct (String.eqb_spec (jwt_role claims) "admin") as [Ha|Ha]; cbn [negb];
    [|settle].
  destruct (find_prompt pid db) as [p|] eqn:Hf; [|settle].
  destruct (String.eqb_spec (p_statut p) "rappel") as [Hs|Hs]; cbn [negb];
    [|settle].
  destruct (Z.ltb_spec (tally pid db) 6) as [Hlt|Hge]; [settle|].
  pose proof (find_prompt_written "activer" now pid db p Hf) as Hw.
  pose proof (find_prompt_id pid db p Hf) as Hid.
  split; [settle|]. split; [|settle].
  intros _. split; [reflexivity|]. split; [reflexivity|]. split.
  - exists (set_statut "activer" now p). now repeat split.
  - eexists. split; [reflexivity|]. cbn. now rewrite Hid.
Qed.

Lemma activate_prompt_by_vote_witness :
  status_code
    (fst (serve (Prompts.activate_prompt_by_vote 900 (mk_jwt 2 "user") 10)
                no_fault Sample.db4)) = 403
  /\ field "total_points"
       (fst (serve (Prompts.activate_prompt_by_vote 900 Sample.admin 10)
                   no_fault Sample.db4)) = Some (JInt 4).
Proof.
  split.
  - refine (proj1 (proj2 (proj2 (proj2
      (activate_prompt_by_vote_decision 900 (mk_jwt 2 "user") 10 Sample.db4)))) _).
    discriminate.
  - refine (proj2 (proj2 (proj2 (proj2 (proj2
      (activate_prompt_by_vote_decision 900 Sample.admin 10 Sample.db4)))))
      Sample.recalled eq_refl eq_refl eq_refl _).
    reflexivity.
Defined.

(** X10. Votes outlive an activation: when an admin puts a prompt that has
    at least 6 points back to [rappel], [activate_prompt_by_vote] succeeds
    at once, without a new vote. *)
Theorem recalled_prompt_activates_at_once now1 admin1 now2 admin2 pid db p :
  jwt_role admin1 = "admin" ->
  jwt_role admin2 = "admin" ->
  find_prompt pid db = Some p ->
  6 <= tally pid db ->
  let '(r1, db1) :=
    serve (Prompts.update_prompt_status now1 admin1 pid (Some "rappel")) no_fault db in
  let '(r2, db2) :=
    serve (Prompts.activate_prompt_by_vote now2 admin2 pid) no_fault db1 in
  status_code r1 = 200
  /\ status_code r2 = 200
  /\ field "total_points" r2 = Some (JInt (tally pid db))
  /\ find_prompt pid db2
     = Some (set_statut "activer" now2 (set_statut "rappel" now1 p)).
Proof.
  intros Ha1 Ha2 Hf H6.
  rewrite update_prompt_status_serve, Hf, Ha1. cbn [no_fault].
  change (String.eqb "rappel" "") with false.
  change (existsb (String.eqb "rappel") Prompts.statuts_valides) with true.
  cbn [negb]. cbv zeta. change (String.eqb "admin" "admin") with true. cbv iota.
  rewrite activate_prompt_by_vote_serve, Ha2. cbn [no_fault].
  change (String.eqb "admin" "admin") with true. cbn [negb]. cbv zeta.
  rewrite (find_prompt_written "rappel" now1 pid db p Hf).
  cbn [p_statut set_statut]. change (String.eqb "rappel" "rappel") with true.
  cbn [negb]. rewrite tally_status_written.
  destruct (Z.ltb_spec (tally pid db) 6) as [Hlt|_]; [lia|].
  repeat split.
  unfold activated. apply find_prompt_written.
  now apply find_prompt_written.
Qed.

Lemma recalled_prompt_witness :
  status_code
    (fst (serve (Prompts.activate_prompt_by_vote 901 Sample.admin 10) no_fault
            (snd (serve (Prompts.update_prompt_status 900 Sample.admin 10
                           (Some "rappel")) no_fault Cases.db_six)))) = 200.
Proof.
  refine (proj1 (proj2 (recalled_prompt_activates_at_once 900 Sample.admin 901
            Sample.admin 10 Cases.db_six _ eq_refl eq_refl eq_refl _))).
  discriminate.
Defined.

(** ** What a vote is worth, what an activation shows *)

Lemma fold_add_snoc (l : list Z) (w : Z) :
  fold_right Z.add 0 (l ++ [w]) = fold_right Z.add 0 l + w.
Proof.
  induction l as [|a l IH]; cbn [app fold_right]; [lia|]. rewrite IH. lia.
Qed.

Lemma total_points_voted uid pid db :
  Spec.total_points pid (voted uid pid db)
  = Spec.total_points pid db
    + Spec.vote_weight (Spec.groupe_of db uid) (Spec.createur_of pid db).
Proof.
  unfold Spec.total_points, Spec.votes_on.
  change (Spec.createur_of pid (voted uid pid db)) with (Spec.createur_of pid db).
  cbn [t_vote voted with_votes].
  rewrite filter_app. cbn [filter v_id_prompt]. rewrite Z.eqb_refl.
  rewrite map_app. cbn [map]. rewrite fold_add_snoc. reflexivity.
Qed.

Lemma vote_weight_range a b : 1 <= Spec.vote_weight a b <= 2.
Proof. unfold Spec.vote_weight. destruct (Spec.affinity a b); lia. Qed.

(** X9. On tables that satisfy their keys, a vote answered 200 raises the
    total of the prompt by exactly the weight of the voter, 2 when the
    voter's group is set and is the creator's, 1 otherwise: the total the
    answer reports is the total before the call plus that weight. *)
Theorem vote_adds_weight now uid pid faults db r db' :
  integrity db = true ->
  is_utilisateur db uid = true ->
  serve (Votes.vote_prompt now uid pid) faults db = (r, db') ->
  status_code r = 200 ->
  let w := Spec.vote_weight (Spec.groupe_of db uid) (Spec.createur_of pid db) in
  field "total_points" r = Some (JInt (tally pid db + w))
  /\ tally pid db' = tally pid db + w
  /\ 1 <= w <= 2.
Proof.
  intros I Hu H H200 w.
  assert (Ht : forall p, find_prompt pid db = Some p ->
                         tally pid (voted uid pid db) = tally pid db + w).
  { intros p Hf.
    rewrite (tally_weighted_sum pid (voted uid pid db)),
            (tally_weighted_sum pid db I); [apply total_points_voted|].
    apply integrity_voted; eauto using find_prompt_is_prompt. }
  rewrite vote_prompt_serve in H. paths H; try discriminate H200.
  all: unfold activated; rewrite ?tally_status_written.
  all: rewrite (Ht _ eq_refl).
  all: repeat split; apply vote_weight_range.
Qed.

Lemma vote_adds_weight_witness :
  field "total_points"
    (fst (serve (Votes.vote_prompt 500 6 10) no_fault Sample.db4))
  = Some (JInt (tally 10 Sample.db4 + 1)).
Proof.
  exact (proj1 (vote_adds_weight 500 6 10 no_fault Sample.db4 _ _
                  eq_refl eq_refl eq_refl eq_refl)).
Defined.

Lemma forallb_map_compose {A B} (f : B -> bool) (g : A -> B) (l : list A) :
  forallb f (map g l) = forallb (fun a => f (g a)) l.
Proof. induction l as [|a l IH]; simpl; [reflexivity|]. now rewrite IH. Qed.

Lemma existsb_map_compose {A B} (f : B -> bool) (g : A -> B) (l : list A) :
  existsb f (map g l) = existsb (fun a => f (g a)) l.
Proof. induction l as [|a l IH]; simpl; [reflexivity|]. now rewrite IH. Qed.

Lemma existsb_pointwise {A} (f g : A -> bool) (l : list A) :
  (forall a, f a = g a) -> existsb f l = existsb g l.
Proof.
  intros H. induction l as [|a l IH]; simpl; [reflexivity|]. now rewrite H, IH.
Qed.

Lemma forallb_pointwise {A} (f g : A -> bool) (l : list A) :
  (forall a, f a = g a) -> forallb f l = forallb g l.
Proof.
  intros H. induction l as [|a l IH]; simpl; [reflexivity|]. now rewrite H, IH.
Qed.

(** Writing a status keeps the keys. *)
Lemma integrity_status_written s now pid db :
  integrity (status_written s now pid db) = integrity db.
Proof.
  set (g := fun p => if p_id_prompt p =? pid then set_statut s now p else p).
  assert (Hid : forall p, p_id_prompt (g p) = p_id_prompt p)
    by (intros p; unfold g; now destruct (p_id_prompt p =? pid)).
  assert (Hcr : forall p, p_id_createur (g p) = p_id_createur p)
    by (intros p; unfold g; now destruct (p_id_prompt p =? pid)).
  assert (Hp : forall k, is_prompt (status_written s now pid db) k = is_prompt db k).
  { intros k. unfold is_prompt, status_written. cbn [t_prompt with_prompts].
    fold g. rewrite existsb_map_compose.
    apply existsb_pointwise. intros p. now rewrite Hid. }
  unfold integrity.
  change (t_utilisateur (status_written s now pid db)) with (t_utilisateur db).
  change (t_vote (status_written s now pid db)) with (t_vote db).
  change (t_note (status_written s now pid db)) with (t_note db).
  change (t_prompt (status_written s now pid db)) with (map g (t_prompt db)).
  rewrite map_map, forallb_map_compose.
  rewrite (map_ext _ _ Hid).
  f_equal; [f_equal; [f_equal|]|].
  - apply forallb_pointwise. intros p. now rewrite Hcr.
  - apply forallb_pointwise. intros v. now rewrite Hp.
  - apply forallb_pointwise. intros n. now rewrite Hp.
Qed.

Lemma pending_listing db :
  integrity db = true ->
  Permutation
    (map fst (order_by Prompts.pending_le
                (filter (fun '(p, _) => existsb (String.eqb (p_statut p))
                                                Prompts.pending_statuts)
                        (Prompts.prompt_createur db))))
    (filter Spec.awaits_moderation (t_prompt db)).
Proof.
  intros I.
  rewrite (Permutation_map fst (order_by_perm Prompts.pending_le _)).
  rewrite (prompt_createur_filter
             (fun p => existsb (String.eqb (p_statut p)) Prompts.pending_statuts)
             db I).
  erewrite filter_ext; [reflexivity|]. intros p. apply pending_statuts_awaits.
Qed.

(** The rows the two listings are made of, after a vote answered with the
    activated prompt. *)
Lemma activation_rows now uid pid faults db r db' :
  integrity db = true ->
  is_utilisateur db uid = true ->
  serve (Votes.vote_prompt now uid pid) faults db = (r, db') ->
  field "prompt" r <> None ->
  (exists rows q,
     serve (Prompts.get_prompts (mk_request None None)) no_fault db'
     = (jsonify (JList (map (fun r => JDict (Prompts.prompt_row r)) rows)) 200, db')
     /\ In q (map fst rows)
     /\ p_id_prompt q = pid
     /\ p_statut q = "activer")
  /\ (forall claims,
        jwt_role claims = "admin" ->
        exists rows,
          serve (Prompts.get_pending_prompts claims) no_fault db'
          = (jsonify (JList (map Prompts.pending_row rows)) 200, db')
          /\ ~ In pid (map (fun r => p_id_prompt (fst r)) rows)).
Proof.
  intros I Hu H Hact.
  assert (Hdb : exists p, find_prompt pid db = Some p
                          /\ db' = activated now pid (voted uid pid db)).
  { rewrite vote_prompt_serve in H. paths H;
      try (exfalso; apply Hact; reflexivity). eauto. }
  destruct Hdb as (p & Hf & ->). clear H Hact.
  assert (I' : integrity (activated now pid (voted uid pid db)) = true).
  { unfold activated. rewrite integrity_status_written.
    apply integrity_voted; eauto using find_prompt_is_prompt. }
  split.
  - eexists. exists (set_statut "activer" now p).
    split; [reflexivity|].
    split; [|split; [apply (find_prompt_id pid db p Hf)|reflexivity]].
    eapply Permutation_in;
      [symmetry;
       apply (newest_first_listing (fun q => String.eqb (p_statut q) "activer")
                _ I')|].
    apply filter_In. split; [|reflexivity].
    assert (Hw : find_prompt pid (activated now pid (voted uid pid db))
                 = Some (set_statut "activer" now p))
      by (apply find_prompt_written; exact Hf).
    unfold find_prompt in Hw. apply find_some in Hw. tauto.
  - intros claims Ha. eexists. split.
    + unfold serve, Prompts.get_pending_prompts. rewrite Ha. reflexivity.
    + rewrite <- (map_map fst p_id_prompt). intros Hin.
      apply in_map_iff in Hin as (q & Hq & Hin).
      apply (Permutation_in _ (pending_listing _ I')) in Hin.
      apply filter_In in Hin as [Hin Haw].
      unfold activated, status_written in Hin. cbn [t_prompt with_prompts] in Hin.
      apply in_map_iff in Hin as (q0 & Hq0 & _).
      destruct (Z.eqb_spec (p_id_prompt q0) pid) as [E|E]; subst q.
      * discriminate Haw.
      * contradiction.
Qed.

(** X14. On tables that satisfy their keys, a vote answered with the
    activated prompt publishes it: from then on the answer of [get_prompts]
    to a visitor without [Authorization] header is a 200 with an item
    whose [id_prompt] is the prompt's and whose [statut] is [activer], and
    the answer of [get_pending_prompts] to an admin is a 200 whose items
    each show the [id_prompt] of another prompt. *)
Theorem activation_publishes now uid pid faults db r db' :
  integrity db = true ->
  is_utilisateur db uid = true ->
  serve (Votes.vote_prompt now uid pid) faults db = (r, db') ->
  field "prompt" r <> None ->
  let listing := fst (serve (Prompts.get_prompts (mk_request None None)) no_fault db') in
  status_code listing = 200
  /\ (exists item,
        In item (items listing)
        /\ json_get "id_prompt" item = Some (JInt pid)
        /\ json_get "statut" item = Some (JStr "activer"))
  /\ (forall claims,
        jwt_role claims = "admin" ->
        let pending := fst (serve (Prompts.get_pending_prompts claims) no_fault db') in
        status_code pending = 200
        /\ forall item,
             In item (items pending) ->
             exists id, json_get "id_prompt" item = Some (JInt id) /\ id <> pid).
Proof.
  intros I Hu H Hact.
  destruct (activation_rows now uid pid faults db r db' I Hu H Hact)
    as ((rows & q & Hl & Hin & Hq & Hs) & Hp).
  cbv zeta. rewrite Hl. cbn [fst]. split; [reflexivity|]. split.
  - apply in_map_iff in Hin as ([q' u] & E & Hin). cbn [fst] in E. subst q'.
    exists (JDict (Prompts.prompt_row (q, u))). split; [|split].
    + cbn [items body jsonify]. apply in_map_iff. now exists (q, u).
    + cbn. now rewrite Hq.
    + cbn. now rewrite Hs.
  - intros claims Ha. destruct (Hp claims Ha) as (prows & -> & Hnot).
    cbn [fst]. split; [reflexivity|].
    intros item Hi. cbn [items body jsonify] in Hi.
    apply in_map_iff in Hi as ([q1 u] & <- & Hi).
    exists (p_id_prompt q1). split; [reflexivity|].
    intros Hid. apply Hnot. apply in_map_iff. exists (q1, u). now split.
Qed.

Lemma activation_publishes_witness :
  exists item,
    In item
       (items (fst (serve (Prompts.get_prompts (mk_request None None)) no_fault
                      (snd (serve (Votes.vote_prompt 500 3 10) no_fault
                                  Sample.db4)))))
    /\ json_get "id_prompt" item = Some (JInt 10)
    /\ json_get "statut" item = Some (JStr "activer").
Proof.
  refine (proj1 (proj2 (activation_publishes 500 3 10 no_fault Sample.db4 _ _
                          eq_refl eq_refl eq_refl _))).
  discriminate.
Defined.

(** ** Accounts *)

Lemma group_match_none (groupes : list groupe) u :
  u_id_groupe u = None ->
  filter (fun g => Sql.holds (Sql.eq (u_id_groupe u) (Some (g_id_groupe g))))
         groupes = [].
Proof.
  intros H. rewrite H. induction groupes as [|g gs IH]; [reflexivity|exact IH].
Qed.

(** The rows the left join gives one user: at least one, all of that user. *)
Lemma left_join_rows (groupes : list groupe) u :
  exists g rest,
    left_join [u] groupes
      (fun u g => Sql.holds (Sql.eq (u_id_groupe u) (Some (g_id_groupe g))))
    = (u, g) :: rest
    /\ Forall (fun r => fst r = u) rest
    /\ (u_id_groupe u = None -> g = None /\ rest = []).
Proof.
  unfold left_join. cbn [flat_map]. rewrite app_nil_r.
  destruct (filter _ groupes) as [|g0 m] eqn:Hm.
  - exists None, []. repeat split; auto.
  - exists (Some g0), (map (fun b => (u, Some b)) m). split; [reflexivity|]. split.
    + apply Forall_forall. intros r Hr. apply in_map_iff in Hr as (b & <- & _).
      reflexivity.
    + intros Hn. rewrite (group_match_none groupes u Hn) in Hm. discriminate.
Qed.

Lemma left_join_cons {A B} (a : A) (l : list A) (r : list B) on :
  left_join (a :: l) r on = left_join [a] r on ++ left_join l r on.
Proof. unfold left_join. cbn [flat_map]. now rewrite app_nil_r. Qed.

Lemma filter_none {A} (f : A -> bool) (l : list A) :
  Forall (fun a => f a = false) l -> filter f l = [].
Proof.
  induction 1 as [|a l Ha _ IH]; [reflexivity|]. cbn [filter]. now rewrite Ha.
Qed.

Lemma user_query_head groupes uid db :
  match find_utilisateur uid db with
  | None =>
      filter (fun '(u, _) => u_id_utilisateur u =? uid)
             (Accounts.utilisateur_groupe groupes db) = []
  | Some u =>
      exists g rest,
        filter (fun '(u, _) => u_id_utilisateur u =? uid)
               (Accounts.utilisateur_groupe groupes db) = (u, g) :: rest
        /\ (u_id_groupe u = None -> g = None)
  end.
Proof.
  unfold find_utilisateur, Accounts.utilisateur_groupe.
  induction (t_utilisateur db) as [|u us IH]; [reflexivity|].
  rewrite left_join_cons, filter_app. cbn [find].
  destruct (left_join_rows groupes u) as (g & rest & -> & Hrest & Hnone).
  cbn [filter].
  destruct (u_id_utilisateur u =? uid) eqn:E.
  - eexists g, _. split; [reflexivity|]. intros Hn. now apply Hnone.
  - rewrite filter_none; [exact IH|].
    eapply Forall_impl; [|exact Hrest].
    intros [u' g'] Hu. cbn in Hu. now subst u'.
Qed.

(** X15. [get_user] answers 403, without a query, to a caller who is
    neither an admin nor the user asked for.  To an admin, and to the user
    asked for, it answers 404 when no user has the id, and otherwise 200
    with that user's id, email and role, whether the user has a group or
    not: without group, [id_groupe] is null. *)
Theorem get_user_access groupes claims uid db :
  if negb (String.eqb (jwt_role claims) "admin")
     && negb (jwt_identity claims =? uid)
  then
    forall faults,
      serve (Accounts.get_user groupes claims uid) faults db
      = (jsonify (JDict [("error", JStr "Accès non autorisé")]) 403, db)
  else
    let '(r, db') := serve (Accounts.get_user groupes claims uid) no_fault db in
    db' = db
    /\ match find_utilisateur uid db with
       | None => status_code r = 404
       | Some u =>
           status_code r = 200
           /\ field "id_utilisateur" r = Some (JInt uid)
           /\ field "email" r = Some (JStr (u_email u))
           /\ field "role" r = Some (JStr (u_role u))
           /\ (u_id_groupe u = None -> field "id_groupe" r = Some JNull)
       end.
Proof.
  unfold Accounts.get_user.
  destruct (negb (String.eqb (jwt_role claims) "admin")
            && negb (jwt_identity claims =? uid));
    [intros faults; reflexivity|].
  unfold serve. cbn [run try_except execute_query no_fault commit_or_rollback
                     Accounts.user_query select].
  pose proof (user_query_head groupes uid db) as H.
  destruct (find_utilisateur uid db) as [u|] eqn:Hf.
  - destruct H as (g & rest & -> & Hg).
    assert (Hid : u_id_utilisateur u = uid).
    { unfold find_utilisateur in Hf. apply find_some in Hf. lia. }
    cbn. rewrite Hid. repeat split.
    intros Hn. now rewrite (Hg Hn).
  - rewrite H. cbn. now split.
Qed.

Lemma at_most_one_group (groupes : list groupe) k :
  distinct (map g_id_groupe groupes) = true ->
  Nat.le (List.length (filter (fun g => k =? g_id_groupe g) groupes)) 1.
Proof.
  induction groupes as [|g gs IH]; cbn [map distinct filter]; [auto|].
  intros D. apply andb_prop in D as [N D].
  destruct (Z.eqb_spec k (g_id_groupe g)) as [->|_]; [|auto].
  rewrite (filter_key_absent g_id_groupe gs (g_id_groupe g));
    [reflexivity|now apply negb_true_iff].
Qed.

Lemma left_join_users (groupes : list groupe) (us : list utilisateur) :
  (forall u, In u us <->
             In u (map fst (left_join us groupes
                     (fun u g => Sql.holds (Sql.eq (u_id_groupe u)
                                                   (Some (g_id_groupe g)))))))
  /\ (distinct (map g_id_groupe groupes) = true ->
      map fst (left_join us groupes
                 (fun u g => Sql.holds (Sql.eq (u_id_groupe u)
                                               (Some (g_id_groupe g)))))
      = us).
Proof.
  induction us as [|u us [IH1 IH2]]; [split; [intros u; reflexivity|reflexivity]|].
  rewrite left_join_cons, map_app.
  destruct (left_join_rows groupes u) as (g & rest & Hrows & Hrest & Hnone).
  split.
  - intros x. rewrite Hrows. cbn [map fst In]. rewrite in_app_iff. cbn [In].
    rewrite <- IH1. split.
    + intros [<-|H]; auto.
    + intros [[<-|H]|H]; auto.
      apply in_map_iff in H as (r & <- & Hr).
      rewrite Forall_forall in Hrest. left. symmetry. now apply Hrest.
  - intros D. rewrite (IH2 D). clear IH1 IH2.
    assert (Hone : rest = []).
    { destruct (u_id_groupe u) as [k|] eqn:Hk; [|now apply Hnone].
      revert Hrows. unfold left_join. cbn [flat_map]. rewrite app_nil_r.
      pose proof (at_most_one_group groupes k D) as Hlen.
      erewrite filter_ext.
      2:{ intros b. rewrite Hk. cbn [Sql.eq Sql.holds].
          instantiate (1 := fun b => k =? g_id_groupe b).
          cbv beta. now destruct (k =? g_id_groupe b). }
      destruct (filter (fun b => k =? g_id_groupe b) groupes) as [|g0 [|g1 m]];
        cbn [map]; intros Heq; try (cbn in Hlen; lia);
        injection Heq as _ <-; reflexivity. }
    rewrite Hrows, Hone. reflexivity.
Qed.

Lemma left_join_no_group (groupes : list groupe) db r :
  In r (Accounts.utilisateur_groupe groupes db) ->
  u_id_groupe (fst r) = None -> snd r = None.
Proof.
  unfold Accounts.utilisateur_groupe, left_join. intros H Hn.
  apply in_flat_map in H as (u & _ & H).
  destruct (filter _ groupes) as [|g0 m] eqn:Hm.
  - destruct H as [<-|[]]. reflexivity.
  - apply in_map_iff in H as (g & <- & _). cbn [fst] in Hn.
    rewrite (group_match_none groupes u Hn) in Hm. discriminate.
Qed.

(** X16. [get_users] answers 403, without a query, to anybody but an
    admin.  To an admin it answers 200 with a list whose items show, one
    for one, the users by ascending id: id, email and role, and a null
    [id_groupe] for a user without group; every user is listed, with or
    without group, and nobody else; and when the ids of the groups are
    distinct, every user is listed once. *)
Theorem get_users_listing groupes claims db :
  if String.eqb (jwt_role claims) "admin" then
    exists rows listed,
      serve (Accounts.get_users groupes claims) no_fault db
      = (jsonify (JList listed) 200, db)
      /\ Forall2 (fun (r : utilisateur * option groupe) item =>
                    shows_user (fst r) item
                    /\ (u_id_groupe (fst r) = None ->
                        json_get "id_groupe" item = Some JNull))
                 rows listed
      /\ (forall u, In u (t_utilisateur db) <-> In u (map fst rows))
      /\ StronglySorted (fun a b => u_id_utilisateur a <= u_id_utilisateur b)
                        (map fst rows)
      /\ (distinct (map g_id_groupe groupes) = true ->
          Permutation (map fst rows) (t_utilisateur db))
  else
    forall faults,
      serve (Accounts.get_users groupes claims) faults db
      = (jsonify (JDict [("error", JStr "Accès non autorisé")]) 403, db).
Proof.
  unfold Accounts.get_users.
  destruct (String.eqb (jwt_role claims) "admin"); [|intros faults; reflexivity].
  destruct (order_asc (fun r : utilisateur * option groupe => u_id_utilisateur (fst r))
              (Accounts.utilisateur_groupe groupes db)) as [Hp Hs].
  destruct (left_join_users groupes (t_utilisateur db)) as [Hin Hall].
  eexists. eexists. split; [reflexivity|]. split; [|split; [|split]].
  - apply (Forall2_map_in _ (fun r => JDict (Accounts.account_row r))).
    intros r Hr. apply (Permutation_in _ Hp) in Hr.
    pose proof (left_join_no_group groupes db r Hr) as Hn.
    destruct r as [u g]. cbn [fst snd] in *.
    split; [now repeat split|]. intros H. rewrite (Hn H). reflexivity.
  - intros u. rewrite (Hin u). split; intros H.
    + eapply Permutation_in; [symmetry; apply Permutation_map; exact Hp|exact H].
    + eapply Permutation_in; [apply Permutation_map; exact Hp|exact H].
  - apply sorted_map_fst. exact Hs.
  - intros D. rewrite (Permutation_map fst Hp).
    unfold Accounts.utilisateur_groupe. now rewrite (Hall D).
Qed.

Lemma get_users_listing_witness :
  exists rows listed,
    serve (Accounts.get_users [mk_groupe 7 "sept"; mk_groupe 8 "huit"] Sample.admin)
          no_fault Sample.db0
    = (jsonify (JList listed) 200, Sample.db0)
    /\ Forall2 (fun (r : utilisateur * option groupe) item =>
                  shows_user (fst r) item) rows listed
    /\ Permutation (map fst rows) (t_utilisateur Sample.db0).
Proof.
  destruct (get_users_listing [mk_groupe 7 "sept"; mk_groupe 8 "huit"]
              Sample.admin Sample.db0) as (rows & listed & H1 & H2 & _ & _ & H4).
  exists rows, listed. split; [exact H1|]. split; [|exact (H4 eq_refl)].
  eapply Forall2_impl; [|exact H2]. intros r item H. exact (proj1 H).
Defined.

Lemma get_user_access_witness :
  field "id_groupe"
    (fst (serve (Accounts.get_user [mk_groupe 7 "sept"] (mk_jwt 4 "user") 4)
                no_fault Sample.db0)) = Some JNull.
Proof.
  refine (proj2 (proj2 (proj2 (proj2 (proj2
    (get_user_access [mk_groupe 7 "sept"] (mk_jwt 4 "user") 4 Sample.db0))))) _).
  reflexivity.
Defined.

(** ** Votes cast one after the other *)

Lemma vote_step now uid pid db :
  let '(r, db') := serve (Votes.vote_prompt now uid pid) no_fault db in
  (is_activation r = false /\ db' = db)
  \/ (is_activation r = false /\ db' = voted uid pid db
      /\ tally pid (voted uid pid db) < 6)
  \/ (is_activation r = true /\ db' = activated now pid (voted uid pid db)
      /\ exists p, find_prompt pid db = Some p).
Proof.
  rewrite vote_prompt_serve. cbn [no_fault].
  destruct (find_prompt pid db) as [p|]; [|now left].
  destruct (negb _); [now left|].
  destruct (_ =? uid); [now left|].
  destruct (has_voted uid pid db); [now left|].
  cbv zeta.
  destruct (Z.geb_spec (tally pid (voted uid pid db)) 6) as [Hge|Hlt].
  - right. right. repeat split. eauto.
  - right. left. repeat split. lia.
Qed.

(** On a prompt that is not open to votes, votes change nothing. *)
Lemma closed_votes pid calls : forall db,
  (forall p, find_prompt pid db = Some p -> p_statut p <> "rappel") ->
  filter is_activation (fst (serve_votes calls pid db)) = []
  /\ snd (serve_votes calls pid db) = db.
Proof.
  induction calls as [|[now uid] calls IH]; intros db Hc; [now split|].
  cbn [serve_votes]. rewrite vote_prompt_serve. cbn [no_fault].
  destruct (IH db Hc) as [H1 H2]. clear IH.
  destruct (find_prompt pid db) as [p|] eqn:Hf.
  - destruct (String.eqb_spec (p_statut p) "rappel") as [Hs|Hs];
      [exfalso; now apply (Hc p)|].
    cbn [negb].
    destruct (serve_votes calls pid db) as [rs db2]. cbn [fst snd] in *.
    now split.
  - destruct (serve_votes calls pid db) as [rs db2]. cbn [fst snd] in *.
    now split.
Qed.

(** X17. Votes cast one after the other on a prompt, none failed by the
    environment, activate it at most once, whoever votes and in whatever
    order; and a prompt that had fewer than 6 points while open to votes
    is never left open with 6 points or more. *)
Theorem votes_activate_at_most_once pid calls : forall db,
  Nat.le (List.length (filter is_activation (fst (serve_votes calls pid db)))) 1
  /\ (below_threshold pid db ->
      below_threshold pid (snd (serve_votes calls pid db))).
Proof.
  induction calls as [|[now uid] calls IH]; intros db.
  - split; [cbn; auto|auto].
  - cbn [serve_votes].
    pose proof (vote_step now uid pid db) as Hstep.
    destruct (serve (Votes.vote_prompt now uid pid) no_fault db) as [r db1].
    destruct Hstep as [[Hr ->] | [(Hr & -> & Hlt) | (Hr & -> & p & Hf)]].
    + destruct (IH db) as [H1 H2].
      destruct (serve_votes calls pid db) as [rs db2]. cbn [fst snd filter] in *.
      rewrite Hr. now split.
    + destruct (IH (voted uid pid db)) as [H1 H2].
      destruct (serve_votes calls pid (voted uid pid db)) as [rs db2].
      cbn [fst snd filter] in *. rewrite Hr. split; [exact H1|].
      intros _. apply H2. intros q _ _. exact Hlt.
    + assert (Hc : forall q,
                find_prompt pid (activated now pid (voted uid pid db)) = Some q ->
                p_statut q <> "rappel").
      { intros q Hq. unfold activated in Hq.
        rewrite (find_prompt_written "activer" now pid (voted uid pid db) p Hf) in Hq.
        injection Hq as <-. discriminate. }
      destruct (closed_votes pid calls _ Hc) as [H1 H2].
      destruct (serve_votes calls pid (activated now pid (voted uid pid db)))
        as [rs db2]. cbn [fst snd filter] in *.
      rewrite Hr, H1, H2. split; [cbn; auto|].
      intros _ q Hq Hs. exfalso. now apply (Hc q).
Qed.

Example fourth_vote_activates :
  map is_activation
      (fst (serve_votes [(501, 2); (502, 3); (503, 4); (504, 5); (505, 6)] 10
                        Sample.db0))
  = [false; false; false; true; false].
Proof. reflexivity. Qed.

Lemma votes_stay_below_threshold :
  below_threshold 10
    (snd (serve_votes [(501, 2); (502, 3); (503, 4)] 10 Sample.db0)).
Proof.
  refine (proj2 (votes_activate_at_most_once 10
                   [(501, 2); (502, 3); (503, 4)] Sample.db0) _).
  intros p _ _. reflexivity.
Defined.
